(** * Flow request/response correlation and leasing (mysql_flows.py)

    A shallow embedding of the flow-handling methods of [MySQLDBFlowMixin]
    (grr_response_server/databases/mysql_flows.py) and the properties of
    them that the specification states.

    Modelling conventions.
    - A table is the list of its rows, in the order a scan returns them.
      Primary and foreign keys are enforced by the statements that insert
      rows and are assumed of the initial database where a theorem needs
      them ([db_wf]).
    - Serialized protobuf columns hold the message itself.
    - Times are integers (microseconds since the epoch); the conversions
      between RDFDatetime, microseconds and MySQL timestamps are the
      identity.  Identifiers are the id strings; the integer encodings of
      db_utils (ClientIDToInt and friends) are not represented.
    - [rdfvalue.RDFDatetime.Now()], MySQL's [NOW(6)] and
      [utils.ProcessIdString()] are read from the environment by the code;
      here they are explicit arguments ([now], [db_now], [id_str]).
      [NOW(6)] is sampled once for every call, so all rows a call writes
      bear one timestamp; where the server would read a later time for a
      later statement of the call, the properties are stated for the calls
      that return.
    - A method wrapped by [mysql_utils.WithTransaction] is a computation in
      [Tx]; an exception rolls the transaction back. *)

From Stdlib Require Import ZArith List Bool Lia.
From stdpp Require Import base decidable countable strings gmap.
Import ListNotations.
Local Open Scope Z_scope.

(** ** Protobuf messages *)

(** An optional integer field read in a boolean context: unset reads as 0. *)
Definition truthy (field : option Z) : bool :=
  match field with
  | Some v => negb (v =? 0)
  | None => false
  end.

(** Reading an optional integer field: unset reads as 0. *)
Definition read_field (field : option Z) : Z := default 0 field.

Module FlowRequest.
Record t := mk {
    client_id : string;
    flow_id : string;
    request_id : Z;
    needs_processing : bool;
    callback_state : string;
    next_response_id : Z;
    start_time : option Z;
    nr_responses_expected : option Z;
    next_state : string;
  }.
#[global] Instance eq_dec : EqDecision t.
Proof. solve_decision. Defined.
End FlowRequest.

Module FlowResponse.
Record t := mk {
    client_id : string;
    flow_id : string;
    request_id : Z;
    response_id : Z;
    payload : string;
  }.
#[global] Instance eq_dec : EqDecision t.
Proof. solve_decision. Defined.
End FlowResponse.

Module FlowStatus.
Record t := mk {
    client_id : string;
    flow_id : string;
    request_id : Z;
    response_id : Z;
    status : Z;
    error_message : string;
  }.
#[global] Instance eq_dec : EqDecision t.
Proof. solve_decision. Defined.
End FlowStatus.

Module FlowIterator.
Record t := mk {
    client_id : string;
    flow_id : string;
    request_id : Z;
    response_id : Z;
  }.
#[global] Instance eq_dec : EqDecision t.
Proof. solve_decision. Defined.
End FlowIterator.

(** [Union[flows_pb2.FlowResponse, flows_pb2.FlowStatus,
    flows_pb2.FlowIterator]], told apart by [isinstance]. *)
Inductive FlowMessage :=
| Response (r : FlowResponse.t)
| Status (s : FlowStatus.t)
| Iterator (i : FlowIterator.t).

#[global] Instance FlowMessage_eq_dec : EqDecision FlowMessage.
Proof. solve_decision. Defined.

Module FlowProcessingRequest.
Record t := mk {
    client_id : string;
    flow_id : string;
    delivery_time : option Z;
    creation_time : option Z;
  }.
#[global] Instance eq_dec : EqDecision t.
Proof. solve_decision. Defined.
End FlowProcessingRequest.

Module MessageHandlerRequest.
Record t := mk {
    handler_name : string;
    request_id : Z;
    request : string;
    timestamp : option Z;
    leased_until : option Z;
    leased_by : option string;
  }.
#[global] Instance eq_dec : EqDecision t.
Proof. solve_decision. Defined.
End MessageHandlerRequest.

Inductive FlowState := UNSET | RUNNING | FINISHED | ERROR | CRASHED.

#[global] Instance FlowState_eq_dec : EqDecision FlowState.
Proof. solve_decision. Defined.

Module Flow.
Record t := mk {
    client_id : string;
    flow_id : string;
    long_flow_id : string;
    parent_flow_id : string;
    parent_hunt_id : string;
    flow_class_name : string;
    creator : string;
    flow_state : FlowState;
    next_request_to_process : Z;
    create_time : option Z;
    last_update_time : Z;
    processing_on : option string;
    processing_since : option Z;
    processing_deadline : option Z;
    (* cpu_time_used, kept in the microseconds of the columns *)
    user_cpu_time : Z;
    system_cpu_time : Z;
    network_bytes_sent : Z;
    num_replies_sent : Z;
    persistent_data : string;
  }.
#[global] Instance eq_dec : EqDecision t.
Proof. solve_decision. Defined.
End Flow.

(** ** Tables *)

Abbreviation FlowKey := (string * string)%type.
Abbreviation RequestKey := (string * string * Z)%type.
Abbreviation ResponseKey := (string * string * Z * Z)%type.
Abbreviation FprKey := (string * string * Z)%type.

Module FlowRow.
Record t := mk {
    client_id : string;
    flow_id : string;
    long_flow_id : string;
    parent_flow_id : option string;
    parent_hunt_id : option string;
    name : option string;
    creator : option string;
    flow : Flow.t;
    flow_state : option FlowState;
    next_request_to_process : Z;
    processing_deadline : option Z;
    processing_on : option string;
    processing_since : option Z;
    user_cpu_time_used_micros : Z;
    system_cpu_time_used_micros : Z;
    network_bytes_sent : Z;
    num_replies_sent : Z;
    timestamp : Z;
    last_update : Z;
  }.
#[global] Instance eq_dec : EqDecision t.
Proof. solve_decision. Defined.
Definition key (r : t) : FlowKey := (client_id r, flow_id r).
End FlowRow.

Module RequestRow.
Record t := mk {
    client_id : string;
    flow_id : string;
    request_id : Z;
    needs_processing : bool;
    responses_expected : option Z;
    callback_state : string;
    next_response_id : Z;
    start_time : option Z;
    request : FlowRequest.t;
  }.
#[global] Instance eq_dec : EqDecision t.
Proof. solve_decision. Defined.
Definition key (r : t) : RequestKey := (client_id r, flow_id r, request_id r).
Definition flow_key (r : t) : FlowKey := (client_id r, flow_id r).
End RequestRow.

Module ResponseRow.
Record t := mk {
    client_id : string;
    flow_id : string;
    request_id : Z;
    response_id : Z;
    (* the columns response, status and iterator: one of them holds the
       serialized message, the other two the empty string *)
    message : FlowMessage;
    timestamp : Z;
  }.
#[global] Instance eq_dec : EqDecision t.
Proof. solve_decision. Defined.
Definition key (r : t) : ResponseKey :=
  (client_id r, flow_id r, request_id r, response_id r).
Definition request_key (r : t) : RequestKey :=
  (client_id r, flow_id r, request_id r).
End ResponseRow.

Module FprRow.
Record t := mk {
    client_id : string;
    flow_id : string;
    timestamp : Z;
    request : FlowProcessingRequest.t;
    delivery_time : option Z;
    leased_until : option Z;
    leased_by : option string;
  }.
#[global] Instance eq_dec : EqDecision t.
Proof. solve_decision. Defined.
Definition flow_key (r : t) : FlowKey := (client_id r, flow_id r).
Definition key (r : t) : FprKey := (client_id r, flow_id r, timestamp r).
End FprRow.

Module MhrRow.
Record t := mk {
    handlername : string;
    request_id : Z;
    timestamp : Z;
    request : MessageHandlerRequest.t;
    leased_until : option Z;
    leased_by : option string;
  }.
#[global] Instance eq_dec : EqDecision t.
Proof. solve_decision. Defined.
Definition key (r : t) : string * Z := (handlername r, request_id r).
End MhrRow.

Module HuntRow.
Record t := mk {
    hunt_id : string;
    hunt_state : option Z;
  }.
End HuntRow.

Record Db := mkDb {
  flows : list FlowRow.t;
  flow_requests : list RequestRow.t;
  flow_responses : list ResponseRow.t;
  flow_processing_requests : list FprRow.t;
  message_handler_requests : list MhrRow.t;
  hunts : list HuntRow.t;
}.

Definition set_flows (db : Db) (rows : list FlowRow.t) : Db :=
  mkDb rows (flow_requests db) (flow_responses db)
       (flow_processing_requests db) (message_handler_requests db) (hunts db).

Definition set_flow_requests (db : Db) (rows : list RequestRow.t) : Db :=
  mkDb (flows db) rows (flow_responses db)
       (flow_processing_requests db) (message_handler_requests db) (hunts db).

Definition set_flow_responses (db : Db) (rows : list ResponseRow.t) : Db :=
  mkDb (flows db) (flow_requests db) rows
       (flow_processing_requests db) (message_handler_requests db) (hunts db).

Definition set_flow_processing_requests (db : Db) (rows : list FprRow.t) : Db :=
  mkDb (flows db) (flow_requests db) (flow_responses db)
       rows (message_handler_requests db) (hunts db).

Definition set_message_handler_requests (db : Db) (rows : list MhrRow.t) : Db :=
  mkDb (flows db) (flow_requests db) (flow_responses db)
       (flow_processing_requests db) rows (hunts db).

(** ** Exceptions, transactions and calls *)

Inductive Exception :=
| UnknownFlowError (client_id flow_id : string)
| ValueError (message : string)
| ParentHuntIsNotRunningError
    (client_id flow_id hunt_id : string) (hunt_state : Z)
| AtLeastOneUnknownFlowError (flow_keys : list FlowKey)
| KeyError (key : FlowKey)
| IntegrityError
| ProgrammingError.

Inductive result (A : Type) :=
| Ok (a : A)
| Raise (e : Exception).
Arguments Ok {A} a.
Arguments Raise {A} e.

(** The body of a transaction: the statements run on a cursor.  A raised
    exception carries no database: nothing of the transaction is kept. *)
Definition Tx (A : Type) : Type := Db -> result (A * Db).

Definition tx_ret {A} (a : A) : Tx A := fun db => Ok (a, db).

Definition tx_bind {A B} (m : Tx A) (k : A -> Tx B) : Tx B :=
  fun db =>
    match m db with
    | Ok (a, db') => k a db'
    | Raise e => Raise e
    end.

Definition tx_raise {A} (e : Exception) : Tx A := fun _ => Raise e.

Definition tx_get : Tx Db := fun db => Ok (db, db).

Definition tx_modify (f : Db -> Db) : Tx unit := fun db => Ok (tt, f db).

Declare Scope tx_scope.
Delimit Scope tx_scope with tx.
Notation "x <- m ;; k" := (tx_bind m (fun x => k))
  (at level 100, m at next level, right associativity) : tx_scope.
Notation "m ;; k" := (tx_bind m (fun _ => k))
  (at level 100, right associativity) : tx_scope.

(** [for x in items: body(x)] inside a transaction. *)
Fixpoint tx_for {A} (items : list A) (body : A -> Tx unit) : Tx unit :=
  match items with
  | [] => tx_ret tt
  | x :: rest => tx_bind (body x) (fun _ => tx_for rest body)
  end.

(** [try: m except MySQLdb.IntegrityError: handler].  The failed statement
    changed nothing, the handler runs on the database as it was. *)
Definition except_IntegrityError {A} (m : Tx A) (handler : Tx A) : Tx A :=
  fun db =>
    match m db with
    | Raise IntegrityError => handler db
    | r => r
    end.

(** A call of a public method: it returns or raises, and the database
    keeps what was committed. *)
Definition Call (A : Type) : Type := Db -> result A * Db.

Definition call_ret {A} (a : A) : Call A := fun db => (Ok a, db).

Definition call_bind {A B} (m : Call A) (k : A -> Call B) : Call B :=
  fun db =>
    match m db with
    | (Ok a, db') => k a db'
    | (Raise e, db') => (Raise e, db')
    end.

Fixpoint call_for {A} (items : list A) (body : A -> Call unit) : Call unit :=
  match items with
  | [] => call_ret tt
  | x :: rest => call_bind (body x) (fun _ => call_for rest body)
  end.

(** [@mysql_utils.WithTransaction()]: commit on return, roll back on an
    exception. *)
Definition WithTransaction {A} (m : Tx A) : Call A :=
  fun db =>
    match m db with
    | Ok (a, db') => (Ok a, db')
    | Raise e => (Raise e, db)
    end.

(** ** Statements *)

(** [UPDATE t SET ... WHERE cond]: the table after the statement. *)
Definition update_where {A} (cond : A -> bool) (set : A -> A)
    (rows : list A) : list A :=
  map (fun r => if cond r then set r else r) rows.

(** The value [cursor.execute] returns for an UPDATE: the rows the
    statement changed. *)
Definition rows_changed {A} `{EqDecision A} (cond : A -> bool) (set : A -> A)
    (rows : list A) : Z :=
  Z.of_nat
    (length (List.filter (fun r => cond r && negb (bool_decide (set r = r)))
                         rows)).

(** [UPDATE t SET ... WHERE cond LIMIT n]: the statement stops at the n-th
    row that satisfies [cond], changed or not. *)
Fixpoint update_limit {A} (cond : A -> bool) (set : A -> A) (n : nat)
    (rows : list A) : list A :=
  match rows with
  | [] => []
  | r :: rest =>
      match n with
      | O => r :: rest
      | S n' =>
          if cond r then set r :: update_limit cond set n' rest
          else r :: update_limit cond set n rest
      end
  end.

Fixpoint rows_changed_limit {A} `{EqDecision A} (cond : A -> bool)
    (set : A -> A) (n : nat) (rows : list A) : Z :=
  match rows with
  | [] => 0
  | r :: rest =>
      match n with
      | O => 0
      | S n' =>
          if cond r
          then (if bool_decide (set r = r) then 0 else 1)
               + rows_changed_limit cond set n' rest
          else rows_changed_limit cond set n rest
      end
  end.

(** [SELECT ... WHERE cond LIMIT n]. *)
Definition select_limit {A} (cond : A -> bool) (n : nat) (rows : list A)
    : list A :=
  firstn n (List.filter cond rows).

(** ** collection.Batch *)

(** Modelled from the spec: [collection.Batch] (grr_response_core) is not
    among the sources.  The specification has the responses "processed in
    fixed-size batches": the items are cut, in order, into lists of [size]
    items, the last one holding what is left. *)
Fixpoint Batch_loop {A} (size : nat) (items batch : list A)
    : list (list A) :=
  match items with
  | [] => match batch with [] => [] | _ => [batch] end
  | item :: rest =>
      let batch' := batch ++ [item] in
      if Nat.eqb (length batch') size
      then batch' :: Batch_loop size rest []
      else Batch_loop size rest batch'
  end.

Definition Batch {A} (items : list A) (size : nat) : list (list A) :=
  Batch_loop size items [].

(** ** Keys of the response messages *)

Definition msg_client_id (r : FlowMessage) : string :=
  match r with
  | Response m => FlowResponse.client_id m
  | Status m => FlowStatus.client_id m
  | Iterator m => FlowIterator.client_id m
  end.

Definition msg_flow_id (r : FlowMessage) : string :=
  match r with
  | Response m => FlowResponse.flow_id m
  | Status m => FlowStatus.flow_id m
  | Iterator m => FlowIterator.flow_id m
  end.

Definition msg_request_id (r : FlowMessage) : Z :=
  match r with
  | Response m => FlowResponse.request_id m
  | Status m => FlowStatus.request_id m
  | Iterator m => FlowIterator.request_id m
  end.

Definition msg_response_id (r : FlowMessage) : Z :=
  match r with
  | Response m => FlowResponse.response_id m
  | Status m => FlowStatus.response_id m
  | Iterator m => FlowIterator.response_id m
  end.

Definition msg_flow_key (r : FlowMessage) : FlowKey :=
  (msg_client_id r, msg_flow_id r).

Definition msg_request_key (r : FlowMessage) : RequestKey :=
  (msg_client_id r, msg_flow_id r, msg_request_id r).

Definition msg_key (r : FlowMessage) : ResponseKey :=
  (msg_client_id r, msg_flow_id r, msg_request_id r, msg_response_id r).

(** ** Reading single cells *)

Definition find_flow (db : Db) (k : FlowKey) : option FlowRow.t :=
  List.find (fun f => bool_decide (FlowRow.key f = k)) (flows db).

Definition find_request (db : Db) (k : RequestKey) : option RequestRow.t :=
  List.find (fun q => bool_decide (RequestRow.key q = k)) (flow_requests db).

Definition known_flow (db : Db) (k : FlowKey) : bool :=
  existsb (fun f => bool_decide (FlowRow.key f = k)) (flows db).

Definition known_request (db : Db) (k : RequestKey) : bool :=
  existsb (fun q => bool_decide (RequestRow.key q = k)) (flow_requests db).

(** The stored responses of a request, and how many there are. *)
Definition responses_of (db : Db) (k : RequestKey) : list ResponseRow.t :=
  List.filter (fun x => bool_decide (ResponseRow.request_key x = k))
              (flow_responses db).

Definition count_responses (db : Db) (k : RequestKey) : Z :=
  Z.of_nat (length (responses_of db k)).

(** The stored rows that carry the primary key of a response. *)
Definition copies_of (db : Db) (k : ResponseKey) : list ResponseRow.t :=
  List.filter (fun x => bool_decide (ResponseRow.key x = k))
              (flow_responses db).

(** The flow processing requests stored for a flow. *)
Definition fprs_of (db : Db) (k : FlowKey) : list FprRow.t :=
  List.filter (fun x => bool_decide (FprRow.flow_key x = k))
              (flow_processing_requests db).

(** ** _WriteFlowProcessingRequests *)

Definition fpr_row (db_now : Z) (req : FlowProcessingRequest.t) : FprRow.t :=
  {| FprRow.client_id := FlowProcessingRequest.client_id req;
     FprRow.flow_id := FlowProcessingRequest.flow_id req;
     FprRow.timestamp := db_now;
     FprRow.request := req;
     FprRow.delivery_time :=
       if truthy (FlowProcessingRequest.delivery_time req)
       then FlowProcessingRequest.delivery_time req
       else None;
     FprRow.leased_until := None;
     FprRow.leased_by := None |}.

(** Modelled from the spec: the declaration of the table
    flow_processing_requests is not among the sources.  The specification
    has a flow processing request "identified by (client_id, flow_id,
    creation_timestamp)", and AckFlowProcessingRequests deletes by these
    three columns: they are the primary key of the table.
    [INSERT INTO flow_processing_requests ... VALUES rows]: a row whose key
    is taken, by a stored row or by a row before it in the statement,
    makes the statement raise IntegrityError and insert nothing.  Neither
    the sources nor the specification give the table a foreign key, and
    none is checked here. *)
Fixpoint insert_fprs (tbl : list FprRow.t) (rows : list FprRow.t)
    : option (list FprRow.t) :=
  match rows with
  | [] => Some tbl
  | row :: rest =>
      if existsb (fun x => bool_decide (FprRow.key x = FprRow.key row)) tbl
      then None
      else insert_fprs (tbl ++ [row]) rest
  end.

(** The statement names no timestamp: every row of it gets [NOW(6)]. *)
Definition _WriteFlowProcessingRequests (db_now : Z)
    (requests : list FlowProcessingRequest.t) : Tx unit :=
  match requests with
  | [] => tx_raise ProgrammingError (* "... VALUES " without a row *)
  | _ =>
      fun db =>
        match insert_fprs (flow_processing_requests db)
                          (map (fpr_row db_now) requests) with
        | Some tbl => Ok (tt, set_flow_processing_requests db tbl)
        | None => Raise IntegrityError
        end
  end.

(** ** _WriteResponses *)

Definition response_row (db_now : Z) (r : FlowMessage) : ResponseRow.t :=
  {| ResponseRow.client_id := msg_client_id r;
     ResponseRow.flow_id := msg_flow_id r;
     ResponseRow.request_id := msg_request_id r;
     ResponseRow.response_id := msg_response_id r;
     ResponseRow.message := r;
     ResponseRow.timestamp := db_now |}.

(** One row of an INSERT IGNORE: a row whose primary key is stored already
    is dropped. *)
Definition insert_ignore_response (tbl : list ResponseRow.t)
    (row : ResponseRow.t) : list ResponseRow.t :=
  if existsb (fun x => bool_decide (ResponseRow.key x = ResponseRow.key row))
             tbl
  then tbl
  else tbl ++ [row].

(** [INSERT IGNORE INTO flow_responses ... VALUES rows].  A row that
    refers to a request that is not stored breaks the foreign key of the
    table on flow_requests: the statement raises IntegrityError and
    inserts nothing. *)
Definition execute_insert_ignore_responses (rows : list ResponseRow.t)
    : Tx unit :=
  fun db =>
    if forallb (fun row => known_request db (ResponseRow.request_key row))
               rows
    then Ok (tt, set_flow_responses db
                   (fold_left insert_ignore_response rows (flow_responses db)))
    else Raise IntegrityError.

(** [_WriteResponses([r], cursor)], the call the method makes on itself
    for each response of a batch that failed as a whole. *)
Definition _WriteResponses_single (db_now : Z) (r : FlowMessage) : Tx unit :=
  except_IntegrityError
    (execute_insert_ignore_responses [response_row db_now r])
    (tx_ret tt) (* logging.warning("Response for unknown request: %s") *).

Definition _WriteResponses (db_now : Z) (responses : list FlowMessage)
    : Tx unit :=
  match responses with
  | [] => tx_raise ProgrammingError (* "... VALUES " without a row *)
  | _ =>
      except_IntegrityError
        (execute_insert_ignore_responses (map (response_row db_now) responses))
        (if (1 <? Z.of_nat (length responses))
         then tx_for responses (_WriteResponses_single db_now)
         else tx_ret tt (* logging.warning *))
  end.

(** ** _WriteFlowResponsesAndExpectedUpdates *)

(** [UPDATE flow_requests SET responses_expected=... WHERE client_id = ...
    AND flow_id = ... AND request_id = ...]. *)
Definition set_responses_expected (v : Z) (q : RequestRow.t) : RequestRow.t :=
  {| RequestRow.client_id := RequestRow.client_id q;
     RequestRow.flow_id := RequestRow.flow_id q;
     RequestRow.request_id := RequestRow.request_id q;
     RequestRow.needs_processing := RequestRow.needs_processing q;
     RequestRow.responses_expected := Some v;
     RequestRow.callback_state := RequestRow.callback_state q;
     RequestRow.next_response_id := RequestRow.next_response_id q;
     RequestRow.start_time := RequestRow.start_time q;
     RequestRow.request := RequestRow.request q |}.

Definition execute_update_responses_expected (k : RequestKey) (v : Z)
    : Tx unit :=
  tx_modify (fun db =>
    set_flow_requests db
      (update_where (fun q => bool_decide (RequestRow.key q = k))
                    (set_responses_expected v) (flow_requests db))).

Definition _WriteFlowResponsesAndExpectedUpdates_body (db_now : Z)
    (responses : list FlowMessage) : Tx unit :=
  (_WriteResponses db_now responses ;;
   tx_for responses (fun r =>
     match r with
     | Status s =>
         execute_update_responses_expected (msg_request_key r)
                                           (FlowStatus.response_id s)
     | _ => tx_ret tt
     end))%tx.

Definition _WriteFlowResponsesAndExpectedUpdates (db_now : Z)
    (responses : list FlowMessage) : Call unit :=
  WithTransaction (_WriteFlowResponsesAndExpectedUpdates_body db_now responses).

(** ** _ReadFlowResponseCounts *)

(** The rows of the join of flow_responses and flow_requests, grouped by
    request: a request that needs no processing yet, is named by
    [request_keys] and has a stored response.  [COUNT( * )] of its group is
    the number of its responses. *)
Definition counted_request (db : Db) (request_keys : gset RequestKey)
    (q : RequestRow.t) : bool :=
  bool_decide (RequestRow.key q ∈ request_keys)
  && negb (RequestRow.needs_processing q)
  && (0 <? count_responses db (RequestRow.key q)).

Definition _ReadFlowResponseCounts (request_keys : gset RequestKey)
    : Tx (gmap RequestKey Z) :=
  if bool_decide (request_keys = ∅)
  then tx_raise ProgrammingError (* "WHERE () AND ..." *)
  else
    (db <- tx_get ;;
     tx_ret
       (fold_left
          (fun (response_counts : gmap RequestKey Z) q =>
             <[RequestRow.key q := count_responses db (RequestRow.key q)]>
               response_counts)
          (List.filter (counted_request db request_keys) (flow_requests db))
          ∅))%tx.

(** ** _ReadAndLockNextRequestsToProcess *)

Definition _ReadAndLockNextRequestsToProcess (flow_keys : gset FlowKey)
    : Tx (gmap FlowKey Z) :=
  if bool_decide (flow_keys = ∅)
  then tx_raise ProgrammingError (* "WHERE  FOR UPDATE" *)
  else
    (db <- tx_get ;;
     tx_ret
       (fold_left
          (fun (next_requests : gmap FlowKey Z) f =>
             <[FlowRow.key f := FlowRow.next_request_to_process f]>
               next_requests)
          (List.filter (fun f => bool_decide (FlowRow.key f ∈ flow_keys))
                       (flows db))
          ∅))%tx.

(** ** _ReadLockAndUpdateAffectedRequests *)

Definition set_needs_processing (q : RequestRow.t) : RequestRow.t :=
  {| RequestRow.client_id := RequestRow.client_id q;
     RequestRow.flow_id := RequestRow.flow_id q;
     RequestRow.request_id := RequestRow.request_id q;
     RequestRow.needs_processing := true;
     RequestRow.responses_expected := RequestRow.responses_expected q;
     RequestRow.callback_state := RequestRow.callback_state q;
     RequestRow.next_response_id := RequestRow.next_response_id q;
     RequestRow.start_time := RequestRow.start_time q;
     RequestRow.request := RequestRow.request q |}.

(** [condition_template] with its four arguments. *)
Definition condition_template (arg : RequestKey * Z) (q : RequestRow.t)
    : bool :=
  bool_decide (RequestRow.key q = arg.1)
  && (bool_decide (RequestRow.responses_expected q = Some arg.2)
      || negb (bool_decide (RequestRow.callback_state q = ""%string))).

(** [callback_agnostic_condition_template] with its four arguments. *)
Definition callback_agnostic_condition_template (arg : RequestKey * Z)
    (q : RequestRow.t) : bool :=
  bool_decide (RequestRow.key q = arg.1)
  && bool_decide (RequestRow.responses_expected q = Some arg.2).

Definition _ReadLockAndUpdateAffectedRequests
    (request_keys : gset RequestKey) (response_counts : gmap RequestKey Z)
    : Tx (list (RequestKey * FlowRequest.t)) :=
  let args : list (RequestKey * Z) :=
    omap (fun request_key =>
            match response_counts !! request_key with
            | Some count => Some (request_key, count)
            | None => None
            end)
         (elements request_keys) in
  match args with
  | [] => tx_ret []
  | _ =>
      (db <- tx_get ;;
       let affected_requests :=
         map (fun q => (RequestRow.key q, RequestRow.request q))
             (List.filter
                (fun q => existsb (fun arg => condition_template arg q) args
                          && negb (RequestRow.needs_processing q))
                (flow_requests db)) in
       tx_modify (fun db =>
         set_flow_requests db
           (update_where
              (fun q =>
                 existsb (fun arg => callback_agnostic_condition_template arg q)
                         args
                 && negb (RequestRow.needs_processing q))
              set_needs_processing (flow_requests db))) ;;
       tx_ret affected_requests)%tx
  end.

(** ** _UpdateRequestsAndScheduleFPRs *)

Definition fpr_of_request (request : FlowRequest.t)
    : FlowProcessingRequest.t :=
  {| FlowProcessingRequest.client_id := FlowRequest.client_id request;
     FlowProcessingRequest.flow_id := FlowRequest.flow_id request;
     FlowProcessingRequest.delivery_time := FlowRequest.start_time request;
     FlowProcessingRequest.creation_time := None |}.

(** The loop over [affected_requests.items()]; [next_requests[...]] raises
    KeyError for a flow that was not read. *)
Fixpoint fprs_to_write (next_requests : gmap FlowKey Z)
    (affected_requests : list (RequestKey * FlowRequest.t))
    : result (list FlowProcessingRequest.t) :=
  match affected_requests with
  | [] => Ok []
  | (request_key, request) :: rest =>
      let '(client_id, flow_id, request_id) := request_key in
      match next_requests !! (client_id, flow_id) with
      | None => Raise (KeyError (client_id, flow_id))
      | Some next_request =>
          match fprs_to_write next_requests rest with
          | Raise e => Raise e
          | Ok fprs =>
              if next_request =? request_id
              then Ok (fpr_of_request request :: fprs)
              else Ok fprs
          end
      end
  end.

Definition _UpdateRequestsAndScheduleFPRs_body (db_now : Z)
    (responses : list FlowMessage) : Tx unit :=
  let request_keys : gset RequestKey :=
    list_to_set (map msg_request_key responses) in
  let flow_keys : gset FlowKey :=
    list_to_set (map msg_flow_key responses) in
  (response_counts <- _ReadFlowResponseCounts request_keys ;;
   next_requests <- _ReadAndLockNextRequestsToProcess flow_keys ;;
   affected_requests <-
     _ReadLockAndUpdateAffectedRequests request_keys response_counts ;;
   match affected_requests with
   | [] => tx_ret tt
   | _ =>
       match fprs_to_write next_requests affected_requests with
       | Raise e => tx_raise e
       | Ok [] => tx_ret tt
       | Ok fprs => _WriteFlowProcessingRequests db_now fprs
       end
   end)%tx.

Definition _UpdateRequestsAndScheduleFPRs (db_now : Z)
    (responses : list FlowMessage) : Call unit :=
  WithTransaction (_UpdateRequestsAndScheduleFPRs_body db_now responses).

(** ** WriteFlowResponses *)

Section MySQLDBFlowMixin.

(** [_WRITE_ROWS_BATCH_SIZE] and [_DELETE_ROWS_BATCH_SIZE] are declared by
    the mixin and set by the class that uses it. *)
Variable _WRITE_ROWS_BATCH_SIZE : nat.
Variable _DELETE_ROWS_BATCH_SIZE : nat.

(** The body of the loop over the batches. *)
Definition write_batch (db_now : Z) (batch : list FlowMessage) : Call unit :=
  call_bind (_WriteFlowResponsesAndExpectedUpdates db_now batch)
            (fun _ => _UpdateRequestsAndScheduleFPRs db_now batch).

Definition WriteFlowResponses (db_now : Z) (responses : list FlowMessage)
    : Call unit :=
  match responses with
  | [] => call_ret tt
  | _ =>
      call_for (Batch responses _WRITE_ROWS_BATCH_SIZE) (write_batch db_now)
  end.


(** ** UpdateIncrementalFlowRequests *)

Definition set_next_response_id (v : Z) (q : RequestRow.t) : RequestRow.t :=
  {| RequestRow.client_id := RequestRow.client_id q;
     RequestRow.flow_id := RequestRow.flow_id q;
     RequestRow.request_id := RequestRow.request_id q;
     RequestRow.needs_processing := RequestRow.needs_processing q;
     RequestRow.responses_expected := RequestRow.responses_expected q;
     RequestRow.callback_state := RequestRow.callback_state q;
     RequestRow.next_response_id := v;
     RequestRow.start_time := RequestRow.start_time q;
     RequestRow.request := RequestRow.request q |}.

Definition UpdateIncrementalFlowRequests_body (client_id flow_id : string)
    (next_response_id_updates : gmap Z Z) : Tx unit :=
  if bool_decide (next_response_id_updates = ∅)
  then tx_ret tt
  else
    tx_for (map_to_list next_response_id_updates)
      (fun '(request_id, next_response_id) =>
         tx_modify (fun db =>
           set_flow_requests db
             (update_where
                (fun q => bool_decide
                            (RequestRow.key q = (client_id, flow_id, request_id)))
                (set_next_response_id next_response_id)
                (flow_requests db)))).

Definition UpdateIncrementalFlowRequests (client_id flow_id : string)
    (next_response_id_updates : gmap Z Z) : Call unit :=
  WithTransaction
    (UpdateIncrementalFlowRequests_body client_id flow_id
                                        next_response_id_updates).

(** ** DeleteFlowRequests *)

Definition request_key_of (r : FlowRequest.t) : RequestKey :=
  (FlowRequest.client_id r, FlowRequest.flow_id r, FlowRequest.request_id r).

Definition flow_key_of (r : FlowRequest.t) : FlowKey :=
  (FlowRequest.client_id r, FlowRequest.flow_id r).

(** [DELETE FROM t WHERE cond]. *)
Definition delete_where {A} (cond : A -> bool) (rows : list A) : list A :=
  List.filter (fun r => negb (cond r)) rows.

Definition DeleteFlowRequests_body (requests : list FlowRequest.t) : Tx unit :=
  match requests with
  | [] => tx_ret tt
  | _ =>
      tx_for (Batch requests _DELETE_ROWS_BATCH_SIZE)
        (fun batch =>
           let key_match_list := map request_key_of batch in
           (tx_modify (fun db =>
              set_flow_responses db
                (delete_where
                   (fun x => bool_decide
                               (ResponseRow.request_key x ∈ key_match_list))
                   (flow_responses db))) ;;
            tx_modify (fun db =>
              set_flow_requests db
                (delete_where
                   (fun q => bool_decide (RequestRow.key q ∈ key_match_list))
                   (flow_requests db))))%tx)
  end.

Definition DeleteFlowRequests (requests : list FlowRequest.t) : Call unit :=
  WithTransaction (DeleteFlowRequests_body requests).

(** ** AckFlowProcessingRequests *)

Definition AckFlowProcessingRequests_body
    (requests : list FlowProcessingRequest.t) : Tx unit :=
  match requests with
  | [] => tx_ret tt
  | _ =>
      tx_modify (fun db =>
        set_flow_processing_requests db
          (delete_where
             (fun x =>
                existsb
                  (fun r =>
                     bool_decide
                       (FprRow.client_id x = FlowProcessingRequest.client_id r)
                     && bool_decide
                          (FprRow.flow_id x = FlowProcessingRequest.flow_id r)
                     && (FprRow.timestamp x
                         =? read_field (FlowProcessingRequest.creation_time r)))
                  requests)
             (flow_processing_requests db)))
  end.

Definition AckFlowProcessingRequests
    (requests : list FlowProcessingRequest.t) : Call unit :=
  WithTransaction (AckFlowProcessingRequests_body requests).

(** ** WriteFlowRequests *)

Definition request_row (r : FlowRequest.t) : RequestRow.t :=
  {| RequestRow.client_id := FlowRequest.client_id r;
     RequestRow.flow_id := FlowRequest.flow_id r;
     RequestRow.request_id := FlowRequest.request_id r;
     RequestRow.needs_processing := FlowRequest.needs_processing r;
     RequestRow.responses_expected := None;
     RequestRow.callback_state := FlowRequest.callback_state r;
     RequestRow.next_response_id := FlowRequest.next_response_id r;
     RequestRow.start_time :=
       if truthy (FlowRequest.start_time r) then FlowRequest.start_time r
       else None;
     RequestRow.request := r |}.

(** [INSERT INTO flow_requests ... VALUES rows]: a row whose primary key
    is taken, or whose flow is not stored, makes the statement raise
    IntegrityError and insert nothing. *)
Fixpoint insert_requests (db : Db) (tbl : list RequestRow.t)
    (rows : list RequestRow.t) : option (list RequestRow.t) :=
  match rows with
  | [] => Some tbl
  | row :: rest =>
      if existsb (fun q => bool_decide (RequestRow.key q = RequestRow.key row))
                 tbl
         || negb (known_flow db (RequestRow.flow_key row))
      then None
      else insert_requests db (tbl ++ [row]) rest
  end.

Definition execute_insert_requests (rows : list RequestRow.t) : Tx unit :=
  fun db =>
    match rows with
    | [] => Raise ProgrammingError (* "... VALUES " without a row *)
    | _ =>
        match insert_requests db (flow_requests db) rows with
        | Some tbl => Ok (tt, set_flow_requests db tbl)
        | None => Raise IntegrityError
        end
    end.

(** [needs_processing.setdefault((r.client_id, r.flow_id), []).append(r)]
    for the requests flagged needs_processing. *)
Definition collect_needs_processing (requests : list FlowRequest.t)
    : gmap FlowKey (list FlowRequest.t) :=
  fold_left
    (fun (needs_processing : gmap FlowKey (list FlowRequest.t)) r =>
       if FlowRequest.needs_processing r
       then <[flow_key_of r :=
                default [] (needs_processing !! flow_key_of r) ++ [r]]>
              needs_processing
       else needs_processing)
    requests ∅.

(** The flow processing requests of one row of [db_result]. *)
Definition candidate_fprs (f : FlowRow.t)
    (candidate_requests : list FlowRequest.t)
    : list FlowProcessingRequest.t :=
  omap (fun r =>
          if (FlowRow.next_request_to_process f =? FlowRequest.request_id r)
             || truthy (FlowRequest.start_time r)
          then Some
                 {| FlowProcessingRequest.client_id := FlowRow.client_id f;
                    FlowProcessingRequest.flow_id := FlowRow.flow_id f;
                    FlowProcessingRequest.delivery_time :=
                      if truthy (FlowRequest.start_time r)
                      then FlowRequest.start_time r
                      else None;
                    FlowProcessingRequest.creation_time := None |}
          else None)
       candidate_requests.

(** The block [if needs_processing: ...] of the method: the flows of the
    flagged requests are read, and the flow processing requests of their
    candidate requests are written. *)
Definition schedule_needs_processing (db_now : Z)
    (needs_processing : gmap FlowKey (list FlowRequest.t)) : Tx unit :=
  if bool_decide (needs_processing = ∅)
  then tx_ret tt
  else
    (db <- tx_get ;;
     let db_result :=
       List.filter
         (fun f => bool_decide (is_Some (needs_processing !! FlowRow.key f)))
         (flows db) in
     let flow_processing_requests :=
       concat
         (map (fun f =>
                 candidate_fprs f
                   (default [] (needs_processing !! FlowRow.key f)))
              db_result) in
     match flow_processing_requests with
     | [] => tx_ret tt
     | _ => _WriteFlowProcessingRequests db_now flow_processing_requests
     end)%tx.

Definition WriteFlowRequests_body (db_now : Z)
    (requests : list FlowRequest.t) : Tx unit :=
  let needs_processing := collect_needs_processing requests in
  let flow_keys := map flow_key_of requests in
  (schedule_needs_processing db_now needs_processing ;;
   fun db =>
     match execute_insert_requests (map request_row requests) db with
     | Raise IntegrityError => Raise (AtLeastOneUnknownFlowError flow_keys)
     | r => r
     end)%tx.

Definition WriteFlowRequests (db_now : Z) (requests : list FlowRequest.t)
    : Call unit :=
  WithTransaction (WriteFlowRequests_body db_now requests).

(** ** _FlowObjectFromRow *)

Definition _FlowObjectFromRow (row : FlowRow.t) : Flow.t :=
  let flow_obj := FlowRow.flow row in
  {| Flow.client_id := FlowRow.client_id row;
     Flow.flow_id := FlowRow.flow_id row;
     Flow.long_flow_id := FlowRow.long_flow_id row;
     Flow.parent_flow_id :=
       default (Flow.parent_flow_id flow_obj) (FlowRow.parent_flow_id row);
     Flow.parent_hunt_id :=
       default (Flow.parent_hunt_id flow_obj) (FlowRow.parent_hunt_id row);
     Flow.flow_class_name :=
       default (Flow.flow_class_name flow_obj) (FlowRow.name row);
     Flow.creator := default (Flow.creator flow_obj) (FlowRow.creator row);
     Flow.flow_state :=
       match FlowRow.flow_state row with
       | None | Some UNSET => Flow.flow_state flow_obj
       | Some flow_state => flow_state
       end;
     Flow.next_request_to_process :=
       if FlowRow.next_request_to_process row =? 0
       then Flow.next_request_to_process flow_obj
       else FlowRow.next_request_to_process row;
     Flow.create_time :=
       match Flow.create_time flow_obj with
       | Some t => Some t
       | None => Some (FlowRow.timestamp row)
       end;
     Flow.last_update_time := FlowRow.last_update row;
     Flow.processing_on := FlowRow.processing_on row;
     Flow.processing_since := FlowRow.processing_since row;
     Flow.processing_deadline := FlowRow.processing_deadline row;
     Flow.user_cpu_time := FlowRow.user_cpu_time_used_micros row;
     Flow.system_cpu_time := FlowRow.system_cpu_time_used_micros row;
     Flow.network_bytes_sent := FlowRow.network_bytes_sent row;
     Flow.num_replies_sent :=
       if FlowRow.num_replies_sent row =? 0
       then Flow.num_replies_sent flow_obj
       else FlowRow.num_replies_sent row;
     Flow.persistent_data := Flow.persistent_data flow_obj |}.

(** ** LeaseFlowForProcessing *)

(** [models_hunts.IsHuntSuitableForFlowProcessing], the suitability
    predicate of the hunts; it is the hunt model's to define. *)
Variable IsHuntSuitableForFlowProcessing : Z -> bool.

(** An optional string field read in a boolean context. *)
Definition truthy_string (field : option string) : bool :=
  match field with
  | Some s => negb (bool_decide (s = ""%string))
  | None => false
  end.

Definition set_processing (processing_on : option string)
    (processing_since processing_deadline : option Z) (row : FlowRow.t)
    : FlowRow.t :=
  {| FlowRow.client_id := FlowRow.client_id row;
     FlowRow.flow_id := FlowRow.flow_id row;
     FlowRow.long_flow_id := FlowRow.long_flow_id row;
     FlowRow.parent_flow_id := FlowRow.parent_flow_id row;
     FlowRow.parent_hunt_id := FlowRow.parent_hunt_id row;
     FlowRow.name := FlowRow.name row;
     FlowRow.creator := FlowRow.creator row;
     FlowRow.flow := FlowRow.flow row;
     FlowRow.flow_state := FlowRow.flow_state row;
     FlowRow.next_request_to_process := FlowRow.next_request_to_process row;
     FlowRow.processing_deadline := processing_deadline;
     FlowRow.processing_on := processing_on;
     FlowRow.processing_since := processing_since;
     FlowRow.user_cpu_time_used_micros := FlowRow.user_cpu_time_used_micros row;
     FlowRow.system_cpu_time_used_micros :=
       FlowRow.system_cpu_time_used_micros row;
     FlowRow.network_bytes_sent := FlowRow.network_bytes_sent row;
     FlowRow.num_replies_sent := FlowRow.num_replies_sent row;
     FlowRow.timestamp := FlowRow.timestamp row;
     FlowRow.last_update := FlowRow.last_update row |}.

(** The three processing fields of the flow object. *)
Definition with_processing (processing_on : option string)
    (processing_since processing_deadline : option Z) (flow : Flow.t)
    : Flow.t :=
  {| Flow.client_id := Flow.client_id flow;
     Flow.flow_id := Flow.flow_id flow;
     Flow.long_flow_id := Flow.long_flow_id flow;
     Flow.parent_flow_id := Flow.parent_flow_id flow;
     Flow.parent_hunt_id := Flow.parent_hunt_id flow;
     Flow.flow_class_name := Flow.flow_class_name flow;
     Flow.creator := Flow.creator flow;
     Flow.flow_state := Flow.flow_state flow;
     Flow.next_request_to_process := Flow.next_request_to_process flow;
     Flow.create_time := Flow.create_time flow;
     Flow.last_update_time := Flow.last_update_time flow;
     Flow.processing_on := processing_on;
     Flow.processing_since := processing_since;
     Flow.processing_deadline := processing_deadline;
     Flow.user_cpu_time := Flow.user_cpu_time flow;
     Flow.system_cpu_time := Flow.system_cpu_time flow;
     Flow.network_bytes_sent := Flow.network_bytes_sent flow;
     Flow.num_replies_sent := Flow.num_replies_sent flow;
     Flow.persistent_data := Flow.persistent_data flow |}.

(** The check of the parent hunt. [flow.parent_hunt_id] is a string field,
    never None: the hunts table is looked up for every flow. *)
Definition check_parent_hunt (client_id flow_id : string) (flow : Flow.t)
    : Tx unit :=
  (db <- tx_get ;;
   match List.filter
           (fun h => bool_decide (HuntRow.hunt_id h = Flow.parent_hunt_id flow))
           (hunts db) with
   | [h] =>
       match HuntRow.hunt_state h with
       | Some hunt_state =>
           if negb (IsHuntSuitableForFlowProcessing hunt_state)
           then tx_raise (ParentHuntIsNotRunningError
                            client_id flow_id (Flow.parent_hunt_id flow)
                            hunt_state)
           else tx_ret tt
       | None => tx_ret tt
       end
   | _ => tx_ret tt
   end)%tx.

Definition LeaseFlowForProcessing_body (now : Z) (process_id_string : string)
    (client_id flow_id : string) (processing_time : Z) : Tx Flow.t :=
  (db <- tx_get ;;
   match List.filter (fun f => bool_decide (FlowRow.key f = (client_id, flow_id)))
                     (flows db) with
   | [] => tx_raise (UnknownFlowError client_id flow_id)
   | [row] =>
       let flow := _FlowObjectFromRow row in
       if truthy_string (Flow.processing_on flow)
          && (now <? read_field (Flow.processing_deadline flow))
       then tx_raise (ValueError "Flow is already being processed.")
       else
         (check_parent_hunt client_id flow_id flow ;;
          let processing_deadline := now + processing_time in
          tx_modify (fun db =>
            set_flows db
              (update_where
                 (fun f => bool_decide (FlowRow.key f = (client_id, flow_id)))
                 (set_processing (Some process_id_string) (Some now)
                                 (Some processing_deadline))
                 (flows db))) ;;
          tx_ret (with_processing (Some process_id_string) (Some now)
                                  (Some processing_deadline) flow))
   | _ => tx_raise (ValueError "too many values to unpack")
   end)%tx.

Definition LeaseFlowForProcessing (now : Z) (process_id_string : string)
    (client_id flow_id : string) (processing_time : Z) : Call Flow.t :=
  WithTransaction
    (LeaseFlowForProcessing_body now process_id_string client_id flow_id
                                 processing_time).

(** ** ReleaseProcessedFlow *)

(** The rows of the subquery [needs_processing] of the update. *)
Definition release_subquery (db_now : Z) (flow_obj : Flow.t) (db : Db)
    : list RequestRow.t :=
  List.filter
    (fun q =>
       bool_decide (RequestRow.client_id q = Flow.client_id flow_obj)
       && bool_decide (RequestRow.flow_id q = Flow.flow_id flow_obj)
       && (RequestRow.request_id q =? Flow.next_request_to_process flow_obj)
       && match RequestRow.start_time q with
          | None => true
          | Some start_time => start_time <? db_now
          end
       && RequestRow.needs_processing q)
    (flow_requests db).

(** The WHERE clause on a row of flows joined (LEFT OUTER) with the
    subquery: the row is the flow's, and it has no partner in the
    subquery or a partner that needs no processing. *)
Definition release_condition (db_now : Z) (flow_obj : Flow.t) (db : Db)
    (f : FlowRow.t) : bool :=
  bool_decide (FlowRow.client_id f = Flow.client_id flow_obj)
  && bool_decide (FlowRow.flow_id f = Flow.flow_id flow_obj)
  && forallb (fun q => negb (RequestRow.needs_processing q))
             (List.filter
                (fun q =>
                   bool_decide (FlowRow.client_id f = RequestRow.client_id q)
                   && bool_decide (FlowRow.flow_id f = RequestRow.flow_id q))
                (release_subquery db_now flow_obj db)).

Definition release_set (db_now : Z) (flow_obj : Flow.t) (row : FlowRow.t)
    : FlowRow.t :=
  let clone := with_processing None None None flow_obj in
  {| FlowRow.client_id := FlowRow.client_id row;
     FlowRow.flow_id := FlowRow.flow_id row;
     FlowRow.long_flow_id := FlowRow.long_flow_id row;
     FlowRow.parent_flow_id := FlowRow.parent_flow_id row;
     FlowRow.parent_hunt_id := FlowRow.parent_hunt_id row;
     FlowRow.name := FlowRow.name row;
     FlowRow.creator := FlowRow.creator row;
     FlowRow.flow := clone;
     FlowRow.flow_state := Some (Flow.flow_state clone);
     FlowRow.next_request_to_process := Flow.next_request_to_process flow_obj;
     FlowRow.processing_deadline := None;
     FlowRow.processing_on := None;
     FlowRow.processing_since := None;
     FlowRow.user_cpu_time_used_micros := Flow.user_cpu_time flow_obj;
     FlowRow.system_cpu_time_used_micros := Flow.system_cpu_time flow_obj;
     FlowRow.network_bytes_sent := Flow.network_bytes_sent flow_obj;
     FlowRow.num_replies_sent := Flow.num_replies_sent flow_obj;
     FlowRow.timestamp := FlowRow.timestamp row;
     FlowRow.last_update := db_now |}.

Definition ReleaseProcessedFlow_body (db_now : Z) (flow_obj : Flow.t)
    : Tx bool :=
  (db <- tx_get ;;
   let rows_updated :=
     rows_changed (release_condition db_now flow_obj db)
                  (release_set db_now flow_obj) (flows db) in
   tx_modify (fun db' =>
     set_flows db'
       (update_where (release_condition db_now flow_obj db)
                     (release_set db_now flow_obj) (flows db'))) ;;
   tx_ret (rows_updated =? 1))%tx.

Definition ReleaseProcessedFlow (db_now : Z) (flow_obj : Flow.t) : Call bool :=
  WithTransaction (ReleaseProcessedFlow_body db_now flow_obj).

(** ** The queue of flow processing requests *)

Definition set_fpr_lease (leased_until : Z) (leased_by : string)
    (x : FprRow.t) : FprRow.t :=
  {| FprRow.client_id := FprRow.client_id x;
     FprRow.flow_id := FprRow.flow_id x;
     FprRow.timestamp := FprRow.timestamp x;
     FprRow.request := FprRow.request x;
     FprRow.delivery_time := FprRow.delivery_time x;
     FprRow.leased_until := Some leased_until;
     FprRow.leased_by := Some leased_by |}.

(** [(delivery_time IS NULL OR delivery_time <= NOW(6)) AND
     (leased_until IS NULL OR leased_until < NOW(6))]. *)
Definition fpr_leasable (db_now : Z) (x : FprRow.t) : bool :=
  match FprRow.delivery_time x with
  | None => true
  | Some delivery_time => delivery_time <=? db_now
  end
  && match FprRow.leased_until x with
     | None => true
     | Some leased_until => leased_until <? db_now
     end.

(** [leased_by=%(id)s AND leased_until=FROM_UNIXTIME(%(expiry)s)]. *)
Definition fpr_leased_with (id_str : string) (expiry : Z) (x : FprRow.t)
    : bool :=
  bool_decide (FprRow.leased_by x = Some id_str)
  && bool_decide (FprRow.leased_until x = Some expiry).

Definition fpr_of_row (x : FprRow.t) : FlowProcessingRequest.t :=
  let req := FprRow.request x in
  {| FlowProcessingRequest.client_id := FlowProcessingRequest.client_id req;
     FlowProcessingRequest.flow_id := FlowProcessingRequest.flow_id req;
     FlowProcessingRequest.delivery_time :=
       FlowProcessingRequest.delivery_time req;
     FlowProcessingRequest.creation_time := Some (FprRow.timestamp x) |}.

(** [rdfvalue.Duration.From(10, rdfvalue.MINUTES)] in microseconds. *)
Definition FPR_LEASE_WINDOW : Z := 10 * 60 * 1000000.

(** [id_str] is ["%s:%d" % (utils.ProcessIdString(), random.UInt16())]. *)
Definition _LeaseFlowProcessingRequests_body (now db_now : Z)
    (id_str : string) (limit : Z) : Tx (list FlowProcessingRequest.t) :=
  let expiry := now + FPR_LEASE_WINDOW in
  if limit <? 0
  then tx_raise ProgrammingError (* LIMIT takes no negative count *)
  else
    (db <- tx_get ;;
     let updated :=
       rows_changed_limit (fpr_leasable db_now) (set_fpr_lease expiry id_str)
                          (Z.to_nat limit) (flow_processing_requests db) in
     tx_modify (fun db =>
       set_flow_processing_requests db
         (update_limit (fpr_leasable db_now) (set_fpr_lease expiry id_str)
                       (Z.to_nat limit) (flow_processing_requests db))) ;;
     if updated =? 0
     then tx_ret []
     else
       (db <- tx_get ;;
        tx_ret
          (map fpr_of_row
             (select_limit (fpr_leased_with id_str expiry) (Z.to_nat updated)
                           (flow_processing_requests db)))))%tx.

Definition _LeaseFlowProcessingRequests (now db_now : Z) (id_str : string)
    (limit : Z) : Call (list FlowProcessingRequest.t) :=
  WithTransaction (_LeaseFlowProcessingRequests_body now db_now id_str limit).

(** ** The queue of message handler requests *)

(** Modelled from the spec: the schema of message_handler_requests is not
    among the sources.  The inserted columns are handlername, request_id
    and request; the rows are deleted by request_id, which is taken as the
    key that INSERT IGNORE compares. *)
Definition mhr_row (db_now : Z) (r : MessageHandlerRequest.t) : MhrRow.t :=
  {| MhrRow.handlername := MessageHandlerRequest.handler_name r;
     MhrRow.request_id := MessageHandlerRequest.request_id r;
     MhrRow.timestamp := db_now;
     MhrRow.request := r;
     MhrRow.leased_until := None;
     MhrRow.leased_by := None |}.

Definition insert_ignore_mhr (tbl : list MhrRow.t) (row : MhrRow.t)
    : list MhrRow.t :=
  if existsb (fun x => MhrRow.request_id x =? MhrRow.request_id row) tbl
  then tbl
  else tbl ++ [row].

Definition WriteMessageHandlerRequests_body (db_now : Z)
    (requests : list MessageHandlerRequest.t) : Tx unit :=
  match requests with
  | [] => tx_raise ProgrammingError (* "... VALUES " without a row *)
  | _ =>
      tx_modify (fun db =>
        set_message_handler_requests db
          (fold_left insert_ignore_mhr (map (mhr_row db_now) requests)
                     (message_handler_requests db)))
  end.

Definition WriteMessageHandlerRequests (db_now : Z)
    (requests : list MessageHandlerRequest.t) : Call unit :=
  WithTransaction (WriteMessageHandlerRequests_body db_now requests).

Definition set_mhr_lease (leased_until : Z) (leased_by : string)
    (x : MhrRow.t) : MhrRow.t :=
  {| MhrRow.handlername := MhrRow.handlername x;
     MhrRow.request_id := MhrRow.request_id x;
     MhrRow.timestamp := MhrRow.timestamp x;
     MhrRow.request := MhrRow.request x;
     MhrRow.leased_until := Some leased_until;
     MhrRow.leased_by := Some leased_by |}.

(** [leased_until IS NULL OR leased_until < FROM_UNIXTIME(now)]. *)
Definition mhr_leasable (now : Z) (x : MhrRow.t) : bool :=
  match MhrRow.leased_until x with
  | None => true
  | Some leased_until => leased_until <? now
  end.

Definition mhr_leased_with (id_str : string) (expiry : Z) (x : MhrRow.t)
    : bool :=
  bool_decide (MhrRow.leased_by x = Some id_str)
  && bool_decide (MhrRow.leased_until x = Some expiry).

Definition mhr_of_row (id_str : string) (expiry : Z) (x : MhrRow.t)
    : MessageHandlerRequest.t :=
  let req := MhrRow.request x in
  {| MessageHandlerRequest.handler_name :=
       MessageHandlerRequest.handler_name req;
     MessageHandlerRequest.request_id := MessageHandlerRequest.request_id req;
     MessageHandlerRequest.request := MessageHandlerRequest.request req;
     MessageHandlerRequest.timestamp := Some (MhrRow.timestamp x);
     MessageHandlerRequest.leased_until := Some expiry;
     MessageHandlerRequest.leased_by := Some id_str |}.

(** [id_str] is [utils.ProcessIdString()]. *)
Definition _LeaseMessageHandlerRequests_body (now : Z) (id_str : string)
    (lease_time : Z) (limit : Z) : Tx (list MessageHandlerRequest.t) :=
  let expiry := now + lease_time in
  if limit <? 0
  then tx_raise ProgrammingError (* LIMIT takes no negative count *)
  else
    (db <- tx_get ;;
     let updated :=
       rows_changed_limit (mhr_leasable now) (set_mhr_lease expiry id_str)
                          (Z.to_nat limit) (message_handler_requests db) in
     tx_modify (fun db =>
       set_message_handler_requests db
         (update_limit (mhr_leasable now) (set_mhr_lease expiry id_str)
                       (Z.to_nat limit) (message_handler_requests db))) ;;
     if updated =? 0
     then tx_ret []
     else
       (db <- tx_get ;;
        tx_ret
          (map (mhr_of_row id_str expiry)
             (select_limit (mhr_leased_with id_str expiry) (Z.to_nat updated)
                           (message_handler_requests db)))))%tx.

Definition _LeaseMessageHandlerRequests (now : Z) (id_str : string)
    (lease_time : Z) (limit : Z) : Call (list MessageHandlerRequest.t) :=
  WithTransaction
    (_LeaseMessageHandlerRequests_body now id_str lease_time limit).

End MySQLDBFlowMixin.

(** ** Observations and invariants *)

(** The schema: primary keys, the foreign key of flow_requests on flows,
    and the key columns of a request row, which WriteFlowRequests copies
    from the stored request. *)
Record db_wf (db : Db) : Prop := {
  wf_flows_pk : NoDup (map FlowRow.key (flows db));
  wf_requests_pk : NoDup (map RequestRow.key (flow_requests db));
  wf_responses_pk : NoDup (map ResponseRow.key (flow_responses db));
  wf_requests_fk :
    Forall (fun q => known_flow db (RequestRow.flow_key q) = true)
           (flow_requests db);
  wf_request_ids :
    Forall (fun q => request_key_of (RequestRow.request q) = RequestRow.key q)
           (flow_requests db);
}.

Definition needs_processing_of (db : Db) (k : RequestKey) : bool :=
  match find_request db k with
  | Some q => RequestRow.needs_processing q
  | None => false
  end.

Definition responses_expected_of (db : Db) (k : RequestKey) : option Z :=
  match find_request db k with
  | Some q => RequestRow.responses_expected q
  | None => None
  end.

Definition next_request_of (db : Db) (k : FlowKey) : option Z :=
  match find_flow db k with
  | Some f => Some (FlowRow.next_request_to_process f)
  | None => None
  end.

(** What one response of a batch leaves in flow_responses. *)
Definition store_response (db_now : Z) (db : Db) (tbl : list ResponseRow.t)
    (r : FlowMessage) : list ResponseRow.t :=
  if known_request db (msg_request_key r)
  then insert_ignore_response tbl (response_row db_now r)
  else tbl.

(** What one response of a batch leaves in flow_requests. *)
Definition stamp_expected (tbl : list RequestRow.t) (r : FlowMessage)
    : list RequestRow.t :=
  match r with
  | Status s =>
      update_where (fun q => bool_decide (RequestRow.key q = msg_request_key r))
                   (set_responses_expected (FlowStatus.response_id s)) tbl
  | _ => tbl
  end.

(** The database after the first transaction of a batch. *)
Definition written (db_now : Z) (responses : list FlowMessage) (db : Db)
    : Db :=
  set_flow_requests
    (set_flow_responses db
       (fold_left (store_response db_now db) responses (flow_responses db)))
    (fold_left stamp_expected responses (flow_requests db)).

(** A request the second transaction of a batch finds ready, and one it
    finds complete. *)
Definition ready_request (db : Db) (request_keys : gset RequestKey)
    (q : RequestRow.t) : bool :=
  counted_request db request_keys q
  && (bool_decide (RequestRow.responses_expected q
                   = Some (count_responses db (RequestRow.key q)))
      || negb (bool_decide (RequestRow.callback_state q = ""%string))).

Definition complete_request (db : Db) (request_keys : gset RequestKey)
    (q : RequestRow.t) : bool :=
  counted_request db request_keys q
  && bool_decide (RequestRow.responses_expected q
                  = Some (count_responses db (RequestRow.key q))).

(** The ready requests that are their flow's next request to process. *)
Definition scheduled_request (db : Db) (request_keys : gset RequestKey)
    (q : RequestRow.t) : bool :=
  ready_request db request_keys q
  && bool_decide (next_request_of db (RequestRow.flow_key q)
                  = Some (RequestRow.request_id q)).

(** The database after the second transaction of a batch. *)
Definition scheduled (db_now : Z) (responses : list FlowMessage) (db : Db)
    : Db :=
  let request_keys : gset RequestKey :=
    list_to_set (map msg_request_key responses) in
  set_flow_processing_requests
    (set_flow_requests db
       (update_where (complete_request db request_keys) set_needs_processing
                     (flow_requests db)))
    (flow_processing_requests db
     ++ map (fun q => fpr_row db_now (fpr_of_request (RequestRow.request q)))
            (List.filter (scheduled_request db request_keys)
                         (flow_requests db))).

(** The rows the second transaction of a batch inserts into
    flow_processing_requests. *)
Definition new_fprs (db_now : Z) (responses : list FlowMessage) (db : Db)
    : list FprRow.t :=
  let request_keys : gset RequestKey :=
    list_to_set (map msg_request_key responses) in
  map (fun q => fpr_row db_now (fpr_of_request (RequestRow.request q)))
      (List.filter (scheduled_request db request_keys) (flow_requests db)).

(** No stored flow processing request has the key [k]. *)
Definition fpr_key_free (k : FprKey) (db : Db) : Prop :=
  Forall (fun x => FprRow.key x <> k) (flow_processing_requests db).

(** The foreign key of flow_responses on flow_requests. *)
Definition responses_fk (db : Db) : Prop :=
  Forall (fun x => known_request db (ResponseRow.request_key x) = true)
         (flow_responses db).

(** The response id of the last Status of [responses] for a request. *)
Definition last_status_step (k : RequestKey) (acc : option Z)
    (r : FlowMessage) : option Z :=
  match r with
  | Status s =>
      if bool_decide (msg_request_key r = k)
      then Some (FlowStatus.response_id s)
      else acc
  | _ => acc
  end.

Definition last_status (k : RequestKey) (responses : list FlowMessage)
    : option Z :=
  fold_left (last_status_step k) responses None.

(** The stamp a batch leaves on the row of a request. *)
Definition stamped (k : RequestKey) (responses : list FlowMessage)
    (q : RequestRow.t) : RequestRow.t :=
  match last_status k responses with
  | Some v => set_responses_expected v q
  | None => q
  end.

(** The messages of a batch that are for a request. *)
Definition touches (k : RequestKey) (responses : list FlowMessage) : bool :=
  existsb (fun r => bool_decide (msg_request_key r = k)) responses.

(** The database after the two transactions of a batch. *)
Definition batch_step (db_now : Z) (db : Db) (batch : list FlowMessage) : Db :=
  scheduled db_now batch (written db_now batch db).

(** The batches of a call, each with the time of the call, and the
    database after a sequence of them. *)
Definition steps_of_call (size : nat) (call : Z * list FlowMessage)
    : list (Z * list FlowMessage) :=
  map (pair call.1) (Batch call.2 size).

Definition run_steps (steps : list (Z * list FlowMessage)) (db : Db) : Db :=
  fold_left (fun d step => batch_step step.1 d step.2) steps db.


(** A call that returns, and a sequence of calls that all return. *)
Definition returns {A} (r : result A) : bool :=
  match r with
  | Ok _ => true
  | Raise _ => false
  end.



(** The rows WriteFlowRequests inserts into flow_processing_requests for
    a batch. *)
Definition request_fprs (db_now : Z) (requests : list FlowRequest.t) (db : Db)
    : list FprRow.t :=
  let needs_processing := collect_needs_processing requests in
  map (fpr_row db_now)
    (if bool_decide (needs_processing = ∅) then []
     else concat
            (map (fun f =>
                    candidate_fprs f
                      (default [] (needs_processing !! FlowRow.key f)))
                 (List.filter
                    (fun f => bool_decide
                                (is_Some (needs_processing !! FlowRow.key f)))
                    (flows db)))).

(** The flow processing request WriteFlowRequests writes for a request of
    a flow. *)
Definition fpr_for_request (fk : FlowKey) (r : FlowRequest.t)
    : FlowProcessingRequest.t :=
  {| FlowProcessingRequest.client_id := fk.1;
     FlowProcessingRequest.flow_id := fk.2;
     FlowProcessingRequest.delivery_time :=
       if truthy (FlowRequest.start_time r) then FlowRequest.start_time r
       else None;
     FlowProcessingRequest.creation_time := None |}.

(** The requests of a batch for which WriteFlowRequests writes a flow
    processing request of the flow [fk]. *)
Definition triggers (db : Db) (fk : FlowKey) (r : FlowRequest.t) : bool :=
  FlowRequest.needs_processing r
  && bool_decide (flow_key_of r = fk)
  && (bool_decide (next_request_of db fk = Some (FlowRequest.request_id r))
      || truthy (FlowRequest.start_time r)).

(** The request that keeps ReleaseProcessedFlow from releasing a flow: the
    request with the id next_request_to_process of the flow object that
    needs processing and whose start_time is unset or has passed. *)
Definition blocks_release (db_now : Z) (flow_obj : Flow.t) (q : RequestRow.t)
    : bool :=
  bool_decide (RequestRow.key q
               = (Flow.client_id flow_obj, Flow.flow_id flow_obj,
                  Flow.next_request_to_process flow_obj))
  && RequestRow.needs_processing q
  && match RequestRow.start_time q with
     | None => true
     | Some start_time => start_time <? db_now
     end.

Definition release_blocked (db_now : Z) (flow_obj : Flow.t) (db : Db) : bool :=
  existsb (blocks_release db_now flow_obj) (flow_requests db).

(** A lease on a flow is held at [now]: processing_on is set to a
    non-empty string and processing_deadline is later than [now]. *)
Definition lease_held (now : Z) (row : FlowRow.t) : bool :=
  truthy_string (FlowRow.processing_on row)
  && (now <? read_field (FlowRow.processing_deadline row)).

(** The state of the parent hunt that keeps a flow from being leased, if
    there is one: the one row of hunts with the flow's parent_hunt_id has a
    state and the state is not suitable for flow processing. *)
Definition unsuitable_parent_hunt (suitable : Z -> bool) (db : Db)
    (row : FlowRow.t) : option Z :=
  match List.filter
          (fun h => bool_decide
                      (HuntRow.hunt_id h
                       = Flow.parent_hunt_id (_FlowObjectFromRow row)))
          (hunts db) with
  | [h] =>
      match HuntRow.hunt_state h with
      | Some hunt_state =>
          if suitable hunt_state then None else Some hunt_state
      | None => None
      end
  | _ => None
  end.

(** ** A flow with one request, for the examples *)

Definition example_flow : Flow.t :=
  {| Flow.client_id := "C.1000000000000001";
     Flow.flow_id := "ABCDEF01";
     Flow.long_flow_id := "C.1000000000000001/ABCDEF01";
     Flow.parent_flow_id := "";
     Flow.parent_hunt_id := "";
     Flow.flow_class_name := "ListProcesses";
     Flow.creator := "admin";
     Flow.flow_state := RUNNING;
     Flow.next_request_to_process := 3;
     Flow.create_time := Some 1000;
     Flow.last_update_time := 1000;
     Flow.processing_on := None;
     Flow.processing_since := None;
     Flow.processing_deadline := None;
     Flow.user_cpu_time := 0;
     Flow.system_cpu_time := 0;
     Flow.network_bytes_sent := 0;
     Flow.num_replies_sent := 0;
     Flow.persistent_data := "" |}%string.

Definition example_flow_row : FlowRow.t :=
  {| FlowRow.client_id := "C.1000000000000001";
     FlowRow.flow_id := "ABCDEF01";
     FlowRow.long_flow_id := "C.1000000000000001/ABCDEF01";
     FlowRow.parent_flow_id := None;
     FlowRow.parent_hunt_id := None;
     FlowRow.name := Some "ListProcesses";
     FlowRow.creator := Some "admin";
     FlowRow.flow := example_flow;
     FlowRow.flow_state := Some RUNNING;
     FlowRow.next_request_to_process := 3;
     FlowRow.processing_deadline := None;
     FlowRow.processing_on := None;
     FlowRow.processing_since := None;
     FlowRow.user_cpu_time_used_micros := 0;
     FlowRow.system_cpu_time_used_micros := 0;
     FlowRow.network_bytes_sent := 0;
     FlowRow.num_replies_sent := 0;
     FlowRow.timestamp := 1000;
     FlowRow.last_update := 1000 |}%string.

Definition example_request : FlowRequest.t :=
  {| FlowRequest.client_id := "C.1000000000000001";
     FlowRequest.flow_id := "ABCDEF01";
     FlowRequest.request_id := 3;
     FlowRequest.needs_processing := false;
     FlowRequest.callback_state := "";
     FlowRequest.next_response_id := 0;
     FlowRequest.start_time := None;
     FlowRequest.nr_responses_expected := None;
     FlowRequest.next_state := "Done" |}%string.

Definition example_key : RequestKey :=
  ("C.1000000000000001", "ABCDEF01", 3)%string.

Definition example_db : Db :=
  {| flows := [example_flow_row];
     flow_requests := [request_row example_request];
     flow_responses := [];
     flow_processing_requests := [];
     message_handler_requests := [];
     hunts := [] |}.

(** The two responses of the request: a data response and the Status that
    closes it. *)
Definition example_response : FlowMessage :=
  Response {| FlowResponse.client_id := "C.1000000000000001";
              FlowResponse.flow_id := "ABCDEF01";
              FlowResponse.request_id := 3;
              FlowResponse.response_id := 1;
              FlowResponse.payload := "process list" |}%string.

Definition example_status : FlowMessage :=
  Status {| FlowStatus.client_id := "C.1000000000000001";
            FlowStatus.flow_id := "ABCDEF01";
            FlowStatus.request_id := 3;
            FlowStatus.response_id := 2;
            FlowStatus.status := 0;
            FlowStatus.error_message := "" |}%string.

(** A second Status for the request, with another response id. *)
Definition example_second_status : FlowMessage :=
  Status {| FlowStatus.client_id := "C.1000000000000001";
            FlowStatus.flow_id := "ABCDEF01";
            FlowStatus.request_id := 3;
            FlowStatus.response_id := 5;
            FlowStatus.status := 0;
            FlowStatus.error_message := "" |}%string.

(** A response for a request of the example flow that is not stored. *)
Definition example_stray_response : FlowMessage :=
  Response {| FlowResponse.client_id := "C.1000000000000001";
              FlowResponse.flow_id := "ABCDEF01";
              FlowResponse.request_id := 9;
              FlowResponse.response_id := 1;
              FlowResponse.payload := "late" |}%string.

(** A request of the example flow that is not flagged needs_processing and
    has a start_time, and two that are flagged: one with a start_time and
    an id that is not the flow's next request, one with neither. *)
Definition example_delayed_request : FlowRequest.t :=
  {| FlowRequest.client_id := "C.1000000000000001";
     FlowRequest.flow_id := "ABCDEF01";
     FlowRequest.request_id := 4;
     FlowRequest.needs_processing := false;
     FlowRequest.callback_state := "";
     FlowRequest.next_response_id := 0;
     FlowRequest.start_time := Some 9000000;
     FlowRequest.nr_responses_expected := None;
     FlowRequest.next_state := "Later" |}%string.

Definition example_delayed_trigger : FlowRequest.t :=
  {| FlowRequest.client_id := "C.1000000000000001";
     FlowRequest.flow_id := "ABCDEF01";
     FlowRequest.request_id := 5;
     FlowRequest.needs_processing := true;
     FlowRequest.callback_state := "";
     FlowRequest.next_response_id := 0;
     FlowRequest.start_time := Some 9000000;
     FlowRequest.nr_responses_expected := None;
     FlowRequest.next_state := "Later" |}%string.

Definition example_early_trigger : FlowRequest.t :=
  {| FlowRequest.client_id := "C.1000000000000001";
     FlowRequest.flow_id := "ABCDEF01";
     FlowRequest.request_id := 6;
     FlowRequest.needs_processing := true;
     FlowRequest.callback_state := "";
     FlowRequest.next_response_id := 0;
     FlowRequest.start_time := None;
     FlowRequest.nr_responses_expected := None;
     FlowRequest.next_state := "Much later" |}%string.

(** A second flow of the client, with no request yet, and its first
    request, flagged needs_processing. *)
Definition example_second_flow : Flow.t :=
  {| Flow.client_id := "C.1000000000000001";
     Flow.flow_id := "ABCDEF02";
     Flow.long_flow_id := "C.1000000000000001/ABCDEF02";
     Flow.parent_flow_id := "";
     Flow.parent_hunt_id := "";
     Flow.flow_class_name := "Interrogate";
     Flow.creator := "admin";
     Flow.flow_state := RUNNING;
     Flow.next_request_to_process := 1;
     Flow.create_time := Some 1500;
     Flow.last_update_time := 1500;
     Flow.processing_on := None;
     Flow.processing_since := None;
     Flow.processing_deadline := None;
     Flow.user_cpu_time := 0;
     Flow.system_cpu_time := 0;
     Flow.network_bytes_sent := 0;
     Flow.num_replies_sent := 0;
     Flow.persistent_data := "" |}%string.

Definition example_second_flow_row : FlowRow.t :=
  {| FlowRow.client_id := "C.1000000000000001";
     FlowRow.flow_id := "ABCDEF02";
     FlowRow.long_flow_id := "C.1000000000000001/ABCDEF02";
     FlowRow.parent_flow_id := None;
     FlowRow.parent_hunt_id := None;
     FlowRow.name := Some "Interrogate";
     FlowRow.creator := Some "admin";
     FlowRow.flow := example_second_flow;
     FlowRow.flow_state := Some RUNNING;
     FlowRow.next_request_to_process := 1;
     FlowRow.processing_deadline := None;
     FlowRow.processing_on := None;
     FlowRow.processing_since := None;
     FlowRow.user_cpu_time_used_micros := 0;
     FlowRow.system_cpu_time_used_micros := 0;
     FlowRow.network_bytes_sent := 0;
     FlowRow.num_replies_sent := 0;
     FlowRow.timestamp := 1500;
     FlowRow.last_update := 1500 |}%string.

Definition example_first_request : FlowRequest.t :=
  {| FlowRequest.client_id := "C.1000000000000001";
     FlowRequest.flow_id := "ABCDEF02";
     FlowRequest.request_id := 1;
     FlowRequest.needs_processing := true;
     FlowRequest.callback_state := "";
     FlowRequest.next_response_id := 0;
     FlowRequest.start_time := None;
     FlowRequest.nr_responses_expected := None;
     FlowRequest.next_state := "Start" |}%string.

Definition example_two_flows_db : Db :=
  {| flows := [example_flow_row; example_second_flow_row];
     flow_requests := [request_row example_request];
     flow_responses := [];
     flow_processing_requests := [];
     message_handler_requests := [];
     hunts := [] |}.

(** The example request, flagged needs_processing, with a start_time still
    to come. *)
Definition example_waiting_request : FlowRequest.t :=
  {| FlowRequest.client_id := "C.1000000000000001";
     FlowRequest.flow_id := "ABCDEF01";
     FlowRequest.request_id := 3;
     FlowRequest.needs_processing := true;
     FlowRequest.callback_state := "";
     FlowRequest.next_response_id := 0;
     FlowRequest.start_time := Some 9000000;
     FlowRequest.nr_responses_expected := None;
     FlowRequest.next_state := "Done" |}%string.

Definition example_waiting_db : Db :=
  {| flows := [example_flow_row];
     flow_requests := [request_row example_waiting_request];
     flow_responses := [];
     flow_processing_requests := [];
     message_handler_requests := [];
     hunts := [] |}.

(** The example request, flagged needs_processing, with no start_time:
    the request a worker finds when responses completed it during the
    lease. *)
Definition example_ready_request : FlowRequest.t :=
  {| FlowRequest.client_id := "C.1000000000000001";
     FlowRequest.flow_id := "ABCDEF01";
     FlowRequest.request_id := 3;
     FlowRequest.needs_processing := true;
     FlowRequest.callback_state := "";
     FlowRequest.next_response_id := 0;
     FlowRequest.start_time := None;
     FlowRequest.nr_responses_expected := None;
     FlowRequest.next_state := "Done" |}%string.

Definition example_blocked_db : Db :=
  {| flows := [example_flow_row];
     flow_requests := [request_row example_ready_request];
     flow_responses := [];
     flow_processing_requests := [];
     message_handler_requests := [];
     hunts := [] |}.

(** The example flow as a flow of a hunt, leased by a worker until 3000;
    the hunt is in state 4, and the states 2 and 3 are the ones suitable
    for flow processing. *)
Definition example_suitable (hunt_state : Z) : bool :=
  (hunt_state =? 2) || (hunt_state =? 3).

Definition example_hunt_flow_row : FlowRow.t :=
  {| FlowRow.client_id := "C.1000000000000001";
     FlowRow.flow_id := "ABCDEF01";
     FlowRow.long_flow_id := "C.1000000000000001/ABCDEF01";
     FlowRow.parent_flow_id := None;
     FlowRow.parent_hunt_id := Some "H:00000001";
     FlowRow.name := Some "ListProcesses";
     FlowRow.creator := Some "admin";
     FlowRow.flow := example_flow;
     FlowRow.flow_state := Some RUNNING;
     FlowRow.next_request_to_process := 3;
     FlowRow.processing_deadline := Some 3000;
     FlowRow.processing_on := Some "worker-1@host:4711";
     FlowRow.processing_since := Some 2000;
     FlowRow.user_cpu_time_used_micros := 0;
     FlowRow.system_cpu_time_used_micros := 0;
     FlowRow.network_bytes_sent := 0;
     FlowRow.num_replies_sent := 0;
     FlowRow.timestamp := 1000;
     FlowRow.last_update := 1000 |}%string.

Definition example_hunt_db (hunt_state : Z) : Db :=
  {| flows := [example_hunt_flow_row];
     flow_requests := [];
     flow_responses := [];
     flow_processing_requests := [];
     message_handler_requests := [];
     hunts := [{| HuntRow.hunt_id := "H:00000001";
                  HuntRow.hunt_state := Some hunt_state |}]%string |}.

(** Two message handler requests, the second written after the first was
    leased, and two flow processing requests for the same purpose. *)
Definition example_message (request_id : Z) : MessageHandlerRequest.t :=
  {| MessageHandlerRequest.handler_name := "NannyMessageHandler";
     MessageHandlerRequest.request_id := request_id;
     MessageHandlerRequest.request := "message";
     MessageHandlerRequest.timestamp := None;
     MessageHandlerRequest.leased_until := None;
     MessageHandlerRequest.leased_by := None |}%string.

Definition empty_db : Db :=
  {| flows := [];
     flow_requests := [];
     flow_responses := [];
     flow_processing_requests := [];
     message_handler_requests := [];
     hunts := [] |}.

Definition example_fpr (flow_id : string) : FlowProcessingRequest.t :=
  {| FlowProcessingRequest.client_id := "C.1000000000000001";
     FlowProcessingRequest.flow_id := flow_id;
     FlowProcessingRequest.delivery_time := None;
     FlowProcessingRequest.creation_time := None |}%string.

(** The message handler loop of one process: the request 1 is written and
    leased at 5000; the request 2 is written; the queue is leased again
    while the clock still reads 5000. *)
Definition message_handler_run
    : list MessageHandlerRequest.t * list MessageHandlerRequest.t * Db :=
  let db1 := (WriteMessageHandlerRequests 4000 [example_message 1] empty_db).2 in
  let '(first, db2) :=
    _LeaseMessageHandlerRequests 5000 "MainThread@host:4711" 600 1000 db1 in
  let db3 := (WriteMessageHandlerRequests 5000 [example_message 2] db2).2 in
  let '(second, db4) :=
    _LeaseMessageHandlerRequests 5000 "MainThread@host:4711" 600 1000 db3 in
  (match first with Ok l => l | Raise _ => [] end,
   match second with Ok l => l | Raise _ => [] end,
   db4).

(** The same run on the queue of flow processing requests, where the two
    calls draw the random numbers 17 and 4242 for their ids. *)
Definition flow_processing_run
    : list FlowProcessingRequest.t * list FlowProcessingRequest.t * Db :=
  let db1 :=
    (WithTransaction
       (_WriteFlowProcessingRequests 4000 [example_fpr "ABCDEF01"])
       empty_db).2 in
  let '(first, db2) :=
    _LeaseFlowProcessingRequests 5000 5000 "MainThread@host:4711:17" 1000 db1 in
  let db3 :=
    (WithTransaction
       (_WriteFlowProcessingRequests 5000 [example_fpr "ABCDEF02"]) db2).2 in
  let '(second, db4) :=
    _LeaseFlowProcessingRequests 5000 5000 "MainThread@host:4711:4242" 1000
                                 db3 in
  (match first with Ok l => l | Raise _ => [] end,
   match second with Ok l => l | Raise _ => [] end,
   db4).

(** ** The other methods of the mixin *)

(** *** ReadFlowObject *)

Definition ReadFlowObject_body (client_id flow_id : string) : Tx Flow.t :=
  (db <- tx_get ;;
   match List.filter (fun f => bool_decide (FlowRow.key f = (client_id, flow_id)))
                     (flows db) with
   | [] => tx_raise (UnknownFlowError client_id flow_id)
   | [row] => tx_ret (_FlowObjectFromRow row)
   | _ => tx_raise (ValueError "too many values to unpack")
   end)%tx.

Definition ReadFlowObject (client_id flow_id : string) : Call Flow.t :=
  WithTransaction (ReadFlowObject_body client_id flow_id).

(** *** WriteFlowObject *)

(** The two errors of the method, [db.FlowExistsError] and
    [db.UnknownClientError], and what a call of it comes to. *)
Inductive WriteFlowObjectError :=
| FlowExistsError (client_id flow_id : string)
| UnknownClientError (client_id : string).

Inductive written_flow :=
| Written
| NotWritten (e : WriteFlowObjectError).

(** A string field read in a boolean context: the column is NULL for the
    empty string. *)
Definition nonempty (s : string) : option string :=
  if bool_decide (s = EmptyString) then None else Some s.

(** The row of the INSERT.  The columns the statement does not name
    (client_crash_info, processing_on, processing_since and
    processing_deadline) take their default, NULL. *)
Definition flow_row (db_now : Z) (flow_obj : Flow.t) : FlowRow.t :=
  {| FlowRow.client_id := Flow.client_id flow_obj;
     FlowRow.flow_id := Flow.flow_id flow_obj;
     FlowRow.long_flow_id := Flow.long_flow_id flow_obj;
     FlowRow.parent_flow_id := nonempty (Flow.parent_flow_id flow_obj);
     FlowRow.parent_hunt_id := nonempty (Flow.parent_hunt_id flow_obj);
     FlowRow.name := Some (Flow.flow_class_name flow_obj);
     FlowRow.creator := Some (Flow.creator flow_obj);
     FlowRow.flow := flow_obj;
     FlowRow.flow_state := Some (Flow.flow_state flow_obj);
     FlowRow.next_request_to_process := Flow.next_request_to_process flow_obj;
     FlowRow.processing_deadline := None;
     FlowRow.processing_on := None;
     FlowRow.processing_since := None;
     FlowRow.user_cpu_time_used_micros := Flow.user_cpu_time flow_obj;
     FlowRow.system_cpu_time_used_micros := Flow.system_cpu_time flow_obj;
     FlowRow.network_bytes_sent := Flow.network_bytes_sent flow_obj;
     FlowRow.num_replies_sent := Flow.num_replies_sent flow_obj;
     FlowRow.timestamp := db_now;
     FlowRow.last_update := db_now |}.

(** [ON DUPLICATE KEY UPDATE flow=VALUES(flow),
    flow_state=VALUES(flow_state),
    next_request_to_process=VALUES(next_request_to_process),
    last_update=VALUES(last_update)] on the stored row. *)
Definition on_duplicate_key_update (values : FlowRow.t) (row : FlowRow.t)
    : FlowRow.t :=
  {| FlowRow.client_id := FlowRow.client_id row;
     FlowRow.flow_id := FlowRow.flow_id row;
     FlowRow.long_flow_id := FlowRow.long_flow_id row;
     FlowRow.parent_flow_id := FlowRow.parent_flow_id row;
     FlowRow.parent_hunt_id := FlowRow.parent_hunt_id row;
     FlowRow.name := FlowRow.name row;
     FlowRow.creator := FlowRow.creator row;
     FlowRow.flow := FlowRow.flow values;
     FlowRow.flow_state := FlowRow.flow_state values;
     FlowRow.next_request_to_process := FlowRow.next_request_to_process values;
     FlowRow.processing_deadline := FlowRow.processing_deadline row;
     FlowRow.processing_on := FlowRow.processing_on row;
     FlowRow.processing_since := FlowRow.processing_since row;
     FlowRow.user_cpu_time_used_micros := FlowRow.user_cpu_time_used_micros row;
     FlowRow.system_cpu_time_used_micros :=
       FlowRow.system_cpu_time_used_micros row;
     FlowRow.network_bytes_sent := FlowRow.network_bytes_sent row;
     FlowRow.num_replies_sent := FlowRow.num_replies_sent row;
     FlowRow.timestamp := FlowRow.timestamp row;
     FlowRow.last_update := FlowRow.last_update values |}.

(** [clients] holds the ids of the table clients, which the mixin of the
    clients writes.  A primary key that is taken makes the INSERT raise
    IntegrityError with DUP_ENTRY unless the statement carries ON DUPLICATE
    KEY UPDATE; the other IntegrityError the method expects is the one of
    the foreign key of flows on clients. *)
Definition WriteFlowObject (clients : gset string) (db_now : Z)
    (flow_obj : Flow.t) (allow_update : bool) (db : Db)
    : written_flow * Db :=
  let values := flow_row db_now flow_obj in
  if known_flow db (FlowRow.key values)
  then
    if allow_update
    then (Written,
          set_flows db
            (update_where
               (fun f => bool_decide (FlowRow.key f = FlowRow.key values))
               (on_duplicate_key_update values) (flows db)))
    else (NotWritten (FlowExistsError (Flow.client_id flow_obj)
                                      (Flow.flow_id flow_obj)), db)
  else
    if bool_decide (Flow.client_id flow_obj ∈ clients)
    then (Written, set_flows db (flows db ++ [values]))
    else (NotWritten (UnknownClientError (Flow.client_id flow_obj)), db).

(** *** DeleteAllFlowRequestsAndResponses *)

Definition DeleteAllFlowRequestsAndResponses_body (client_id flow_id : string)
    : Tx unit :=
  (tx_modify (fun db =>
     set_flow_responses db
       (delete_where
          (fun x => bool_decide (ResponseRow.client_id x = client_id)
                    && bool_decide (ResponseRow.flow_id x = flow_id))
          (flow_responses db))) ;;
   tx_modify (fun db =>
     set_flow_requests db
       (delete_where
          (fun q => bool_decide (RequestRow.client_id q = client_id)
                    && bool_decide (RequestRow.flow_id q = flow_id))
          (flow_requests db))))%tx.

Definition DeleteAllFlowRequestsAndResponses (client_id flow_id : string)
    : Call unit :=
  WithTransaction (DeleteAllFlowRequestsAndResponses_body client_id flow_id).

(** *** WriteFlowProcessingRequests and ReadFlowProcessingRequests *)

Definition WriteFlowProcessingRequests (db_now : Z)
    (requests : list FlowProcessingRequest.t) : Call unit :=
  WithTransaction (_WriteFlowProcessingRequests db_now requests).

Definition ReadFlowProcessingRequests_body
    : Tx (list FlowProcessingRequest.t) :=
  (db <- tx_get ;;
   tx_ret (map fpr_of_row (flow_processing_requests db)))%tx.

Definition ReadFlowProcessingRequests : Call (list FlowProcessingRequest.t) :=
  WithTransaction ReadFlowProcessingRequests_body.

(** *** DeleteMessageHandlerRequests *)

Definition DeleteMessageHandlerRequests_body
    (requests : list MessageHandlerRequest.t) : Tx unit :=
  let request_ids : gset Z :=
    list_to_set (map MessageHandlerRequest.request_id requests) in
  if bool_decide (request_ids = ∅)
  then tx_raise ProgrammingError (* "WHERE request_id IN ()" *)
  else
    tx_modify (fun db =>
      set_message_handler_requests db
        (delete_where
           (fun x => bool_decide (MhrRow.request_id x ∈ request_ids))
           (message_handler_requests db))).

Definition DeleteMessageHandlerRequests
    (requests : list MessageHandlerRequest.t) : Call unit :=
  WithTransaction (DeleteMessageHandlerRequests_body requests).

(** ** More invariants and observations *)


(** The key columns of a flow processing request row are the ids of the
    stored request, as _WriteFlowProcessingRequests writes them. *)
Definition fpr_columns (x : FprRow.t) : Prop :=
  FprRow.client_id x = FlowProcessingRequest.client_id (FprRow.request x)
  /\ FprRow.flow_id x = FlowProcessingRequest.flow_id (FprRow.request x).

(** The columns of a flow processing request row that a lease leaves as
    they are. *)
Definition fpr_payload (x : FprRow.t)
    : string * string * Z * FlowProcessingRequest.t * option Z :=
  (FprRow.client_id x, FprRow.flow_id x, FprRow.timestamp x, FprRow.request x,
   FprRow.delivery_time x).

(** A flow processing request as it is read back: its creation_time is
    the timestamp of its row. *)
Definition with_creation_time (creation_time : Z)
    (req : FlowProcessingRequest.t) : FlowProcessingRequest.t :=
  {| FlowProcessingRequest.client_id := FlowProcessingRequest.client_id req;
     FlowProcessingRequest.flow_id := FlowProcessingRequest.flow_id req;
     FlowProcessingRequest.delivery_time :=
       FlowProcessingRequest.delivery_time req;
     FlowProcessingRequest.creation_time := Some creation_time |}.

(** What UpdateIncrementalFlowRequests leaves in the row of a request of
    its flow. *)
Definition with_update (next_response_id_updates : gmap Z Z)
    (q : RequestRow.t) : RequestRow.t :=
  match next_response_id_updates !! RequestRow.request_id q with
  | Some next_response_id => set_next_response_id next_response_id q
  | None => q
  end.

(** The columns of a request row that no response changes. *)
Definition request_fixed (q : RequestRow.t)
    : RequestKey * string * Z * option Z * FlowRequest.t :=
  (RequestRow.key q, RequestRow.callback_state q, RequestRow.next_response_id q,
   RequestRow.start_time q, RequestRow.request q).

(** The database without the requests of the given keys and without the
    responses stored for them. *)
Definition deleted_requests (keys : list RequestKey) (db : Db) : Db :=
  set_flow_requests
    (set_flow_responses db
       (delete_where
          (fun x => bool_decide (ResponseRow.request_key x ∈ keys))
          (flow_responses db)))
    (delete_where (fun q => bool_decide (RequestRow.key q ∈ keys))
                  (flow_requests db)).

(** The keys of the schema together with the foreign key of the
    responses. *)
Definition db_consistent (db : Db) : Prop := db_wf db /\ responses_fk db.

(** ** More examples *)

(** The example request as an incremental request: one with a callback
    state. *)
Definition example_incremental_request : FlowRequest.t :=
  {| FlowRequest.client_id := "C.1000000000000001";
     FlowRequest.flow_id := "ABCDEF01";
     FlowRequest.request_id := 3;
     FlowRequest.needs_processing := false;
     FlowRequest.callback_state := "ProcessChunk";
     FlowRequest.next_response_id := 0;
     FlowRequest.start_time := None;
     FlowRequest.nr_responses_expected := None;
     FlowRequest.next_state := "Done" |}%string.

Definition example_incremental_db : Db :=
  {| flows := [example_flow_row];
     flow_requests := [request_row example_incremental_request];
     flow_responses := [];
     flow_processing_requests := [];
     message_handler_requests := [];
     hunts := [] |}.

(** A request for a flow that is not stored. *)
Definition example_foreign_request : FlowRequest.t :=
  {| FlowRequest.client_id := "C.1000000000000001";
     FlowRequest.flow_id := "ABCDEF99";
     FlowRequest.request_id := 1;
     FlowRequest.needs_processing := false;
     FlowRequest.callback_state := "";
     FlowRequest.next_response_id := 0;
     FlowRequest.start_time := None;
     FlowRequest.nr_responses_expected := None;
     FlowRequest.next_state := "Start" |}%string.

(** A queue of two flow processing requests written at 4000, its lease by
    a worker at 5000, and a second lease at 6000 by another worker. *)
Definition example_queue_db : Db :=
  {| flows := [];
     flow_requests := [];
     flow_responses := [];
     flow_processing_requests :=
       map (fpr_row 4000) [example_fpr "ABCDEF01"; example_fpr "ABCDEF02"];
     message_handler_requests := [];
     hunts := [] |}.

Definition example_first_lease
    : result (list FlowProcessingRequest.t) * Db :=
  _LeaseFlowProcessingRequests 5000 5000 "worker-1@host:4711:17" 10
                               example_queue_db.

Definition example_leased_requests : list FlowProcessingRequest.t :=
  match example_first_lease.1 with
  | Ok requests => requests
  | Raise _ => []
  end.

Definition example_leased_db : Db := example_first_lease.2.

Definition example_second_lease
    : result (list FlowProcessingRequest.t) * Db :=
  _LeaseFlowProcessingRequests 6000 6000 "worker-2@host:4712:99" 10
                               example_leased_db.

(** The example flow, leased by a worker at 5000 for 600, and released at
    6000. *)
Definition example_lease : result Flow.t * Db :=
  LeaseFlowForProcessing example_suitable 5000 "worker-1@host:4711"
                         "C.1000000000000001" "ABCDEF01" 600 example_db.

Definition example_leased_flow : Flow.t :=
  match example_lease.1 with
  | Ok flow => flow
  | Raise _ => example_flow
  end.

Definition example_released_db : Db :=
  (ReleaseProcessedFlow 6000 example_flow example_lease.2).2.

(** The example flow after some work: more bytes sent, new data. *)
Definition example_updated_flow : Flow.t :=
  {| Flow.client_id := "C.1000000000000001";
     Flow.flow_id := "ABCDEF01";
     Flow.long_flow_id := "C.1000000000000001/ABCDEF01";
     Flow.parent_flow_id := "";
     Flow.parent_hunt_id := "";
     Flow.flow_class_name := "ListProcesses";
     Flow.creator := "admin";
     Flow.flow_state := RUNNING;
     Flow.next_request_to_process := 4;
     Flow.create_time := Some 1000;
     Flow.last_update_time := 1000;
     Flow.processing_on := None;
     Flow.processing_since := None;
     Flow.processing_deadline := None;
     Flow.user_cpu_time := 250;
     Flow.system_cpu_time := 50;
     Flow.network_bytes_sent := 4096;
     Flow.num_replies_sent := 1;
     Flow.persistent_data := "processes: 12" |}%string.

(** A queue with one message handler request, written at 4000. *)
Definition example_inbox_db : Db :=
  (WriteMessageHandlerRequests 4000 [example_message 1] empty_db).2.

(** A second request of the second flow, flagged needs_processing, to be
    delivered later. *)
Definition example_second_delayed : FlowRequest.t :=
  {| FlowRequest.client_id := "C.1000000000000001";
     FlowRequest.flow_id := "ABCDEF02";
     FlowRequest.request_id := 2;
     FlowRequest.needs_processing := true;
     FlowRequest.callback_state := "";
     FlowRequest.next_response_id := 0;
     FlowRequest.start_time := Some 9000000;
     FlowRequest.nr_responses_expected := None;
     FlowRequest.next_state := "Later" |}%string.
(** * Proofs *)

(** ** The batches *)

Lemma Batch_loop_concat {A} (size : nat) (items batch : list A) :
  concat (Batch_loop size items batch) = batch ++ items.
Proof.
  revert batch. induction items as [|x items IH]; intros batch; simpl.
  - destruct batch; simpl; [reflexivity|]. now rewrite !app_nil_r.
  - destruct (Nat.eqb _ _); simpl; rewrite IH; simpl;
      now rewrite <- app_assoc.
Qed.

Lemma Batch_concat {A} (items : list A) (size : nat) :
  concat (Batch items size) = items.
Proof. apply (Batch_loop_concat size items []). Qed.

Lemma Batch_loop_nonempty {A} (size : nat) (items batch b : list A) :
  In b (Batch_loop size items batch) -> b <> [].
Proof.
  revert batch. induction items as [|x items IH]; intros batch; simpl.
  - destruct batch; simpl; [tauto|]. intros [<-|[]]. discriminate.
  - destruct (Nat.eqb _ _); simpl.
    + intros [<-|H]; [|now apply IH in H]. now destruct batch.
    + apply IH.
Qed.

Lemma Batch_nonempty {A} (items : list A) (size : nat) (b : list A) :
  In b (Batch items size) -> b <> [].
Proof. apply Batch_loop_nonempty. Qed.

Lemma Batch_singleton {A} (x : A) (size : nat) : Batch [x] size = [[x]].
Proof. now destruct size as [|[|size]]. Qed.

(** ** Calls and transactions *)

Lemma call_for_app {A} (l1 l2 : list A) (body : A -> Call unit) (db : Db) :
  call_for (l1 ++ l2) body db
  = call_bind (call_for l1 body) (fun _ => call_for l2 body) db.
Proof.
  revert db. induction l1 as [|x l1 IH]; intros db; simpl.
  - reflexivity.
  - unfold call_bind. destruct (body x db) as [[[]|e] db1].
    + exact (IH db1).
    + reflexivity.
Qed.

Lemma tx_for_modify {A} (items : list A) (f : A -> Db -> Db) (db : Db) :
  tx_for items (fun x => tx_modify (f x)) db
  = Ok (tt, fold_left (fun d x => f x d) items db).
Proof.
  revert db. induction items as [|x items IH]; intros db; simpl.
  - reflexivity.
  - unfold tx_bind. simpl. apply IH.
Qed.

(** ** The first transaction of a batch *)

Lemma forallb_map_comp {A B} (f : A -> B) (p : B -> bool) (l : list A) :
  forallb p (map f l) = forallb (fun x => p (f x)) l.
Proof. induction l as [|x l IH]; simpl; [reflexivity | now rewrite IH]. Qed.

Lemma known_request_set_flow_responses (db : Db)
    (tbl : list ResponseRow.t) (k : RequestKey) :
  known_request (set_flow_responses db tbl) k = known_request db k.
Proof. reflexivity. Qed.

Lemma insert_all_known (db_now : Z) (db : Db) (rows : list FlowMessage)
    (tbl : list ResponseRow.t) :
  forallb (fun r => known_request db (msg_request_key r)) rows = true ->
  fold_left insert_ignore_response (map (response_row db_now) rows) tbl
  = fold_left (store_response db_now db) rows tbl.
Proof.
  revert tbl. induction rows as [|r rows IH]; intros tbl H; simpl in *.
  - reflexivity.
  - apply andb_prop in H as [Hr H]. unfold store_response at 2.
    rewrite Hr. now apply IH.
Qed.

Lemma _WriteResponses_single_eq (db_now : Z) (r : FlowMessage) (db : Db) :
  _WriteResponses_single db_now r db
  = Ok (tt, set_flow_responses db
              (store_response db_now db (flow_responses db) r)).
Proof.
  unfold _WriteResponses_single, except_IntegrityError,
    execute_insert_ignore_responses, store_response; simpl.
  change (ResponseRow.request_key (response_row db_now r))
    with (msg_request_key r).
  destruct (known_request db (msg_request_key r)); simpl.
  - reflexivity.
  - unfold tx_ret. now destruct db.
Qed.

Lemma tx_for_single (db_now : Z) (rows : list FlowMessage) (db : Db) :
  tx_for rows (_WriteResponses_single db_now) db
  = Ok (tt, set_flow_responses db
              (fold_left (store_response db_now db) rows (flow_responses db))).
Proof.
  assert (G : forall db0 tbl,
    tx_for rows (_WriteResponses_single db_now) (set_flow_responses db0 tbl)
    = Ok (tt, set_flow_responses db0
                (fold_left (store_response db_now db0) rows tbl))).
  { induction rows as [|r rows IH]; intros db0 tbl; simpl.
    - reflexivity.
    - unfold tx_bind. rewrite _WriteResponses_single_eq. simpl.
      apply (IH db0). }
  specialize (G db (flow_responses db)). now destruct db.
Qed.

(** The call a failed batch makes on itself is the method on one
    response. *)
Lemma _WriteResponses_singleton (db_now : Z) (r : FlowMessage) :
  _WriteResponses db_now [r] = _WriteResponses_single db_now r.
Proof. reflexivity. Qed.

Lemma _WriteResponses_eq (db_now : Z) (responses : list FlowMessage)
    (db : Db) :
  responses <> [] ->
  _WriteResponses db_now responses db
  = Ok (tt, set_flow_responses db
              (fold_left (store_response db_now db) responses
                         (flow_responses db))).
Proof.
  intros Hne. unfold _WriteResponses.
  destruct responses as [|r0 rest]; [congruence|].
  set (rs := r0 :: rest) in *.
  unfold except_IntegrityError, execute_insert_ignore_responses.
  rewrite forallb_map_comp.
  change (fun x => known_request db (ResponseRow.request_key (response_row db_now x)))
    with (fun x => known_request db (msg_request_key x)).
  destruct (forallb _ rs) eqn:Hall.
  - now rewrite (insert_all_known _ db).
  - destruct (1 <? Z.of_nat (length rs)) eqn:Hlen.
    + apply tx_for_single.
    + subst rs. destruct rest as [|r1 rest].
      2:{ apply Z.ltb_ge in Hlen. simpl length in Hlen. lia. }
      simpl in *. unfold store_response.
      rewrite andb_true_r in Hall. rewrite Hall. unfold tx_ret. now destruct db.
Qed.

Lemma tx_for_stamp (responses : list FlowMessage) (db : Db) :
  tx_for responses
    (fun r =>
       match r with
       | Status s =>
           execute_update_responses_expected (msg_request_key r)
                                             (FlowStatus.response_id s)
       | _ => tx_ret tt
       end) db
  = Ok (tt, set_flow_requests db
              (fold_left stamp_expected responses (flow_requests db))).
Proof.
  assert (G : forall db0 tbl,
    tx_for responses
      (fun r =>
         match r with
         | Status s =>
             execute_update_responses_expected (msg_request_key r)
                                               (FlowStatus.response_id s)
         | _ => tx_ret tt
         end) (set_flow_requests db0 tbl)
    = Ok (tt, set_flow_requests db0 (fold_left stamp_expected responses tbl))).
  { induction responses as [|r rs IH]; intros db0 tbl; simpl.
    - reflexivity.
    - unfold tx_bind. destruct r; simpl; apply (IH db0). }
  specialize (G db (flow_requests db)). now destruct db.
Qed.

Lemma _WriteFlowResponsesAndExpectedUpdates_eq (db_now : Z)
    (responses : list FlowMessage) (db : Db) :
  responses <> [] ->
  _WriteFlowResponsesAndExpectedUpdates db_now responses db
  = (Ok tt, written db_now responses db).
Proof.
  intros Hne.
  unfold _WriteFlowResponsesAndExpectedUpdates, WithTransaction,
    _WriteFlowResponsesAndExpectedUpdates_body, tx_bind.
  rewrite (_WriteResponses_eq _ _ _ Hne), tx_for_stamp. reflexivity.
Qed.

(** ** The second transaction of a batch *)

Lemma response_counts_lookup (cnt : RequestKey -> Z) (l : list RequestRow.t)
    (m0 : gmap RequestKey Z) (k : RequestKey) :
  fold_left (fun (m : gmap RequestKey Z) q =>
               <[RequestRow.key q := cnt (RequestRow.key q)]> m) l m0 !! k
  = if existsb (fun q => bool_decide (RequestRow.key q = k)) l
    then Some (cnt k) else m0 !! k.
Proof.
  revert m0. induction l as [|q l IH]; intros m0; simpl.
  - reflexivity.
  - rewrite IH. destruct (existsb _ l).
    + now rewrite orb_true_r.
    + rewrite orb_false_r. case_bool_decide as Hk.
      * subst k. now rewrite lookup_insert_eq.
      * now rewrite lookup_insert_ne.
Qed.

Lemma counted_request_key (db : Db) (ks : gset RequestKey) (q q' : RequestRow.t) :
  RequestRow.key q' = RequestRow.key q ->
  RequestRow.needs_processing q = false ->
  counted_request db ks q' = true ->
  counted_request db ks q = true.
Proof.
  unfold counted_request. intros Hk Hnp H.
  rewrite Hnp, <- Hk. simpl.
  apply andb_prop in H as [H Hc]. apply andb_prop in H as [H _].
  now rewrite H, Hc.
Qed.

Lemma counted_lookup (db : Db) (ks : gset RequestKey) (q : RequestRow.t) :
  In q (flow_requests db) ->
  RequestRow.needs_processing q = false ->
  existsb (fun q' => bool_decide (RequestRow.key q' = RequestRow.key q))
          (List.filter (counted_request db ks) (flow_requests db))
  = counted_request db ks q.
Proof.
  intros Hin Hnp. destruct (counted_request db ks q) eqn:Hc.
  - apply existsb_exists. exists q. split.
    + now apply filter_In.
    + now apply bool_decide_eq_true.
  - apply not_true_is_false. intros H.
    apply existsb_exists in H as (q' & Hq' & Hk).
    apply filter_In in Hq' as [_ Hq'].
    apply bool_decide_eq_true in Hk.
    rewrite (counted_request_key db ks q q' Hk Hnp Hq') in Hc. discriminate.
Qed.

(** The conditions built from [request_keys] and [response_counts], on a
    stored request. *)
Lemma conditions_eq (db : Db) (ks : gset RequestKey) (P : Z -> RequestRow.t -> bool)
    (q : RequestRow.t) :
  In q (flow_requests db) ->
  let response_counts :=
    fold_left
      (fun (m : gmap RequestKey Z) q =>
         <[RequestRow.key q := count_responses db (RequestRow.key q)]> m)
      (List.filter (counted_request db ks) (flow_requests db)) ∅ in
  let args :=
    omap (fun request_key =>
            match response_counts !! request_key with
            | Some count => Some (request_key, count)
            | None => None
            end) (elements ks) in
  existsb (fun arg => bool_decide (RequestRow.key q = arg.1) && P arg.2 q) args
  && negb (RequestRow.needs_processing q)
  = counted_request db ks q && P (count_responses db (RequestRow.key q)) q.
Proof.
  intros Hin rc args.
  destruct (RequestRow.needs_processing q) eqn:Hnp.
  { rewrite andb_false_r. unfold counted_request. rewrite Hnp.
    now rewrite andb_false_r. }
  rewrite andb_true_r.
  assert (Hrc : rc !! RequestRow.key q
                = if counted_request db ks q
                  then Some (count_responses db (RequestRow.key q)) else None).
  { unfold rc. rewrite (response_counts_lookup (count_responses db)).
    now rewrite counted_lookup. }
  destruct (counted_request db ks q) eqn:Hc; simpl.
  - destruct (P _ q) eqn:HP.
    + apply existsb_exists.
      exists (RequestRow.key q, count_responses db (RequestRow.key q)).
      split; [|simpl; rewrite HP; now rewrite bool_decide_eq_true_2].
      apply list_elem_of_In, list_elem_of_omap. exists (RequestRow.key q).
      split; [|now rewrite Hrc].
      apply elem_of_elements. unfold counted_request in Hc.
      apply andb_prop in Hc as [Hc _]. apply andb_prop in Hc as [Hc _].
      now apply bool_decide_eq_true in Hc.
    + apply not_true_is_false. intros H.
      apply existsb_exists in H as ([k c] & Harg & H). simpl in H.
      apply andb_prop in H as [Hk H]. apply bool_decide_eq_true in Hk.
      apply list_elem_of_In, list_elem_of_omap in Harg as (k' & _ & Harg).
      destruct (rc !! k') eqn:E; [|discriminate]. injection Harg as -> ->.
      subst k. rewrite Hrc in E. injection E as <-. congruence.
  - apply not_true_is_false. intros H.
    apply existsb_exists in H as ([k c] & Harg & H). simpl in H.
    apply andb_prop in H as [Hk _]. apply bool_decide_eq_true in Hk.
    apply list_elem_of_In, list_elem_of_omap in Harg as (k' & _ & Harg).
    destruct (rc !! k') eqn:E; [|discriminate]. injection Harg as -> ->.
    subst k. rewrite Hrc in E. discriminate.
Qed.

Lemma args_nil_not_counted (db : Db) (ks : gset RequestKey) (q : RequestRow.t) :
  In q (flow_requests db) ->
  let response_counts :=
    fold_left
      (fun (m : gmap RequestKey Z) q =>
         <[RequestRow.key q := count_responses db (RequestRow.key q)]> m)
      (List.filter (counted_request db ks) (flow_requests db)) ∅ in
  omap (fun request_key =>
          match response_counts !! request_key with
          | Some count => Some (request_key, count)
          | None => None
          end) (elements ks) = [] ->
  counted_request db ks q = false.
Proof.
  intros Hin rc Hnil.
  pose proof (conditions_eq db ks (fun _ _ => true) q Hin) as H.
  cbv zeta in H. fold rc in H. rewrite Hnil in H. simpl in H.
  now rewrite andb_true_r in H.
Qed.

Lemma next_requests_lookup (l : list FlowRow.t) (m0 : gmap FlowKey Z)
    (k : FlowKey) :
  NoDup (map FlowRow.key l) ->
  fold_left (fun (m : gmap FlowKey Z) f =>
               <[FlowRow.key f := FlowRow.next_request_to_process f]> m) l m0
    !! k
  = match List.find (fun f => bool_decide (FlowRow.key f = k)) l with
    | Some f => Some (FlowRow.next_request_to_process f)
    | None => m0 !! k
    end.
Proof.
  revert m0. induction l as [|f l IH]; intros m0 Hnd; simpl.
  - reflexivity.
  - inversion Hnd as [|? ? Hnotin Hnd']; subst.
    rewrite (IH _ Hnd'). case_bool_decide as Hk.
    + destruct (List.find _ l) as [f'|] eqn:Hf.
      * apply find_some in Hf as [Hin Hk']. apply bool_decide_eq_true in Hk'.
        exfalso. apply Hnotin. rewrite Hk, <- Hk'.
        apply list_elem_of_In. now apply in_map.
      * subst k. now rewrite lookup_insert_eq.
    + destruct (List.find _ l); [reflexivity|].
      rewrite lookup_insert_ne; [reflexivity | exact Hk].
Qed.

Lemma find_filter {A} (p c : A -> bool) (l : list A) :
  (forall x, p x = true -> c x = true) ->
  List.find p (List.filter c l) = List.find p l.
Proof.
  intros H. induction l as [|x l IH]; simpl; [reflexivity|].
  destruct (c x) eqn:Hc; simpl.
  - now rewrite IH.
  - destruct (p x) eqn:Hp; [|exact IH]. rewrite (H x Hp) in Hc. discriminate.
Qed.

Lemma NoDup_map_filter {A B} (f : A -> B) (c : A -> bool) (l : list A) :
  NoDup (map f l) -> NoDup (map f (List.filter c l)).
Proof.
  induction l as [|x l IH]; simpl; intros Hnd; [constructor|].
  inversion Hnd as [|? ? Hnotin Hnd']; subst.
  destruct (c x); simpl; [|now apply IH].
  constructor; [|now apply IH].
  intros Hin. apply Hnotin.
  apply list_elem_of_In in Hin. apply in_map_iff in Hin as (y & Hy & Hin).
  apply filter_In in Hin as [Hin _].
  apply list_elem_of_In. rewrite <- Hy. now apply in_map.
Qed.

(** ** The key of flow_processing_requests *)

Lemma key_taken_false {A K} `{EqDecision K} (key : A -> K) (k : K)
    (tbl : list A) :
  existsb (fun x => bool_decide (key x = k)) tbl = false
  <-> Forall (fun x => key x <> k) tbl.
Proof.
  induction tbl as [|x tbl IH]; simpl.
  - split; [constructor | reflexivity].
  - rewrite orb_false_iff, IH, bool_decide_eq_false. split.
    + intros [H1 H2]. now constructor.
    + intros H. apply Forall_cons in H. exact H.
Qed.

Lemma insert_fprs_Some (rows tbl tbl' : list FprRow.t) :
  insert_fprs tbl rows = Some tbl' -> tbl' = tbl ++ rows.
Proof.
  revert tbl. induction rows as [|row rows IH]; intros tbl H; simpl in H.
  - injection H as <-. now rewrite app_nil_r.
  - destruct (existsb _ tbl); [discriminate|].
    apply IH in H. now rewrite H, <- app_assoc.
Qed.

(** The statement inserts its rows when their keys are pairwise distinct
    and none of them is stored, and only then. *)
Lemma insert_fprs_ok (rows tbl : list FprRow.t) :
  NoDup (map FprRow.key rows) ->
  Forall (fun row => Forall (fun x => FprRow.key x <> FprRow.key row) tbl)
         rows ->
  insert_fprs tbl rows = Some (tbl ++ rows).
Proof.
  revert tbl. induction rows as [|row rows IH]; intros tbl Hnd H; simpl.
  - now rewrite app_nil_r.
  - cbn [map] in Hnd. apply NoDup_cons in Hnd as [Hnotin Hnd].
    apply Forall_cons in H as [Hfresh H].
    rewrite (proj2 (key_taken_false FprRow.key _ tbl) Hfresh).
    rewrite (IH (tbl ++ [row]) Hnd); [now rewrite <- app_assoc|].
    apply List.Forall_forall. intros row' Hin.
    apply Forall_app. split.
    + exact (proj1 (List.Forall_forall _ _) H row' Hin).
    + constructor; [|constructor]. intros E. apply Hnotin. rewrite E.
      apply list_elem_of_In. now apply in_map.
Qed.

Lemma insert_fprs_inv (rows tbl tbl' : list FprRow.t) :
  insert_fprs tbl rows = Some tbl' ->
  NoDup (map FprRow.key rows)
  /\ Forall (fun row => Forall (fun x => FprRow.key x <> FprRow.key row) tbl)
            rows.
Proof.
  revert tbl. induction rows as [|row rows IH]; intros tbl H; simpl in H.
  - split; constructor.
  - destruct (existsb _ tbl) eqn:E; [discriminate|].
    apply key_taken_false in E.
    destruct (IH _ H) as [Hnd Hfresh]. split.
    + cbn [map]. apply NoDup_cons. split; [|exact Hnd].
      intros Hin. apply list_elem_of_In, in_map_iff in Hin as (row' & Hk & Hin).
      pose proof (proj1 (List.Forall_forall _ _) Hfresh row' Hin) as Hrow'.
      apply Forall_app in Hrow' as [_ Hrow']. apply Forall_cons in Hrow' as [Hne _].
      now apply Hne.
    + constructor; [exact E|].
      apply List.Forall_forall. intros row' Hin.
      pose proof (proj1 (List.Forall_forall _ _) Hfresh row' Hin) as Hrow'.
      now apply Forall_app in Hrow' as [Hrow' _].
Qed.

Lemma known_flow_find (db : Db) (k : FlowKey) :
  known_flow db k = true -> exists f, find_flow db k = Some f.
Proof.
  unfold known_flow, find_flow. intros H.
  apply existsb_exists in H as (f & Hin & Hk).
  destruct (List.find _ (flows db)) as [f'|] eqn:Hf; [now exists f'|].
  now rewrite (find_none _ _ Hf f Hin) in Hk.
Qed.

Lemma fprs_to_write_eq (nr : gmap FlowKey Z) (db : Db) (l : list RequestRow.t) :
  Forall (fun q => nr !! RequestRow.flow_key q
                   = next_request_of db (RequestRow.flow_key q)
                   /\ known_flow db (RequestRow.flow_key q) = true) l ->
  fprs_to_write nr (map (fun q => (RequestRow.key q, RequestRow.request q)) l)
  = Ok (map (fun q => fpr_of_request (RequestRow.request q))
            (List.filter
               (fun q => bool_decide (next_request_of db (RequestRow.flow_key q)
                                      = Some (RequestRow.request_id q))) l)).
Proof.
  induction 1 as [|q l [Hq Hknown] _ IH]; simpl.
  - reflexivity.
  - change (nr !! (RequestRow.client_id q, RequestRow.flow_id q))
      with (nr !! RequestRow.flow_key q).
    rewrite Hq, IH. unfold next_request_of.
    destruct (known_flow_find _ _ Hknown) as [f ->].
    destruct (Z.eqb_spec (FlowRow.next_request_to_process f)
                         (RequestRow.request_id q)) as [E|E].
    + rewrite bool_decide_eq_true_2 by now rewrite E. reflexivity.
    + rewrite bool_decide_eq_false_2 by congruence. reflexivity.
Qed.

Lemma filter_filter_andb {A} (p c : A -> bool) (l : list A) :
  List.filter p (List.filter c l) = List.filter (fun x => c x && p x) l.
Proof.
  induction l as [|x l IH]; simpl; [reflexivity|].
  destruct (c x); simpl; [|exact IH]. destruct (p x); now rewrite IH.
Qed.

Lemma update_where_false {A} (c : A -> bool) (f : A -> A) (l : list A) :
  (forall x, In x l -> c x = false) -> update_where c f l = l.
Proof.
  intros H. unfold update_where. rewrite <- (map_id l) at 2.
  apply map_ext_in. intros x Hx. now rewrite (H x Hx).
Qed.

Lemma update_where_ext_in {A} (c c' : A -> bool) (f : A -> A) (l : list A) :
  (forall x, In x l -> c x = c' x) -> update_where c f l = update_where c' f l.
Proof.
  intros H. apply map_ext_in. intros x Hx. now rewrite (H x Hx).
Qed.

Lemma filter_false {A} (c : A -> bool) (l : list A) :
  (forall x, In x l -> c x = false) -> List.filter c l = [].
Proof.
  induction l as [|x l IH]; simpl; intros H; [reflexivity|].
  rewrite (H x) by now left. apply IH. intros y Hy. apply H. now right.
Qed.

Lemma msg_flow_key_of_request_key (responses : list FlowMessage)
    (q : RequestRow.t) :
  RequestRow.key q
    ∈ (list_to_set (map msg_request_key responses) : gset RequestKey) ->
  RequestRow.flow_key q
    ∈ (list_to_set (map msg_flow_key responses) : gset FlowKey).
Proof.
  rewrite !elem_of_list_to_set, !list_elem_of_In, !in_map_iff.
  intros (r & Hr & Hin). exists r. split; [|exact Hin].
  unfold msg_request_key, RequestRow.key in Hr. unfold msg_flow_key,
    RequestRow.flow_key. congruence.
Qed.

Lemma counted_request_in_keys (db : Db) (ks : gset RequestKey)
    (q : RequestRow.t) :
  counted_request db ks q = true -> RequestRow.key q ∈ ks.
Proof.
  unfold counted_request. intros H.
  apply andb_prop in H as [H _]. apply andb_prop in H as [H _].
  now apply bool_decide_eq_true in H.
Qed.

Lemma set_fprs_app_nil (db : Db) :
  set_flow_processing_requests db (flow_processing_requests db ++ []) = db.
Proof. destruct db; unfold set_flow_processing_requests; simpl. now rewrite app_nil_r. Qed.

Lemma _UpdateRequestsAndScheduleFPRs_eq (db_now : Z) (responses : list FlowMessage)
    (db : Db) :
  db_wf db -> responses <> [] ->
  _UpdateRequestsAndScheduleFPRs db_now responses db
  = match insert_fprs (flow_processing_requests db)
                      (new_fprs db_now responses db) with
    | Some _ => (Ok tt, scheduled db_now responses db)
    | None => (Raise IntegrityError, db)
    end.
Proof.
  intros Hwf Hne.
  unfold _UpdateRequestsAndScheduleFPRs, WithTransaction,
    _UpdateRequestsAndScheduleFPRs_body, scheduled, new_fprs.
  set (ks := list_to_set (map msg_request_key responses) : gset RequestKey).
  set (fks := list_to_set (map msg_flow_key responses) : gset FlowKey).
  assert (Hks : ks <> ∅).
  { destruct responses as [|r rs]; [congruence|]. subst ks. simpl.
    intros H. apply (not_elem_of_empty (C := gset RequestKey) (msg_request_key r)).
    rewrite <- H. set_solver. }
  assert (Hfks : fks <> ∅).
  { destruct responses as [|r rs]; [congruence|]. subst fks. simpl.
    intros H. apply (not_elem_of_empty (C := gset FlowKey) (msg_flow_key r)).
    rewrite <- H. set_solver. }
  unfold tx_bind at 1. unfold _ReadFlowResponseCounts.
  rewrite bool_decide_eq_false_2 by exact Hks.
  unfold tx_bind at 1. unfold tx_get at 1. unfold tx_ret at 1.
  unfold tx_bind at 1. unfold _ReadAndLockNextRequestsToProcess.
  rewrite bool_decide_eq_false_2 by exact Hfks.
  unfold tx_bind at 1. unfold tx_get at 1. unfold tx_ret at 1.
  set (rc := fold_left _ (List.filter (counted_request db ks) _) ∅).
  set (nr := fold_left _ (List.filter _ (flows db)) ∅).
  unfold tx_bind at 1. unfold _ReadLockAndUpdateAffectedRequests.
  set (args := omap _ (elements ks)).
  assert (Hready : forall q, In q (flow_requests db) ->
            existsb (fun arg => condition_template arg q) args
            && negb (RequestRow.needs_processing q) = ready_request db ks q).
  { intros q Hq. unfold ready_request.
    exact (conditions_eq db ks
             (fun c q => bool_decide (RequestRow.responses_expected q = Some c)
                         || negb (bool_decide (RequestRow.callback_state q = ""%string)))
             q Hq). }
  assert (Hcomplete : forall q, In q (flow_requests db) ->
            existsb (fun arg => callback_agnostic_condition_template arg q) args
            && negb (RequestRow.needs_processing q) = complete_request db ks q).
  { intros q Hq. unfold complete_request.
    exact (conditions_eq db ks
             (fun c q => bool_decide (RequestRow.responses_expected q = Some c))
             q Hq). }
  assert (Hsched : List.filter (scheduled_request db ks) (flow_requests db)
            = List.filter
                (fun q => bool_decide (next_request_of db (RequestRow.flow_key q)
                                       = Some (RequestRow.request_id q)))
                (List.filter (ready_request db ks) (flow_requests db))).
  { now rewrite filter_filter_andb. }
  destruct args as [|arg args'] eqn:Hargs.
  - (* no request has a counted response *)
    unfold tx_ret; simpl.
    assert (Hnc : forall q, In q (flow_requests db) ->
                            counted_request db ks q = false).
    { intros q Hq. exact (args_nil_not_counted db ks q Hq Hargs). }
    rewrite update_where_false.
    2:{ intros q Hq. unfold complete_request. now rewrite (Hnc q Hq). }
    rewrite Hsched, (filter_false (ready_request db ks)).
    2:{ intros q Hq. unfold ready_request. now rewrite (Hnc q Hq). }
    simpl. f_equal. destruct db; unfold set_flow_requests,
      set_flow_processing_requests; simpl. now rewrite app_nil_r.
  - rewrite <- Hargs in *. clear Hargs arg args'.
    unfold tx_bind at 1. unfold tx_get at 1.
    unfold tx_bind at 1. unfold tx_modify at 1. unfold tx_ret at 1.
    rewrite (filter_ext_in _ _ _ Hready).
    rewrite (update_where_ext_in _ _ _ _ Hcomplete).
    set (db' := set_flow_requests db _).
    assert (Hfprs :
      fprs_to_write nr
        (map (fun q => (RequestRow.key q, RequestRow.request q))
             (List.filter (ready_request db ks) (flow_requests db)))
      = Ok (map (fun q => fpr_of_request (RequestRow.request q))
                (List.filter (scheduled_request db ks) (flow_requests db)))).
    { rewrite Hsched. apply fprs_to_write_eq.
      apply List.Forall_forall. intros q Hq. apply filter_In in Hq as [Hq Hr].
      assert (Hknown : known_flow db (RequestRow.flow_key q) = true).
      { apply (proj1 (List.Forall_forall _ _) (wf_requests_fk db Hwf) q Hq). }
      split; [|exact Hknown].
      unfold nr. rewrite next_requests_lookup.
      2:{ apply NoDup_map_filter, (wf_flows_pk db Hwf). }
      rewrite find_filter; [reflexivity|].
      intros f Hf. apply bool_decide_eq_true in Hf.
      apply bool_decide_eq_true_2. rewrite Hf.
      apply msg_flow_key_of_request_key.
      unfold ready_request in Hr. apply andb_prop in Hr as [Hr _].
      now apply counted_request_in_keys in Hr. }
    destruct (map _ (List.filter (ready_request db ks) (flow_requests db)))
      as [|a affected] eqn:Haff.
    + unfold tx_ret. f_equal.
      apply map_eq_nil in Haff. rewrite Hsched, Haff. simpl.
      rewrite app_nil_r. subst db'. now destruct db.
    + rewrite Hfprs. clear Hsched Hfprs.
      destruct (List.filter (scheduled_request db ks) (flow_requests db))
        as [|s ss]; simpl.
      * unfold tx_ret. f_equal. rewrite app_nil_r. subst db'. now destruct db.
      * rewrite map_map.
        change (flow_processing_requests db')
          with (flow_processing_requests db).
        destruct (existsb _ (flow_processing_requests db)); [reflexivity|].
        destruct (insert_fprs _ _) as [tbl|] eqn:Hins; [|reflexivity].
        apply insert_fprs_Some in Hins. subst tbl.
        now rewrite <- app_assoc.
Qed.

(** ** Frame properties of a batch *)

Lemma map_key_update_where {A K} (key : A -> K) (c : A -> bool) (f : A -> A)
    (l : list A) :
  (forall x, key (f x) = key x) ->
  map key (update_where c f l) = map key l.
Proof.
  intros Hf. unfold update_where. rewrite map_map. apply map_ext.
  intros x. destruct (c x); [apply Hf | reflexivity].
Qed.

Lemma Forall_update_where {A} (P : A -> Prop) (c : A -> bool) (f : A -> A)
    (l : list A) :
  (forall x, P x -> P (f x)) -> Forall P l -> Forall P (update_where c f l).
Proof.
  intros Hf. induction 1 as [|x l Hx _ IH]; simpl; constructor; [|exact IH].
  destruct (c x); [now apply Hf | exact Hx].
Qed.

Lemma find_update_where {A K} `{EqDecision K} (key : A -> K) (k : K)
    (c : A -> bool) (f : A -> A) (l : list A) :
  (forall x, key (f x) = key x) ->
  List.find (fun q => bool_decide (key q = k)) (update_where c f l)
  = option_map (fun q => if c q then f q else q)
               (List.find (fun q => bool_decide (key q = k)) l).
Proof.
  intros Hf. induction l as [|x l IH]; simpl; [reflexivity|].
  assert (E : key (if c x then f x else x) = key x)
    by (destruct (c x); [apply Hf | reflexivity]).
  rewrite E. destruct (bool_decide (key x = k)); [reflexivity|].
  exact IH.
Qed.

Lemma stamp_expected_keys (tbl : list RequestRow.t) (r : FlowMessage) :
  map RequestRow.key (stamp_expected tbl r) = map RequestRow.key tbl.
Proof.
  destruct r; simpl; try reflexivity.
  now apply map_key_update_where.
Qed.

Lemma fold_stamp_expected_keys (rs : list FlowMessage)
    (tbl : list RequestRow.t) :
  map RequestRow.key (fold_left stamp_expected rs tbl) = map RequestRow.key tbl.
Proof.
  revert tbl. induction rs as [|r rs IH]; intros tbl; simpl; [reflexivity|].
  now rewrite IH, stamp_expected_keys.
Qed.

Lemma fold_stamp_expected_Forall (P : RequestRow.t -> Prop)
    (rs : list FlowMessage) (tbl : list RequestRow.t) :
  (forall v x, P x -> P (set_responses_expected v x)) ->
  Forall P tbl -> Forall P (fold_left stamp_expected rs tbl).
Proof.
  intros HP. revert tbl. induction rs as [|r rs IH]; intros tbl H; simpl.
  - exact H.
  - apply IH. destruct r; simpl; try exact H.
    apply Forall_update_where; [apply HP | exact H].
Qed.

Lemma existsb_key_map {A K} `{EqDecision K} (key : A -> K) (k : K)
    (l : list A) :
  existsb (fun x => bool_decide (key x = k)) l = bool_decide (k ∈ map key l).
Proof.
  induction l as [|x l IH]; cbn [existsb map].
  - symmetry. apply bool_decide_eq_false_2, not_elem_of_nil.
  - rewrite IH. destruct (decide (key x = k)) as [E|E].
    + rewrite (bool_decide_eq_true_2 _ E). simpl. symmetry.
      apply bool_decide_eq_true_2. rewrite E. apply list_elem_of_here.
    + rewrite (bool_decide_eq_false_2 _ E). simpl.
      apply bool_decide_ext. rewrite elem_of_cons.
      split; [now right | intros [E'|E']; [congruence | exact E']].
Qed.

Lemma known_request_keys (db db' : Db) (k : RequestKey) :
  map RequestRow.key (flow_requests db') = map RequestRow.key (flow_requests db) ->
  known_request db' k = known_request db k.
Proof.
  intros H. unfold known_request. now rewrite !existsb_key_map, H.
Qed.

(** Preservation of the primary key of flow_responses. *)
Lemma insert_ignore_response_NoDup (tbl : list ResponseRow.t)
    (row : ResponseRow.t) :
  NoDup (map ResponseRow.key tbl) ->
  NoDup (map ResponseRow.key (insert_ignore_response tbl row)).
Proof.
  intros H. unfold insert_ignore_response.
  destruct (existsb _ tbl) eqn:E; [exact H|].
  rewrite map_app. simpl. apply NoDup_app. split; [exact H|].
  split; [|apply NoDup_singleton].
  intros k Hk Hk'. apply list_elem_of_singleton in Hk'. subst k.
  rewrite existsb_key_map in E. now apply bool_decide_eq_false in E.
Qed.

Lemma fold_store_response_NoDup (db_now : Z) (db : Db) (rs : list FlowMessage)
    (tbl : list ResponseRow.t) :
  NoDup (map ResponseRow.key tbl) ->
  NoDup (map ResponseRow.key (fold_left (store_response db_now db) rs tbl)).
Proof.
  revert tbl. induction rs as [|r rs IH]; intros tbl H; simpl; [exact H|].
  apply IH. unfold store_response. destruct (known_request _ _); [|exact H].
  now apply insert_ignore_response_NoDup.
Qed.

Lemma written_wf (db_now : Z) (rs : list FlowMessage) (db : Db) :
  db_wf db -> db_wf (written db_now rs db).
Proof.
  intros [H1 H2 H3 H4 H5]. split; simpl.
  - exact H1.
  - now rewrite fold_stamp_expected_keys.
  - now apply fold_store_response_NoDup.
  - apply fold_stamp_expected_Forall; [intros v x Hx; exact Hx | exact H4].
  - apply fold_stamp_expected_Forall; [intros v x Hx; exact Hx | exact H5].
Qed.

Lemma scheduled_wf (db_now : Z) (rs : list FlowMessage) (db : Db) :
  db_wf db -> db_wf (scheduled db_now rs db).
Proof.
  intros [H1 H2 H3 H4 H5]. split; simpl.
  - exact H1.
  - now rewrite map_key_update_where.
  - exact H3.
  - apply Forall_update_where; [intros x Hx; exact Hx | exact H4].
  - apply Forall_update_where; [intros x Hx; exact Hx | exact H5].
Qed.

Lemma batch_step_wf (db_now : Z) (db : Db) (batch : list FlowMessage) :
  db_wf db -> db_wf (batch_step db_now db batch).
Proof. intros H. now apply scheduled_wf, written_wf. Qed.

Lemma write_batch_eq (db_now : Z) (batch : list FlowMessage) (db : Db) :
  db_wf db -> batch <> [] ->
  write_batch db_now batch db
  = match insert_fprs (flow_processing_requests db)
                      (new_fprs db_now batch (written db_now batch db)) with
    | Some _ => (Ok tt, batch_step db_now db batch)
    | None => (Raise IntegrityError, written db_now batch db)
    end.
Proof.
  intros Hwf Hne. unfold write_batch, call_bind.
  rewrite (_WriteFlowResponsesAndExpectedUpdates_eq _ _ _ Hne).
  rewrite _UpdateRequestsAndScheduleFPRs_eq;
    [reflexivity | now apply written_wf | exact Hne].
Qed.

(** The loop over the batches runs them all, or stops at the batch whose
    flow processing requests are refused: the responses of that batch are
    written, its second transaction is rolled back. *)
Lemma call_for_write_batch (db_now : Z) (batches : list (list FlowMessage))
    (db : Db) :
  db_wf db -> Forall (fun b => b <> []) batches ->
  call_for batches (write_batch db_now) db
  = (Ok tt, fold_left (batch_step db_now) batches db)
  \/ exists done b rest,
       batches = done ++ b :: rest
       /\ call_for batches (write_batch db_now) db
          = (Raise IntegrityError,
             written db_now b (fold_left (batch_step db_now) done db)).
Proof.
  intros Hwf H. revert db Hwf.
  induction H as [|b batches Hb _ IH]; intros db Hwf; simpl.
  - now left.
  - unfold call_bind. rewrite (write_batch_eq _ _ _ Hwf Hb).
    destruct (insert_fprs _ _).
    + destruct (IH (batch_step db_now db b) (batch_step_wf _ _ _ Hwf))
        as [E | (done & b' & rest & -> & E)].
      * now left.
      * right. exists (b :: done), b', rest. now split.
    + right. exists [], b, batches. now split.
Qed.

Lemma WriteFlowResponses_eq (size : nat) (db_now : Z) (responses : list FlowMessage)
    (db : Db) :
  db_wf db ->
  WriteFlowResponses size db_now responses db
  = (Ok tt, fold_left (batch_step db_now) (Batch responses size) db)
  \/ exists done b rest,
       Batch responses size = done ++ b :: rest
       /\ WriteFlowResponses size db_now responses db
          = (Raise IntegrityError,
             written db_now b (fold_left (batch_step db_now) done db)).
Proof.
  intros Hwf. unfold WriteFlowResponses.
  destruct responses as [|r rs]; [now left|].
  apply call_for_write_batch; [exact Hwf|].
  apply List.Forall_forall. intros b Hb. now apply Batch_nonempty in Hb.
Qed.

(** A call that returns ran all its batches. *)
Lemma WriteFlowResponses_Ok (size : nat) (db_now : Z)
    (responses : list FlowMessage) (db db' : Db) :
  db_wf db ->
  WriteFlowResponses size db_now responses db = (Ok tt, db') ->
  db' = fold_left (batch_step db_now) (Batch responses size) db.
Proof.
  intros Hwf H.
  destruct (WriteFlowResponses_eq size db_now responses db Hwf)
    as [E | (done & b & rest & _ & E)]; congruence.
Qed.

Lemma fold_batch_step_wf (db_now : Z) (batches : list (list FlowMessage)) (db : Db) :
  db_wf db -> db_wf (fold_left (batch_step db_now) batches db).
Proof.
  revert db. induction batches as [|b bs IH]; intros db H; simpl; [exact H|].
  now apply IH, batch_step_wf.
Qed.

(** ** One request through a batch *)

Lemma last_status_acc (k : RequestKey) (rs : list FlowMessage)
    (acc : option Z) :
  fold_left (last_status_step k) rs acc
  = match last_status k rs with
    | Some v => Some v
    | None => acc
    end.
Proof.
  unfold last_status. revert acc.
  induction rs as [|r rs IH]; intros acc; cbn [fold_left]; [reflexivity|].
  rewrite (IH (last_status_step k acc r)), (IH (last_status_step k None r)).
  destruct (fold_left _ rs None); [reflexivity|].
  unfold last_status_step. destruct r; try reflexivity.
  now destruct (bool_decide _).
Qed.

Lemma last_status_cons (k : RequestKey) (r : FlowMessage)
    (rs : list FlowMessage) :
  last_status k (r :: rs)
  = match last_status k rs with
    | Some v => Some v
    | None => last_status k [r]
    end.
Proof. unfold last_status at 1. cbn [fold_left]. apply last_status_acc. Qed.

Lemma last_status_app (k : RequestKey) (rs1 rs2 : list FlowMessage) :
  last_status k (rs1 ++ rs2)
  = match last_status k rs2 with
    | Some v => Some v
    | None => last_status k rs1
    end.
Proof.
  unfold last_status at 1. rewrite fold_left_app. apply last_status_acc.
Qed.


Lemma find_fold_stamp_expected (k : RequestKey) (rs : list FlowMessage)
    (tbl : list RequestRow.t) :
  List.find (fun q => bool_decide (RequestRow.key q = k))
            (fold_left stamp_expected rs tbl)
  = option_map (stamped k rs)
      (List.find (fun q => bool_decide (RequestRow.key q = k)) tbl).
Proof.
  revert tbl. induction rs as [|r rs IH]; intros tbl; simpl.
  - now destruct (List.find _ tbl).
  - rewrite IH. unfold stamped. rewrite (last_status_cons k r rs).
    assert (E : List.find (fun q => bool_decide (RequestRow.key q = k))
                          (stamp_expected tbl r)
                = option_map
                    (fun q => match last_status k [r] with
                              | Some v => set_responses_expected v q
                              | None => q
                              end)
                    (List.find (fun q => bool_decide (RequestRow.key q = k)) tbl)).
    { destruct r as [m|s|m]; simpl;
        try (now destruct (List.find _ tbl)).
      rewrite find_update_where by reflexivity.
      destruct (List.find _ tbl) as [q|] eqn:Hq; [|reflexivity]. simpl.
      apply find_some in Hq as [_ Hq]. apply bool_decide_eq_true in Hq.
      unfold last_status, last_status_step. cbn [fold_left]. rewrite Hq.
      destruct (decide (k = msg_request_key (Status s))) as [E|E].
      - rewrite !bool_decide_eq_true_2 by congruence. reflexivity.
      - rewrite !bool_decide_eq_false_2 by congruence. reflexivity. }
    rewrite E. destruct (List.find _ tbl) as [q|]; [|reflexivity]. simpl.
    destruct (last_status k rs); [|reflexivity].
    now destruct (last_status k [r]).
Qed.

Lemma find_request_written (db_now : Z) (rs : list FlowMessage) (db : Db)
    (k : RequestKey) :
  find_request (written db_now rs db) k
  = option_map (stamped k rs) (find_request db k).
Proof. apply find_fold_stamp_expected. Qed.

Lemma find_request_scheduled (db_now : Z) (rs : list FlowMessage) (db : Db)
    (k : RequestKey) :
  find_request (scheduled db_now rs db) k
  = option_map
      (fun q =>
         if complete_request db (list_to_set (map msg_request_key rs)) q
         then set_needs_processing q else q)
      (find_request db k).
Proof. unfold find_request, scheduled; simpl. now apply find_update_where. Qed.

(** The stored responses of a request through a batch. *)
Lemma filter_app_singleton {A} (c : A -> bool) (l : list A) (x : A) :
  List.filter c (l ++ [x]) = List.filter c l ++ (if c x then [x] else []).
Proof. rewrite List.filter_app. reflexivity. Qed.

Lemma store_response_other (db_now : Z) (db : Db) (tbl : list ResponseRow.t)
    (r : FlowMessage) (k : RequestKey) :
  msg_request_key r <> k ->
  List.filter (fun x => bool_decide (ResponseRow.request_key x = k))
              (store_response db_now db tbl r)
  = List.filter (fun x => bool_decide (ResponseRow.request_key x = k)) tbl.
Proof.
  intros Hk. unfold store_response, insert_ignore_response.
  destruct (known_request _ _); [|reflexivity].
  destruct (existsb _ tbl); [reflexivity|].
  rewrite filter_app_singleton.
  change (ResponseRow.request_key (response_row db_now r))
    with (msg_request_key r).
  rewrite bool_decide_eq_false_2 by exact Hk. apply app_nil_r.
Qed.


Lemma responses_of_scheduled (db_now : Z) (rs : list FlowMessage) (db : Db)
    (k : RequestKey) :
  responses_of (scheduled db_now rs db) k = responses_of db k.
Proof. reflexivity. Qed.

Lemma store_response_keeps (db_now : Z) (db : Db) (tbl : list ResponseRow.t)
    (r : FlowMessage) (c : ResponseRow.t -> bool) :
  existsb c tbl = true -> existsb c (store_response db_now db tbl r) = true.
Proof.
  intros H. unfold store_response, insert_ignore_response.
  destruct (known_request _ _); [|exact H].
  destruct (existsb (fun x => bool_decide (ResponseRow.key x = _)) tbl);
    [exact H|].
  rewrite existsb_app, H. reflexivity.
Qed.

Lemma fold_store_response_keeps (db_now : Z) (db : Db) (rs : list FlowMessage)
    (tbl : list ResponseRow.t) (c : ResponseRow.t -> bool) :
  existsb c tbl = true ->
  existsb c (fold_left (store_response db_now db) rs tbl) = true.
Proof.
  revert tbl. induction rs as [|r rs IH]; intros tbl H; simpl; [exact H|].
  now apply IH, store_response_keeps.
Qed.

Lemma store_response_stored (db_now : Z) (db : Db) (tbl : list ResponseRow.t)
    (r : FlowMessage) :
  known_request db (msg_request_key r) = true ->
  existsb (fun x => bool_decide (ResponseRow.key x = msg_key r))
          (store_response db_now db tbl r) = true.
Proof.
  intros Hk. unfold store_response, insert_ignore_response. rewrite Hk.
  change (ResponseRow.key (response_row db_now r)) with (msg_key r).
  destruct (existsb _ tbl) eqn:E; [exact E|].
  rewrite existsb_app. simpl.
  change (ResponseRow.key (response_row db_now r)) with (msg_key r).
  rewrite bool_decide_eq_true_2 by reflexivity. now rewrite orb_true_r.
Qed.

(** A response of a batch for a stored request is stored after the
    batch. *)
Lemma written_stored (db_now : Z) (rs : list FlowMessage) (db : Db)
    (r : FlowMessage) :
  In r rs -> known_request db (msg_request_key r) = true ->
  existsb (fun x => bool_decide (ResponseRow.key x = msg_key r))
          (flow_responses (written db_now rs db)) = true.
Proof.
  unfold written; simpl. generalize (flow_responses db) as tbl.
  induction rs as [|r' rs IH]; intros tbl Hin Hk; simpl; [contradiction|].
  destruct Hin as [->|Hin].
  - now apply fold_store_response_keeps, store_response_stored.
  - now apply IH.
Qed.

Lemma count_responses_pos (db : Db) (x : ResponseRow.t) :
  In x (flow_responses db) ->
  0 < count_responses db (ResponseRow.request_key x).
Proof.
  intros Hin. unfold count_responses, responses_of.
  assert (H : In x (List.filter
                      (fun y => bool_decide (ResponseRow.request_key y
                                             = ResponseRow.request_key x))
                      (flow_responses db))).
  { apply filter_In. split; [exact Hin|]. now apply bool_decide_eq_true_2. }
  destruct (List.filter _ _); [contradiction|]. simpl length. lia.
Qed.

Lemma touches_written_counted (db_now : Z) (rs : list FlowMessage) (db : Db)
    (k : RequestKey) :
  touches k rs = true -> known_request db k = true ->
  0 < count_responses (written db_now rs db) k.
Proof.
  intros Ht Hk. apply existsb_exists in Ht as (r & Hin & Hr).
  apply bool_decide_eq_true in Hr. subst k.
  pose proof (written_stored db_now rs db r Hin Hk) as H.
  apply existsb_exists in H as (x & Hx & Hkey).
  apply bool_decide_eq_true in Hkey.
  replace (msg_request_key r) with (ResponseRow.request_key x).
  - now apply count_responses_pos.
  - unfold ResponseRow.request_key, ResponseRow.key, msg_key,
      msg_request_key in *. congruence.
Qed.

Lemma touches_in_keys (k : RequestKey) (rs : list FlowMessage) :
  touches k rs = bool_decide (k ∈ (list_to_set (map msg_request_key rs)
                                   : gset RequestKey)).
Proof.
  unfold touches. rewrite existsb_key_map. apply bool_decide_ext.
  now rewrite elem_of_list_to_set.
Qed.

(** The row of a request after a batch. *)
Lemma find_request_batch_step (db_now : Z) (db : Db) (b : list FlowMessage)
    (k : RequestKey) :
  find_request (batch_step db_now db b) k
  = option_map
      (fun q =>
         let q1 := stamped k b q in
         if touches k b
            && negb (RequestRow.needs_processing q)
            && (0 <? count_responses (batch_step db_now db b) k)
            && bool_decide (RequestRow.responses_expected q1
                            = Some (count_responses (batch_step db_now db b) k))
         then set_needs_processing q1 else q1)
      (find_request db k).
Proof.
  unfold batch_step. rewrite find_request_scheduled, find_request_written.
  destruct (find_request db k) as [q|] eqn:Hq; [|reflexivity]. simpl.
  f_equal. unfold complete_request, counted_request.
  assert (Hk : RequestRow.key (stamped k b q) = k).
  { apply find_some in Hq as [_ Hq]. apply bool_decide_eq_true in Hq.
    unfold stamped. now destruct (last_status k b). }
  assert (Hnp : RequestRow.needs_processing (stamped k b q)
                = RequestRow.needs_processing q).
  { unfold stamped. now destruct (last_status k b). }
  rewrite Hk, Hnp, <- touches_in_keys. reflexivity.
Qed.


Lemma known_request_find (db : Db) (k : RequestKey) :
  known_request db k = true <-> exists q, find_request db k = Some q.
Proof.
  unfold known_request, find_request. split.
  - intros H. apply existsb_exists in H as (q & Hin & Hk).
    destruct (List.find _ (flow_requests db)) as [q'|] eqn:Hf; [now exists q'|].
    now rewrite (find_none _ _ Hf q Hin) in Hk.
  - intros [q Hq]. apply find_some in Hq. apply existsb_exists. now exists q.
Qed.

Lemma known_request_batch_step (db_now : Z) (db : Db) (b : list FlowMessage)
    (k : RequestKey) :
  known_request (batch_step db_now db b) k = known_request db k.
Proof.
  apply known_request_keys. unfold batch_step, scheduled, written; simpl.
  rewrite map_key_update_where by reflexivity.
  apply fold_stamp_expected_keys.
Qed.



(** ** One request through a sequence of batches *)


Lemma run_steps_wf (steps : list (Z * list FlowMessage)) (db : Db) :
  db_wf db -> db_wf (run_steps steps db).
Proof.
  revert db. induction steps as [|s steps IH]; intros db H; simpl; [exact H|].
  now apply IH, batch_step_wf.
Qed.

Lemma known_request_run_steps (steps : list (Z * list FlowMessage)) (db : Db)
    (k : RequestKey) :
  known_request (run_steps steps db) k = known_request db k.
Proof.
  revert db. induction steps as [|s steps IH]; intros db; simpl; [reflexivity|].
  unfold run_steps in IH. now rewrite IH, known_request_batch_step.
Qed.




(** ** Sequences of calls *)

Lemma fold_left_map {A B C} (f : A -> B) (g : C -> B -> C) (l : list A)
    (c : C) :
  fold_left g (map f l) c = fold_left (fun c x => g c (f x)) l c.
Proof. revert c. induction l as [|x l IH]; intros c; simpl; auto. Qed.

Lemma returns_Ok (r : result unit) : returns r = true <-> r = Ok tt.
Proof.
  destruct r as [[]|e]; simpl; split; intros H; congruence.
Qed.

Lemma WriteFlowResponses_steps (size : nat) (call : Z * list FlowMessage)
    (db : Db) :
  db_wf db ->
  returns (WriteFlowResponses size call.1 call.2 db).1 = true ->
  WriteFlowResponses size call.1 call.2 db
  = (Ok tt, run_steps (steps_of_call size call) db).
Proof.
  intros Hwf H.
  destruct (WriteFlowResponses_eq size call.1 call.2 db Hwf)
    as [E | (done & b & rest & _ & E)]; rewrite E in *; [|discriminate].
  f_equal. unfold run_steps, steps_of_call. now rewrite fold_left_map.
Qed.






Lemma example_db_wf : db_wf example_db.
Proof.
  split; simpl.
  - apply NoDup_singleton.
  - apply NoDup_singleton.
  - apply NoDup_nil_2.
  - repeat constructor.
  - repeat constructor.
Qed.


(** ** The flow processing requests of a batch *)

Lemma filter_unique {A K} (key : A -> K) (c : A -> bool) (l : list A) (x : A) :
  NoDup (map key l) -> In x l -> c x = true ->
  (forall y, In y l -> c y = true -> key y = key x) ->
  List.filter c l = [x].
Proof.
  induction l as [|y l IH]; simpl; intros Hnd Hin Hc Hkey; [contradiction|].
  apply NoDup_cons in Hnd as [Hnotin Hnd].
  destruct Hin as [->|Hin].
  - rewrite Hc. f_equal. apply filter_false. intros z Hz.
    destruct (c z) eqn:Hcz; [|reflexivity]. exfalso. apply Hnotin.
    rewrite <- (Hkey z (or_intror Hz) Hcz).
    apply list_elem_of_In. now apply in_map.
  - destruct (c y) eqn:Hcy.
    + exfalso. apply Hnotin. rewrite (Hkey y (or_introl eq_refl) Hcy).
      apply list_elem_of_In. now apply in_map.
    + apply IH; auto.
Qed.


Lemma filter_map_comm {A B} (f : A -> B) (p : B -> bool) (l : list A) :
  List.filter p (map f l) = map f (List.filter (fun x => p (f x)) l).
Proof.
  induction l as [|x l IH]; simpl; [reflexivity|].
  destruct (p (f x)); simpl; now rewrite IH.
Qed.

Lemma find_request_In (db : Db) (k : RequestKey) (q : RequestRow.t) :
  NoDup (map RequestRow.key (flow_requests db)) ->
  In q (flow_requests db) -> RequestRow.key q = k ->
  find_request db k = Some q.
Proof.
  unfold find_request. induction (flow_requests db) as [|y l IH]; simpl;
    intros Hnd Hin Hk; [contradiction|].
  apply NoDup_cons in Hnd as [Hnotin Hnd].
  destruct Hin as [->|Hin].
  - now rewrite bool_decide_eq_true_2.
  - rewrite bool_decide_eq_false_2; [now apply IH|].
    intros E. apply Hnotin. rewrite E, <- Hk.
    apply list_elem_of_In. now apply in_map.
Qed.

Lemma find_request_Some (db : Db) (k : RequestKey) (q : RequestRow.t) :
  find_request db k = Some q -> In q (flow_requests db) /\ RequestRow.key q = k.
Proof.
  intros H. apply find_some in H as [Hin Hk].
  now apply bool_decide_eq_true in Hk.
Qed.

(** The rows added to flow_processing_requests for a flow are made from
    the ready requests of the flow that are its next request. *)
Lemma fprs_of_scheduled (db_now : Z) (rs : list FlowMessage) (db : Db)
    (fk : FlowKey) :
  db_wf db ->
  fprs_of (scheduled db_now rs db) fk
  = fprs_of db fk
    ++ map (fun q => fpr_row db_now (fpr_of_request (RequestRow.request q)))
         (List.filter
            (fun q =>
               scheduled_request db (list_to_set (map msg_request_key rs)) q
               && bool_decide (RequestRow.flow_key q = fk))
            (flow_requests db)).
Proof.
  intros Hwf. unfold fprs_of, scheduled; simpl.
  rewrite List.filter_app, filter_map_comm, filter_filter_andb. f_equal. f_equal.
  apply filter_ext_in. intros q Hq. f_equal. apply bool_decide_ext.
  pose proof (proj1 (List.Forall_forall _ _) (wf_request_ids db Hwf) q Hq) as E.
  unfold request_key_of, RequestRow.key in E.
  unfold FprRow.flow_key, RequestRow.flow_key; simpl.
  split; congruence.
Qed.

Lemma scheduled_request_key (db : Db) (ks : gset RequestKey) (fk : FlowKey)
    (q : RequestRow.t) (n : Z) :
  next_request_of db fk = Some n ->
  scheduled_request db ks q && bool_decide (RequestRow.flow_key q = fk) = true ->
  RequestRow.key q = (fk, n).
Proof.
  intros Hn H. apply andb_prop in H as [H Hfk].
  apply bool_decide_eq_true in Hfk. unfold scheduled_request in H.
  apply andb_prop in H as [_ H]. apply bool_decide_eq_true in H.
  rewrite Hfk, Hn in H. injection H as ->.
  unfold RequestRow.key, RequestRow.flow_key in *. now rewrite <- Hfk.
Qed.

Lemma ready_request_spec (db : Db) (ks : gset RequestKey) (q : RequestRow.t) :
  ready_request db ks q = true <->
  RequestRow.key q ∈ ks
  /\ RequestRow.needs_processing q = false
  /\ 0 < count_responses db (RequestRow.key q)
  /\ (RequestRow.responses_expected q
      = Some (count_responses db (RequestRow.key q))
      \/ RequestRow.callback_state q <> ""%string).
Proof.
  unfold ready_request, counted_request.
  rewrite !andb_true_iff, orb_true_iff, !negb_true_iff, !bool_decide_eq_true,
    bool_decide_eq_false, Z.ltb_lt.
  tauto.
Qed.


(** ** The flow processing requests of a batch and the key of the table *)

Lemma NoDup_map_on {A B C} (f : A -> B) (h : A -> C) (l : list A) :
  NoDup (map h l) ->
  (forall x y, In x l -> In y l -> f x = f y -> h x = h y) ->
  NoDup (map f l).
Proof.
  induction l as [|a l IH]; intros Hnd Hinj; simpl.
  - constructor.
  - cbn [map] in Hnd. apply NoDup_cons in Hnd as [Hnotin Hnd].
    apply NoDup_cons. split.
    + intros Hin. apply Hnotin.
      apply list_elem_of_In, in_map_iff in Hin as (y & Hy & Hin).
      apply list_elem_of_In, in_map_iff. exists y. split; [|exact Hin].
      apply Hinj; [now right | now left | exact Hy].
    + apply IH; [exact Hnd|]. intros x y Hx Hy. apply Hinj; now right.
Qed.

Lemma fpr_row_key (db_now : Z) (q : RequestRow.t) :
  request_key_of (RequestRow.request q) = RequestRow.key q ->
  FprRow.key (fpr_row db_now (fpr_of_request (RequestRow.request q)))
  = (RequestRow.client_id q, RequestRow.flow_id q, db_now).
Proof.
  unfold request_key_of, RequestRow.key, FprRow.key; simpl. congruence.
Qed.

(** A row the second transaction inserts is made of a request of the
    batch that is its flow's next request, and bears the time of the
    call. *)
Lemma new_fprs_In (db_now : Z) (rs : list FlowMessage) (db : Db)
    (x : FprRow.t) :
  db_wf db -> In x (new_fprs db_now rs db) ->
  exists q,
    In q (flow_requests db)
    /\ scheduled_request db (list_to_set (map msg_request_key rs)) q = true
    /\ x = fpr_row db_now (fpr_of_request (RequestRow.request q))
    /\ FprRow.key x = (RequestRow.client_id q, RequestRow.flow_id q, db_now)
    /\ exists r, In r rs /\ msg_request_key r = RequestRow.key q.
Proof.
  intros Hwf Hx. unfold new_fprs in Hx.
  apply in_map_iff in Hx as (q & <- & Hq). apply filter_In in Hq as [Hin Hs].
  exists q. split; [exact Hin|]. split; [exact Hs|]. split; [reflexivity|].
  split.
  - apply fpr_row_key.
    exact (proj1 (List.Forall_forall _ _) (wf_request_ids db Hwf) q Hin).
  - unfold scheduled_request in Hs. apply andb_prop in Hs as [Hs _].
    apply ready_request_spec in Hs as (Hk & _).
    apply elem_of_list_to_set, list_elem_of_In, in_map_iff in Hk
      as (r & Hr & Hin').
    now exists r.
Qed.

Lemma new_fprs_NoDup (db_now : Z) (rs : list FlowMessage) (db : Db) :
  db_wf db -> NoDup (map FprRow.key (new_fprs db_now rs db)).
Proof.
  intros Hwf. unfold new_fprs. rewrite map_map.
  set (ks := list_to_set (map msg_request_key rs) : gset RequestKey).
  apply (NoDup_map_on _ RequestRow.key).
  - apply NoDup_map_filter, (wf_requests_pk db Hwf).
  - intros q q' Hq Hq' E.
    apply filter_In in Hq as [Hin Hs]. apply filter_In in Hq' as [Hin' Hs'].
    rewrite !fpr_row_key in E
      by (apply (proj1 (List.Forall_forall _ _) (wf_request_ids db Hwf));
          assumption).
    assert (Hfk : RequestRow.flow_key q = RequestRow.flow_key q')
      by (unfold RequestRow.flow_key; congruence).
    unfold scheduled_request in Hs, Hs'.
    apply andb_prop in Hs as [_ Hs]. apply andb_prop in Hs' as [_ Hs'].
    apply bool_decide_eq_true in Hs, Hs'. rewrite Hfk, Hs' in Hs.
    unfold RequestRow.key, RequestRow.flow_key in *. congruence.
Qed.

(** The second transaction of a batch returns when no stored flow
    processing request has the key of one it inserts: the flow of a
    response of the batch with the time of the call. *)
Lemma insert_new_fprs (db_now : Z) (rs : list FlowMessage) (db : Db) :
  db_wf db ->
  (forall r, In r rs ->
             fpr_key_free (msg_client_id r, msg_flow_id r, db_now) db) ->
  insert_fprs (flow_processing_requests db) (new_fprs db_now rs db)
  = Some (flow_processing_requests db ++ new_fprs db_now rs db).
Proof.
  intros Hwf Hfree. apply insert_fprs_ok; [now apply new_fprs_NoDup|].
  apply List.Forall_forall. intros x Hx.
  destruct (new_fprs_In db_now rs db x Hwf Hx)
    as (q & _ & _ & _ & Hk & r & Hr & Hrk).
  rewrite Hk. unfold msg_request_key, RequestRow.key in Hrk.
  injection Hrk as <- <- _. exact (Hfree r Hr).
Qed.

Lemma write_batch_returns (db_now : Z) (batch : list FlowMessage) (db : Db) :
  db_wf db -> batch <> [] ->
  (forall r, In r batch ->
             fpr_key_free (msg_client_id r, msg_flow_id r, db_now) db) ->
  write_batch db_now batch db = (Ok tt, batch_step db_now db batch).
Proof.
  intros Hwf Hne Hfree. rewrite (write_batch_eq _ _ _ Hwf Hne).
  change (flow_processing_requests db)
    with (flow_processing_requests (written db_now batch db)).
  rewrite insert_new_fprs; [reflexivity | now apply written_wf | exact Hfree].
Qed.


Lemma WriteFlowResponses_single (size : nat) (db_now : Z) (r : FlowMessage)
    (db : Db) :
  db_wf db ->
  fpr_key_free (msg_client_id r, msg_flow_id r, db_now) db ->
  WriteFlowResponses size db_now [r] db = (Ok tt, batch_step db_now db [r]).
Proof.
  intros Hwf Hfree. unfold WriteFlowResponses. rewrite Batch_singleton.
  cbn [call_for]. unfold call_bind.
  rewrite write_batch_returns; [reflexivity | exact Hwf | discriminate |].
  intros r' [<-|[]]. exact Hfree.
Qed.










(** ** Flow processing requests and the transition to needs_processing *)







(** ** Duplicate responses *)

Lemma batch_step_keeps (db_now : Z) (db : Db) (b : list FlowMessage)
    (c : ResponseRow.t -> bool) :
  existsb c (flow_responses db) = true ->
  existsb c (flow_responses (batch_step db_now db b)) = true.
Proof. apply fold_store_response_keeps. Qed.

Lemma run_steps_keeps (steps : list (Z * list FlowMessage)) (db : Db)
    (c : ResponseRow.t -> bool) :
  existsb c (flow_responses db) = true ->
  existsb c (flow_responses (run_steps steps db)) = true.
Proof.
  revert db. induction steps as [|s steps IH]; intros db H; simpl; [exact H|].
  now apply IH, batch_step_keeps.
Qed.

Lemma run_steps_stored (steps : list (Z * list FlowMessage)) (db : Db)
    (r : FlowMessage) :
  In r (concat (map snd steps)) ->
  known_request db (msg_request_key r) = true ->
  existsb (fun x => bool_decide (ResponseRow.key x = msg_key r))
          (flow_responses (run_steps steps db)) = true.
Proof.
  revert db. induction steps as [|s steps IH]; intros db Hin Hk; simpl in *;
    [contradiction|].
  apply in_app_or in Hin as [Hin|Hin].
  - apply run_steps_keeps.
    exact (written_stored s.1 s.2 db r Hin Hk).
  - apply IH; [exact Hin|]. now rewrite known_request_batch_step.
Qed.

Lemma steps_of_call_concat (size : nat) (call : Z * list FlowMessage) :
  concat (map snd (steps_of_call size call)) = call.2.
Proof.
  unfold steps_of_call. rewrite map_map. simpl. rewrite map_id.
  apply Batch_concat.
Qed.

Lemma copies_of_one (db : Db) (k : ResponseKey) :
  NoDup (map ResponseRow.key (flow_responses db)) ->
  existsb (fun x => bool_decide (ResponseRow.key x = k)) (flow_responses db)
  = true ->
  length (copies_of db k) = 1%nat.
Proof.
  intros Hnd H. apply existsb_exists in H as (x & Hin & Hx).
  unfold copies_of.
  rewrite (filter_unique ResponseRow.key _ _ x Hnd Hin Hx); [reflexivity|].
  intros y _ Hy. apply bool_decide_eq_true in Hx, Hy. congruence.
Qed.

Lemma WriteFlowResponses_Ok_steps (size : nat) (db_now : Z)
    (responses : list FlowMessage) (db db' : Db) :
  db_wf db ->
  WriteFlowResponses size db_now responses db = (Ok tt, db') ->
  db' = run_steps (steps_of_call size (db_now, responses)) db.
Proof.
  intros Hwf H.
  pose proof (WriteFlowResponses_steps size (db_now, responses) db Hwf) as E.
  cbn [fst snd] in E. rewrite H in E. specialize (E eq_refl). congruence.
Qed.

Lemma fold_store_response_unknown (db_now : Z) (db : Db) (k : RequestKey)
    (rs : list FlowMessage) (tbl : list ResponseRow.t) :
  known_request db k = false ->
  List.filter (fun x => bool_decide (ResponseRow.request_key x = k))
              (fold_left (store_response db_now db) rs tbl)
  = List.filter (fun x => bool_decide (ResponseRow.request_key x = k)) tbl.
Proof.
  intros Hk. revert tbl. induction rs as [|r rs IH]; intros tbl; simpl;
    [reflexivity|].
  rewrite IH. destruct (decide (msg_request_key r = k)) as [E|E].
  - unfold store_response. now rewrite E, Hk.
  - now apply store_response_other.
Qed.

Lemma responses_of_written_unknown (db_now : Z) (db : Db)
    (b : list FlowMessage) (k : RequestKey) :
  known_request db k = false ->
  responses_of (written db_now b db) k = responses_of db k.
Proof.
  intros Hk. unfold responses_of, written; simpl.
  now apply fold_store_response_unknown.
Qed.

Lemma responses_of_batch_step_unknown (db_now : Z) (db : Db)
    (b : list FlowMessage) (k : RequestKey) :
  known_request db k = false ->
  responses_of (batch_step db_now db b) k = responses_of db k.
Proof.
  intros Hk. unfold batch_step. rewrite responses_of_scheduled.
  now apply responses_of_written_unknown.
Qed.

Lemma responses_of_run_steps_unknown (steps : list (Z * list FlowMessage))
    (db : Db) (k : RequestKey) :
  known_request db k = false ->
  responses_of (run_steps steps db) k = responses_of db k.
Proof.
  revert db. induction steps as [|s steps IH]; intros db Hk; [reflexivity|].
  change (run_steps (s :: steps) db)
    with (run_steps steps (batch_step s.1 db s.2)).
  rewrite IH by now rewrite known_request_batch_step.
  now apply responses_of_batch_step_unknown.
Qed.

Lemma known_request_written (db_now : Z) (rs : list FlowMessage) (db : Db)
    (k : RequestKey) :
  known_request (written db_now rs db) k = known_request db k.
Proof.
  apply known_request_keys. unfold written; simpl.
  apply fold_stamp_expected_keys.
Qed.

Lemma known_request_scheduled (db_now : Z) (rs : list FlowMessage) (db : Db)
    (k : RequestKey) :
  known_request (scheduled db_now rs db) k = known_request db k.
Proof.
  apply known_request_keys. unfold scheduled; simpl.
  now rewrite map_key_update_where.
Qed.

(** A call of WriteFlowResponses returns, or raises the IntegrityError of
    the insert of a flow processing request. *)
Lemma WriteFlowResponses_result (size : nat) (db_now : Z)
    (responses : list FlowMessage) (db : Db) :
  db_wf db ->
  (WriteFlowResponses size db_now responses db).1 = Ok tt
  \/ (WriteFlowResponses size db_now responses db).1 = Raise IntegrityError.
Proof.
  intros Hwf.
  destruct (WriteFlowResponses_eq size db_now responses db Hwf)
    as [E | (done & b & rest & _ & E)]; rewrite E; [now left | now right].
Qed.

(** With the foreign key of the responses, a request that is not stored
    has no stored response. *)
Lemma responses_of_unknown (db : Db) (k : RequestKey) :
  responses_fk db -> known_request db k = false -> responses_of db k = [].
Proof.
  intros Hfk Hk. unfold responses_of. apply filter_false. intros x Hx.
  apply bool_decide_eq_false_2. intros E.
  pose proof (proj1 (List.Forall_forall _ _) Hfk x Hx) as H. congruence.
Qed.

Lemma copies_of_none (db : Db) (k : RequestKey) (i : Z) :
  responses_of db k = [] -> copies_of db (k, i) = [].
Proof.
  intros H. unfold copies_of. apply filter_false. intros x Hx.
  apply bool_decide_eq_false_2. intros E.
  assert (Hin : In x (responses_of db k)).
  { apply filter_In. split; [exact Hx|]. apply bool_decide_eq_true_2.
    unfold ResponseRow.key, ResponseRow.request_key in *. congruence. }
  rewrite H in Hin. contradiction.
Qed.

(** The responses a call with one response leaves, whether it returns or
    raises. *)
Lemma WriteFlowResponses_single_responses (size : nat) (db_now : Z)
    (r : FlowMessage) (db : Db) :
  db_wf db ->
  flow_responses (WriteFlowResponses size db_now [r] db).2
  = flow_responses (written db_now [r] db).
Proof.
  intros Hwf.
  destruct (WriteFlowResponses_eq size db_now [r] db Hwf)
    as [E | (done & b & rest & Hb & E)]; rewrite E; simpl.
  - now rewrite Batch_singleton.
  - rewrite Batch_singleton in Hb. destruct done as [|b0 done].
    + simpl in Hb. injection Hb as <- _. reflexivity.
    + simpl in Hb. injection Hb as _ Hb. now destruct done.
Qed.

(** C3, as the code has it.  A response written once more, in a call of
    its own, with the key (client_id, flow_id, request_id, response_id) of
    a response of an earlier call that returned: the second call returns,
    unless the flow processing request it schedules finds its key taken
    (no stored flow processing request of the flow bears the time of the
    call: it returns); the table holds exactly one row with the key of the
    response when the request of the response is stored and none when it
    is not; and the second call leaves flow_responses, and with it the
    count of every request, as they were. *)
Theorem WriteFlowResponses_duplicate_is_ignored (size : nat) (t1 t2 : Z)
    (responses : list FlowMessage) (r r' : FlowMessage) (db db1 : Db) :
  db_wf db ->
  responses_fk db ->
  In r responses ->
  msg_key r' = msg_key r ->
  WriteFlowResponses size t1 responses db = (Ok tt, db1) ->
  let call := WriteFlowResponses size t2 [r'] db1 in
  (call.1 = Ok tt \/ call.1 = Raise IntegrityError)
  /\ (fpr_key_free (msg_client_id r, msg_flow_id r, t2) db1 ->
      call.1 = Ok tt)
  /\ length (copies_of call.2 (msg_key r))
     = (if known_request db (msg_request_key r) then 1 else 0)%nat
  /\ flow_responses call.2 = flow_responses db1
  /\ forall k, count_responses call.2 k = count_responses db1 k.
Proof.
  intros Hwf Hfk Hin Hkey Hcall call.
  apply WriteFlowResponses_Ok_steps in Hcall; [|exact Hwf].
  set (steps := steps_of_call size (t1, responses)) in *.
  assert (Hwf1 : db_wf db1) by (subst db1; now apply run_steps_wf).
  assert (Hrk : msg_request_key r' = msg_request_key r)
    by (unfold msg_key, msg_request_key in *; congruence).
  assert (Hsame : flow_responses call.2 = flow_responses db1).
  { unfold call. rewrite (WriteFlowResponses_single_responses _ _ _ _ Hwf1).
    unfold written, store_response; simpl.
    destruct (known_request db1 (msg_request_key r')) eqn:Hk1; [|reflexivity].
    unfold insert_ignore_response.
    change (ResponseRow.key (response_row t2 r')) with (msg_key r').
    rewrite Hkey. subst db1.
    rewrite run_steps_stored; [reflexivity| |].
    - unfold steps. now rewrite steps_of_call_concat.
    - now rewrite known_request_run_steps, Hrk in Hk1. }
  split; [now apply WriteFlowResponses_result|].
  split; [|split; [|split; [exact Hsame|]]].
  - intros Hfree. unfold call. rewrite WriteFlowResponses_single;
      [reflexivity | exact Hwf1 |].
    unfold msg_key in Hkey. injection Hkey as -> -> _ _. exact Hfree.
  - unfold copies_of. rewrite Hsame. fold (copies_of db1 (msg_key r)).
    destruct (known_request db (msg_request_key r)) eqn:Hk.
    + apply copies_of_one; [apply (wf_responses_pk _ Hwf1)|]. subst db1.
      apply run_steps_stored; [|exact Hk].
      unfold steps. now rewrite steps_of_call_concat.
    + change (msg_key r) with (msg_request_key r, msg_response_id r).
      rewrite copies_of_none; [reflexivity|]. subst db1.
      rewrite responses_of_run_steps_unknown by exact Hk.
      now apply responses_of_unknown.
  - intros k. unfold count_responses, responses_of. now rewrite Hsame.
Qed.

(** A response of the stored request and a response of a request that is
    not stored, each written again. *)
Lemma WriteFlowResponses_duplicate_is_ignored_witness :
  (let db1 :=
     (WriteFlowResponses 50 2000 [example_response; example_status]
                         example_db).2 in
   let call := WriteFlowResponses 50 2001 [example_response] db1 in
   call.1 = Ok tt
   /\ length (copies_of call.2 (msg_key example_response)) = 1%nat
   /\ flow_responses call.2 = flow_responses db1
   /\ forall k, count_responses call.2 k = count_responses db1 k)
  /\ (let db1 :=
        (WriteFlowResponses 50 2000 [example_stray_response] example_db).2 in
      let call := WriteFlowResponses 50 2001 [example_stray_response] db1 in
      call.1 = Ok tt
      /\ length (copies_of call.2 (msg_key example_stray_response)) = 0%nat
      /\ flow_responses call.2 = flow_responses db1
      /\ forall k, count_responses call.2 k = count_responses db1 k).
Proof.
  split; intros db1 call.
  - destruct (WriteFlowResponses_duplicate_is_ignored 50%nat 2000 2001
                [example_response; example_status]
                example_response example_response example_db db1)
      as (_ & Hret & Hcopies & Hsame & Hcount).
    + exact example_db_wf.
    + constructor.
    + simpl. left. reflexivity.
    + reflexivity.
    + vm_compute. reflexivity.
    + split; [|exact (conj Hcopies (conj Hsame Hcount))].
      apply Hret. vm_compute. repeat constructor; discriminate.
  - destruct (WriteFlowResponses_duplicate_is_ignored 50%nat 2000 2001
                [example_stray_response]
                example_stray_response example_stray_response example_db db1)
      as (_ & Hret & Hcopies & Hsame & Hcount).
    + exact example_db_wf.
    + constructor.
    + simpl. left. reflexivity.
    + reflexivity.
    + vm_compute. reflexivity.
    + split; [|exact (conj Hcopies (conj Hsame Hcount))].
      apply Hret. vm_compute. repeat constructor; discriminate.
Defined.

(** C3 as stated fails for a response of a request that is not stored:
    both calls return, and no copy of the response is stored. *)
Lemma stray_response_is_never_stored :
  known_request example_db (msg_request_key example_stray_response) = false
  /\ let call1 :=
       WriteFlowResponses 50 2000 [example_stray_response] example_db in
     let call2 :=
       WriteFlowResponses 50 2001 [example_stray_response] call1.2 in
     call1.1 = Ok tt
     /\ call2.1 = Ok tt
     /\ copies_of call2.2 (msg_key example_stray_response) = [].
Proof. vm_compute. repeat split. Qed.

(** ** responses_expected *)

Lemma responses_expected_batch_step (db_now : Z) (db : Db) (b : list FlowMessage)
    (k : RequestKey) :
  responses_expected_of (batch_step db_now db b) k
  = match last_status k b with
    | Some v => if known_request db k then Some v else None
    | None => responses_expected_of db k
    end.
Proof.
  unfold responses_expected_of. rewrite find_request_batch_step.
  destruct (find_request db k) as [q|] eqn:Hq; simpl.
  - assert (Hk : known_request db k = true)
      by (apply known_request_find; now exists q).
    rewrite Hk. unfold stamped.
    destruct (_ && _); now destruct (last_status k b).
  - destruct (last_status k b); [|reflexivity].
    destruct (known_request db k) eqn:Hk; [|reflexivity].
    apply known_request_find in Hk as [q Hq']. congruence.
Qed.

Lemma responses_expected_run_steps (steps : list (Z * list FlowMessage))
    (db : Db) (k : RequestKey) :
  responses_expected_of (run_steps steps db) k
  = match last_status k (concat (map snd steps)) with
    | Some v => if known_request db k then Some v else None
    | None => responses_expected_of db k
    end.
Proof.
  revert db. induction steps as [|s steps IH]; intros db; simpl.
  - reflexivity.
  - unfold run_steps in IH. rewrite IH, last_status_app.
    rewrite known_request_batch_step, responses_expected_batch_step.
    now destruct (last_status k (concat (map snd steps))).
Qed.

(** C9, as the code has it.  A call of WriteFlowResponses that returns
    leaves responses_expected of a request as it was when it writes no
    Status for the request, and sets it to the response id of the last
    Status it writes for a stored request otherwise, whether or not it was
    set before. *)
Theorem WriteFlowResponses_responses_expected (size : nat) (db_now : Z)
    (responses : list FlowMessage) (db db' : Db) (k : RequestKey) :
  db_wf db ->
  WriteFlowResponses size db_now responses db = (Ok tt, db') ->
  responses_expected_of db' k
  = match last_status k responses with
    | Some v => if known_request db k then Some v else None
    | None => responses_expected_of db k
    end.
Proof.
  intros Hwf Hcall. apply WriteFlowResponses_Ok_steps in Hcall; [|exact Hwf].
  subst db'. now rewrite responses_expected_run_steps, steps_of_call_concat.
Qed.

Lemma WriteFlowResponses_responses_expected_witness :
  let call :=
    WriteFlowResponses 50 2000 [example_response; example_status] example_db in
  call.1 = Ok tt /\ responses_expected_of call.2 example_key = Some 2.
Proof.
  intros call. split; [vm_compute; reflexivity|].
  apply (WriteFlowResponses_responses_expected 50%nat 2000
           [example_response; example_status] example_db call.2 example_key).
  - exact example_db_wf.
  - vm_compute. reflexivity.
Defined.

(** C9 as stated fails: a second Status for the request, with response id
    5, changes responses_expected from 2 to 5. *)
Lemma responses_expected_is_overwritten :
  let db1 := (WriteFlowResponses 50 2000 [example_status] example_db).2 in
  let db2 := (WriteFlowResponses 50 2001 [example_second_status] db1).2 in
  responses_expected_of db1 example_key = Some 2
  /\ responses_expected_of db2 example_key = Some 5.
Proof. vm_compute. split; reflexivity. Qed.

(** ** Empty arguments *)

(** C10. WriteFlowResponses, DeleteFlowRequests, AckFlowProcessingRequests
    and UpdateIncrementalFlowRequests return at once on an empty
    argument: no exception, and the database is the one they were called
    on. *)
Theorem empty_arguments_change_nothing (write_size delete_size : nat)
    (db_now : Z) (client_id flow_id : string) (db : Db) :
  WriteFlowResponses write_size db_now [] db = (Ok tt, db)
  /\ DeleteFlowRequests delete_size [] db = (Ok tt, db)
  /\ AckFlowProcessingRequests [] db = (Ok tt, db)
  /\ UpdateIncrementalFlowRequests client_id flow_id ∅ db = (Ok tt, db).
Proof. repeat split. Qed.

(** ** WriteFlowRequests *)

Lemma collect_needs_processing_lookup (requests : list FlowRequest.t)
    (m : gmap FlowKey (list FlowRequest.t)) (fk : FlowKey) :
  fold_left
    (fun (needs_processing : gmap FlowKey (list FlowRequest.t)) r =>
       if FlowRequest.needs_processing r
       then <[flow_key_of r :=
                default [] (needs_processing !! flow_key_of r) ++ [r]]>
              needs_processing
       else needs_processing)
    requests m !! fk
  = match List.filter
            (fun r => FlowRequest.needs_processing r
                      && bool_decide (flow_key_of r = fk)) requests with
    | [] => m !! fk
    | l => Some (default [] (m !! fk) ++ l)
    end.
Proof.
  revert m. induction requests as [|r rs IH]; intros m; simpl.
  - reflexivity.
  - rewrite IH. destruct (FlowRequest.needs_processing r); simpl.
    + case_bool_decide as E.
      * subst fk. rewrite lookup_insert_eq. simpl.
        destruct (List.filter _ rs); simpl; [reflexivity|].
        now rewrite <- app_assoc.
      * rewrite lookup_insert_ne by exact E. reflexivity.
    + reflexivity.
Qed.

Lemma needs_processing_lookup (requests : list FlowRequest.t) (fk : FlowKey) :
  default [] (collect_needs_processing requests !! fk)
  = List.filter (fun r => FlowRequest.needs_processing r
                          && bool_decide (flow_key_of r = fk)) requests.
Proof.
  unfold collect_needs_processing. rewrite collect_needs_processing_lookup.
  rewrite lookup_empty. now destruct (List.filter _ requests).
Qed.

Lemma needs_processing_is_Some (requests : list FlowRequest.t) (fk : FlowKey) :
  bool_decide (is_Some (collect_needs_processing requests !! fk))
  = negb (bool_decide
            (List.filter (fun r => FlowRequest.needs_processing r
                                   && bool_decide (flow_key_of r = fk))
                         requests = [])).
Proof.
  unfold collect_needs_processing. rewrite collect_needs_processing_lookup.
  rewrite lookup_empty. destruct (List.filter _ requests).
  - rewrite bool_decide_eq_false_2 by now intros [x Hx].
    now rewrite bool_decide_eq_true_2.
  - rewrite bool_decide_eq_true_2 by now eexists.
    now rewrite bool_decide_eq_false_2.
Qed.

Lemma omap_conditional {A B} (c : A -> bool) (f : A -> B) (l : list A) :
  omap (fun x => if c x then Some (f x) else None) l
  = map f (List.filter c l).
Proof.
  induction l as [|x l IH]; [reflexivity|].
  cbn [List.filter]. destruct (c x) eqn:E.
  - cbn [map]. rewrite <- IH. cbn. now rewrite E.
  - rewrite <- IH. cbn. now rewrite E.
Qed.

Lemma candidate_fprs_eq (db : Db) (f : FlowRow.t)
    (requests : list FlowRequest.t) :
  find_flow db (FlowRow.key f) = Some f ->
  candidate_fprs f (default [] (collect_needs_processing requests
                                !! FlowRow.key f))
  = map (fpr_for_request (FlowRow.key f))
        (List.filter (triggers db (FlowRow.key f)) requests).
Proof.
  intros Hf. rewrite needs_processing_lookup. unfold candidate_fprs.
  rewrite (omap_conditional
             (fun r => (FlowRow.next_request_to_process f
                        =? FlowRequest.request_id r)
                       || truthy (FlowRequest.start_time r))
             (fpr_for_request (FlowRow.key f))).
  rewrite filter_filter_andb. f_equal. apply filter_ext. intros r.
  unfold triggers, next_request_of. rewrite Hf. f_equal. f_equal.
  destruct (Z.eqb_spec (FlowRow.next_request_to_process f)
                       (FlowRequest.request_id r)) as [E|E].
  - now rewrite bool_decide_eq_true_2 by congruence.
  - now rewrite bool_decide_eq_false_2 by congruence.
Qed.

Lemma find_flow_In (db : Db) (f : FlowRow.t) :
  NoDup (map FlowRow.key (flows db)) -> In f (flows db) ->
  find_flow db (FlowRow.key f) = Some f.
Proof.
  unfold find_flow. induction (flows db) as [|y l IH]; simpl;
    intros Hnd Hin; [contradiction|].
  apply NoDup_cons in Hnd as [Hnotin Hnd].
  destruct Hin as [->|Hin].
  - now rewrite bool_decide_eq_true_2.
  - rewrite bool_decide_eq_false_2; [now apply IH|].
    intros E. apply Hnotin. rewrite E.
    apply list_elem_of_In. now apply in_map.
Qed.

(** The flow processing requests made from the rows of [db_result], for
    one flow. *)
Lemma db_result_fprs (db : Db) (requests : list FlowRequest.t) (db_now : Z)
    (fk : FlowKey) (rows : list FlowRow.t) :
  NoDup (map FlowRow.key rows) ->
  (forall f, In f rows -> find_flow db (FlowRow.key f) = Some f) ->
  List.filter (fun x => bool_decide (FprRow.flow_key x = fk))
    (map (fpr_row db_now)
       (concat
          (map (fun f =>
                  candidate_fprs f
                    (default [] (collect_needs_processing requests
                                 !! FlowRow.key f)))
               (List.filter
                  (fun f => bool_decide
                              (is_Some (collect_needs_processing requests
                                        !! FlowRow.key f)))
                  rows))))
  = if existsb (fun f => bool_decide (FlowRow.key f = fk)) rows
    then map (fun r => fpr_row db_now (fpr_for_request fk r))
             (List.filter (triggers db fk) requests)
    else [].
Proof.
  induction rows as [|f rows IH]; intros Hnd Hfind; [reflexivity|].
  cbn [map] in Hnd. apply NoDup_cons in Hnd as [Hnotin Hnd].
  assert (IH' := IH Hnd (fun f' H => Hfind f' (or_intror H))). clear IH.
  cbn [List.filter existsb].
  assert (Hcand := candidate_fprs_eq db f requests (Hfind f (or_introl eq_refl))).
  assert (Hhere :
    List.filter (fun x => bool_decide (FprRow.flow_key x = fk))
      (map (fpr_row db_now)
         (candidate_fprs f (default [] (collect_needs_processing requests
                                        !! FlowRow.key f))))
    = if bool_decide (FlowRow.key f = fk)
      then map (fun r => fpr_row db_now (fpr_for_request fk r))
               (List.filter (triggers db fk) requests)
      else []).
  { rewrite Hcand, map_map. case_bool_decide as E.
    - subst fk. rewrite filter_map_comm.
      rewrite (filter_ext _ (fun _ => true)); [now rewrite filter_true|].
      intros r. apply bool_decide_eq_true_2. now destruct f.
    - rewrite filter_map_comm. rewrite filter_false; [reflexivity|].
      intros r _. apply bool_decide_eq_false_2.
      intros E'. apply E. rewrite <- E'. now destruct f. }
  assert (Hno : FlowRow.key f = fk ->
            existsb (fun f' => bool_decide (FlowRow.key f' = fk)) rows = false).
  { intros E. rewrite existsb_key_map. apply bool_decide_eq_false_2.
    now rewrite <- E. }
  destruct (bool_decide (is_Some (collect_needs_processing requests
                                  !! FlowRow.key f))) eqn:Hsome.
  - cbn [map concat]. rewrite map_app, List.filter_app, Hhere, IH'.
    destruct (decide (FlowRow.key f = fk)) as [E|E].
    + rewrite (bool_decide_eq_true_2 _ E), (Hno E). apply app_nil_r.
    + now rewrite (bool_decide_eq_false_2 _ E).
  - rewrite IH'. destruct (decide (FlowRow.key f = fk)) as [E|E].
    + rewrite (bool_decide_eq_true_2 _ E), (Hno E). cbn [orb]. subst fk.
      rewrite needs_processing_is_Some in Hsome.
      apply negb_false_iff, bool_decide_eq_true in Hsome.
      unfold triggers.
      rewrite <- (filter_filter_andb
                    (fun r => bool_decide (next_request_of db (FlowRow.key f)
                                           = Some (FlowRequest.request_id r))
                              || truthy (FlowRequest.start_time r))
                    (fun r => FlowRequest.needs_processing r
                              && bool_decide (flow_key_of r = FlowRow.key f))).
      now rewrite Hsome.
    + now rewrite (bool_decide_eq_false_2 _ E).
Qed.

Lemma insert_requests_ok (db : Db) (rows tbl : list RequestRow.t) :
  NoDup (map RequestRow.key rows) ->
  Forall (fun row =>
            known_flow db (RequestRow.flow_key row) = true
            /\ existsb (fun q => bool_decide
                                   (RequestRow.key q = RequestRow.key row))
                       tbl = false) rows ->
  insert_requests db tbl rows = Some (tbl ++ rows).
Proof.
  revert tbl. induction rows as [|row rows IH]; intros tbl Hnd H; simpl.
  - now rewrite app_nil_r.
  - cbn [map] in Hnd. apply NoDup_cons in Hnd as [Hnotin Hnd].
    apply Forall_cons in H as [[Hknown Hfresh] H].
    rewrite Hfresh, Hknown. simpl.
    rewrite (IH (tbl ++ [row]) Hnd).
    + now rewrite <- app_assoc.
    + apply List.Forall_forall. intros row' Hin.
      pose proof (proj1 (List.Forall_forall _ _) H row' Hin) as [Hk Hf].
      split; [exact Hk|]. rewrite existsb_app, Hf. simpl.
      rewrite orb_false_r. apply bool_decide_eq_false_2.
      intros E. apply Hnotin. rewrite E.
      apply list_elem_of_In. now apply in_map.
Qed.

Lemma triggers_flow_key (db : Db) (fk : FlowKey) (r : FlowRequest.t) :
  triggers db fk r = true ->
  FlowRequest.needs_processing r = true /\ flow_key_of r = fk.
Proof.
  unfold triggers. intros H. apply andb_prop in H as [H _].
  apply andb_prop in H as [H1 H2]. now apply bool_decide_eq_true in H2.
Qed.

Lemma fpr_phase (db_now : Z) (l : list FlowProcessingRequest.t) (db : Db) :
  match l with
  | [] => tx_ret tt
  | _ => _WriteFlowProcessingRequests db_now l
  end db
  = match insert_fprs (flow_processing_requests db) (map (fpr_row db_now) l)
    with
    | Some tbl => Ok (tt, set_flow_processing_requests db tbl)
    | None => Raise IntegrityError
    end.
Proof.
  destruct l; [|reflexivity]. unfold tx_ret. simpl. now destruct db.
Qed.

Lemma execute_insert_requests_ok (rows tbl : list RequestRow.t) (db : Db) :
  rows <> [] ->
  insert_requests db (flow_requests db) rows = Some tbl ->
  execute_insert_requests rows db = Ok (tt, set_flow_requests db tbl).
Proof.
  intros Hne H. unfold execute_insert_requests.
  destruct rows; [congruence|]. now rewrite H.
Qed.

(** The flow processing requests WriteFlowRequests makes of a batch. *)
Lemma schedule_needs_processing_eq (db_now : Z)
    (requests : list FlowRequest.t) (db : Db) :
  schedule_needs_processing db_now (collect_needs_processing requests) db
  = match insert_fprs (flow_processing_requests db)
                      (request_fprs db_now requests db) with
    | Some tbl => Ok (tt, set_flow_processing_requests db tbl)
    | None => Raise IntegrityError
    end.
Proof.
  unfold schedule_needs_processing, request_fprs.
  destruct (bool_decide (collect_needs_processing requests = ∅)).
  - unfold tx_ret. simpl. now destruct db.
  - unfold tx_bind, tx_get. cbv zeta. apply fpr_phase.
Qed.

Lemma insert_requests_flows (db db' : Db) (rows tbl : list RequestRow.t) :
  flows db' = flows db ->
  insert_requests db' tbl rows = insert_requests db tbl rows.
Proof.
  intros Hf. revert tbl. induction rows as [|row rows IH]; intros tbl; simpl;
    [reflexivity|].
  unfold known_flow. rewrite Hf. fold (known_flow db (RequestRow.flow_key row)).
  now rewrite IH.
Qed.

(** What a call of WriteFlowRequests comes to: the insert of the flow
    processing requests, then the insert of the requests. *)
Lemma WriteFlowRequests_eq (db_now : Z) (requests : list FlowRequest.t)
    (db : Db) :
  WriteFlowRequests db_now requests db
  = match insert_fprs (flow_processing_requests db)
                      (request_fprs db_now requests db) with
    | None => (Raise IntegrityError, db)
    | Some fprs =>
        match requests with
        | [] => (Raise ProgrammingError, db)
        | _ =>
            match insert_requests db (flow_requests db)
                                  (map request_row requests) with
            | Some rows =>
                (Ok tt,
                 set_flow_requests (set_flow_processing_requests db fprs) rows)
            | None =>
                (Raise (AtLeastOneUnknownFlowError (map flow_key_of requests)),
                 db)
            end
        end
    end.
Proof.
  unfold WriteFlowRequests, WithTransaction, WriteFlowRequests_body.
  unfold tx_bind at 1. rewrite schedule_needs_processing_eq.
  destruct (insert_fprs _ _) as [fprs|]; [|reflexivity].
  unfold execute_insert_requests.
  destruct requests as [|r requests]; [reflexivity|].
  cbn [map]. change (request_row r :: map request_row requests)
    with (map request_row (r :: requests)).
  rewrite (insert_requests_flows db) by reflexivity.
  change (flow_requests (set_flow_processing_requests db fprs))
    with (flow_requests db).
  now destruct (insert_requests db (flow_requests db) _).
Qed.

Lemma triggers_filter (db : Db) (fk : FlowKey)
    (requests : list FlowRequest.t) :
  List.filter (triggers db fk) requests
  = List.filter
      (fun r => bool_decide (next_request_of db fk
                             = Some (FlowRequest.request_id r))
                || truthy (FlowRequest.start_time r))
      (List.filter (fun r => FlowRequest.needs_processing r
                             && bool_decide (flow_key_of r = fk)) requests).
Proof. now rewrite filter_filter_andb. Qed.

(** The flow processing requests of a batch, for one flow. *)
Lemma request_fprs_of (db_now : Z) (requests : list FlowRequest.t) (db : Db)
    (fk : FlowKey) :
  db_wf db ->
  List.filter (fun x => bool_decide (FprRow.flow_key x = fk))
              (request_fprs db_now requests db)
  = if known_flow db fk
    then map (fun r => fpr_row db_now (fpr_for_request fk r))
             (List.filter (triggers db fk) requests)
    else [].
Proof.
  intros Hwf. unfold request_fprs.
  destruct (bool_decide (collect_needs_processing requests = ∅)) eqn:Hempty.
  - apply bool_decide_eq_true in Hempty. simpl.
    rewrite triggers_filter, <- needs_processing_lookup, Hempty, lookup_empty.
    now destruct (known_flow db fk).
  - apply (db_result_fprs db requests db_now fk (flows db)).
    + apply (wf_flows_pk db Hwf).
    + intros f Hf. apply find_flow_In; [apply (wf_flows_pk db Hwf)|exact Hf].
Qed.

Lemma request_fprs_time (db_now : Z) (requests : list FlowRequest.t) (db : Db) :
  Forall (fun x => FprRow.timestamp x = db_now)
         (request_fprs db_now requests db).
Proof.
  unfold request_fprs. apply List.Forall_forall. intros x Hx.
  now apply in_map_iff in Hx as (req & <- & _).
Qed.

(** Rows that bear one time have distinct keys when no flow has two of
    them. *)
Lemma one_per_flow_NoDup (t : Z) (rows : list FprRow.t) :
  Forall (fun x => FprRow.timestamp x = t) rows ->
  (forall fk, (length (List.filter
                         (fun x => bool_decide (FprRow.flow_key x = fk))
                         rows) <= 1)%nat) ->
  NoDup (map FprRow.key rows).
Proof.
  induction rows as [|x rows IH]; intros Ht Hone; simpl; [constructor|].
  apply Forall_cons in Ht as [Hx Ht]. apply NoDup_cons. split.
  - intros Hin. apply list_elem_of_In, in_map_iff in Hin as (y & Hk & Hy).
    specialize (Hone (FprRow.flow_key x)). cbn [List.filter] in Hone.
    rewrite bool_decide_eq_true_2 in Hone by reflexivity.
    assert (Hy' : In y (List.filter
                          (fun x0 => bool_decide
                                       (FprRow.flow_key x0 = FprRow.flow_key x))
                          rows)).
    { apply filter_In. split; [exact Hy|]. apply bool_decide_eq_true_2.
      unfold FprRow.key, FprRow.flow_key in *. congruence. }
    destruct (List.filter _ rows); [contradiction|]. simpl in Hone. lia.
  - apply IH; [exact Ht|]. intros fk. specialize (Hone fk).
    cbn [List.filter] in Hone. destruct (bool_decide _); simpl in Hone; lia.
Qed.

(** The insert of the flow processing requests of a batch goes through
    when no flow has two triggering requests and no stored flow processing
    request of a flow of the batch bears the time of the call. *)
Lemma insert_request_fprs (db_now : Z) (requests : list FlowRequest.t)
    (db : Db) :
  db_wf db ->
  (forall fk, (length (List.filter (triggers db fk) requests) <= 1)%nat) ->
  (forall r, In r requests ->
             fpr_key_free (FlowRequest.client_id r, FlowRequest.flow_id r,
                           db_now) db) ->
  insert_fprs (flow_processing_requests db) (request_fprs db_now requests db)
  = Some (flow_processing_requests db ++ request_fprs db_now requests db).
Proof.
  intros Hwf Hone Hfree. apply insert_fprs_ok.
  - apply (one_per_flow_NoDup db_now); [apply request_fprs_time|].
    intros fk. rewrite (request_fprs_of _ _ _ _ Hwf).
    destruct (known_flow db fk); [|simpl; lia].
    rewrite length_map. apply Hone.
  - apply List.Forall_forall. intros x Hx.
    assert (Hx' : In x (List.filter
                          (fun y => bool_decide
                                      (FprRow.flow_key y = FprRow.flow_key x))
                          (request_fprs db_now requests db))).
    { apply filter_In. split; [exact Hx|]. now apply bool_decide_eq_true_2. }
    rewrite (request_fprs_of _ _ _ _ Hwf) in Hx'.
    destruct (known_flow db (FprRow.flow_key x)); [|contradiction].
    apply in_map_iff in Hx' as (r & <- & Hr).
    apply filter_In in Hr as [Hr Ht].
    apply triggers_flow_key in Ht as [_ Hfk].
    unfold FprRow.key; simpl. unfold FprRow.flow_key in Hfk; simpl in Hfk.
    unfold flow_key_of in Hfk. injection Hfk as <- <-. exact (Hfree r Hr).
Qed.

Lemma fprs_of_app (db : Db) (rows : list FprRow.t) (fk : FlowKey) :
  fprs_of (set_flow_processing_requests db
             (flow_processing_requests db ++ rows)) fk
  = fprs_of db fk
    ++ List.filter (fun x => bool_decide (FprRow.flow_key x = fk)) rows.
Proof. unfold fprs_of; simpl. apply List.filter_app. Qed.

(** C8, as the code has it.  A batch of requests with fresh keys for
    stored flows, in which no flow has more than one request that is
    flagged needs_processing and has the id next_request_to_process of
    the flow or a start_time that is set and not 0, is written (no stored
    flow processing request of its flows bears the time of the call), and
    for every flow the flow processing requests written with it are one
    for such a request of the flow; the request's start_time is the
    delivery_time of its flow processing request when it is set and not
    0.  A request that is not flagged needs_processing has none, whatever
    its start_time. *)
Theorem WriteFlowRequests_schedules (db_now : Z)
    (requests : list FlowRequest.t) (db : Db) :
  db_wf db ->
  requests <> [] ->
  NoDup (map request_key_of requests) ->
  Forall (fun r => known_flow db (flow_key_of r) = true
                   /\ known_request db (request_key_of r) = false)
         requests ->
  (forall fk, (length (List.filter (triggers db fk) requests) <= 1)%nat) ->
  (forall r, In r requests ->
             fpr_key_free (FlowRequest.client_id r, FlowRequest.flow_id r,
                           db_now) db) ->
  exists db',
    WriteFlowRequests db_now requests db = (Ok tt, db')
    /\ flow_requests db' = flow_requests db ++ map request_row requests
    /\ forall fk,
         fprs_of db' fk
         = fprs_of db fk
           ++ map (fun r => fpr_row db_now (fpr_for_request fk r))
                  (List.filter (triggers db fk) requests).
Proof.
  intros Hwf Hne Hnd Hreq Hone Hfree.
  rewrite WriteFlowRequests_eq.
  rewrite (insert_request_fprs _ _ _ Hwf Hone Hfree).
  destruct requests as [|r0 requests0] eqn:Hrs; [congruence|].
  rewrite <- Hrs in *.
  rewrite insert_requests_ok.
  2:{ rewrite map_map. exact Hnd. }
  2:{ apply List.Forall_forall. intros row Hrow.
      apply in_map_iff in Hrow as (r & <- & Hr).
      exact (proj1 (List.Forall_forall _ _) Hreq r Hr). }
  eexists. split; [reflexivity|]. split; [reflexivity|].
  intros fk.
  change (fprs_of (set_flow_requests ?d _) fk) with (fprs_of d fk).
  rewrite fprs_of_app, (request_fprs_of _ _ _ _ Hwf). f_equal.
  destruct (known_flow db fk) eqn:Hk; [reflexivity|].
  rewrite filter_false; [reflexivity|]. intros r Hr.
  destruct (triggers db fk r) eqn:Ht; [|reflexivity].
  apply triggers_flow_key in Ht as [_ <-].
  pose proof (proj1 (List.Forall_forall _ _) Hreq r Hr) as [Hknown _].
  congruence.
Qed.

(** A check of the batch that decides whether a flow has two triggering
    requests. *)
Lemma one_trigger_check (db : Db) (requests : list FlowRequest.t) :
  forallb (fun r =>
             Nat.leb (length (List.filter (triggers db (flow_key_of r))
                                          requests)) 1)
          requests = true ->
  forall fk, (length (List.filter (triggers db fk) requests) <= 1)%nat.
Proof.
  intros H fk.
  destruct (List.filter (triggers db fk) requests) as [|r l] eqn:E;
    [simpl; lia|].
  assert (Hr : In r (List.filter (triggers db fk) requests))
    by (rewrite E; now left).
  apply filter_In in Hr as [Hin Ht].
  apply triggers_flow_key in Ht as [_ Hfk].
  pose proof (proj1 (forallb_forall _ _) H r Hin) as Hle.
  apply Nat.leb_le in Hle. rewrite Hfk, E in Hle. exact Hle.
Qed.

Lemma example_two_flows_db_wf : db_wf example_two_flows_db.
Proof.
  split; simpl.
  - apply (bool_decide_unpack _). vm_compute. exact I.
  - apply NoDup_singleton.
  - apply NoDup_nil_2.
  - repeat constructor.
  - repeat constructor.
Qed.

(** A batch for two flows: a request with a start_time that is not
    flagged, one that is flagged and has a start_time, the next request of
    the second flow, flagged, and a flagged request that is neither. *)
Lemma WriteFlowRequests_schedules_witness :
  let requests := [example_delayed_request; example_delayed_trigger;
                   example_first_request; example_early_trigger] in
  exists db',
    WriteFlowRequests 2000 requests example_two_flows_db = (Ok tt, db')
    /\ flow_requests db'
       = flow_requests example_two_flows_db ++ map request_row requests
    /\ fprs_of db' ("C.1000000000000001", "ABCDEF01")%string
       = [fpr_row 2000
            (fpr_for_request ("C.1000000000000001", "ABCDEF01")%string
                             example_delayed_trigger)]
    /\ fprs_of db' ("C.1000000000000001", "ABCDEF02")%string
       = [fpr_row 2000
            (fpr_for_request ("C.1000000000000001", "ABCDEF02")%string
                             example_first_request)].
Proof.
  intros requests.
  destruct (WriteFlowRequests_schedules 2000 requests example_two_flows_db)
    as (db' & Hcall & Hrequests & Hfprs).
  - exact example_two_flows_db_wf.
  - discriminate.
  - apply (bool_decide_unpack _). vm_compute. exact I.
  - repeat constructor.
  - apply one_trigger_check. vm_compute. reflexivity.
  - intros r _. constructor.
  - exists db'. split; [exact Hcall|]. split; [exact Hrequests|].
    rewrite !Hfprs. split; vm_compute; reflexivity.
Defined.

(** C8 as stated fails: a request that carries a start_time in the future
    and is not flagged needs_processing is written without a flow
    processing request. *)
Lemma start_time_alone_schedules_nothing :
  FlowRequest.needs_processing example_delayed_request = false
  /\ FlowRequest.start_time example_delayed_request = Some 9000000
  /\ 2000 < 9000000
  /\ exists db',
       WriteFlowRequests 2000 [example_delayed_request] example_db
       = (Ok tt, db')
       /\ flow_requests db'
          = flow_requests example_db ++ [request_row example_delayed_request]
       /\ flow_processing_requests db' = [].
Proof.
  split; [reflexivity|]. split; [reflexivity|]. split; [reflexivity|].
  eexists. split; [vm_compute; reflexivity|]. split; reflexivity.
Qed.

(** ** ReleaseProcessedFlow *)

Lemma release_subquery_eq (db_now : Z) (flow_obj : Flow.t) (db : Db) :
  release_subquery db_now flow_obj db
  = List.filter (blocks_release db_now flow_obj) (flow_requests db).
Proof.
  apply filter_ext. intros q. unfold blocks_release, RequestRow.key.
  apply eq_true_iff_eq.
  rewrite !andb_true_iff, !bool_decide_eq_true, Z.eqb_eq.
  split.
  - intros [[[[-> ->] ->] H1] H2]. now repeat split.
  - intros [[E H2] H1]. injection E as -> -> ->. now repeat split.
Qed.

Lemma release_condition_eq (db_now : Z) (flow_obj : Flow.t) (db : Db)
    (f : FlowRow.t) :
  release_condition db_now flow_obj db f
  = bool_decide (FlowRow.key f
                 = (Flow.client_id flow_obj, Flow.flow_id flow_obj))
    && negb (release_blocked db_now flow_obj db).
Proof.
  unfold release_condition, release_blocked. rewrite release_subquery_eq.
  destruct (decide (FlowRow.key f
                    = (Flow.client_id flow_obj, Flow.flow_id flow_obj)))
    as [E|E].
  - rewrite (bool_decide_eq_true_2 _ E). unfold FlowRow.key in E.
    injection E as E1 E2. rewrite !bool_decide_eq_true_2 by assumption.
    simpl. induction (flow_requests db) as [|q l IH]; simpl; [reflexivity|].
    destruct (blocks_release db_now flow_obj q) eqn:Hq; simpl; [|exact IH].
    unfold blocks_release in Hq. apply andb_prop in Hq as [Hq _].
    apply andb_prop in Hq as [Hk Hnp]. apply bool_decide_eq_true in Hk.
    unfold RequestRow.key in Hk. injection Hk as Hc Hf _.
    rewrite !bool_decide_eq_true_2 by congruence. simpl. now rewrite Hnp.
  - rewrite (bool_decide_eq_false_2 _ E). simpl.
    destruct (decide (FlowRow.client_id f = Flow.client_id flow_obj))
      as [E1|E1].
    + rewrite (bool_decide_eq_true_2 _ E1).
      rewrite bool_decide_eq_false_2; [reflexivity|].
      intros E2. apply E. unfold FlowRow.key. congruence.
    + now rewrite (bool_decide_eq_false_2 _ E1).
Qed.

Lemma set_flows_same (db : Db) : set_flows db (flows db) = db.
Proof. now destruct db. Qed.

Lemma find_flow_Some (db : Db) (k : FlowKey) (f : FlowRow.t) :
  find_flow db k = Some f -> In f (flows db) /\ FlowRow.key f = k.
Proof.
  intros H. apply find_some in H as [Hin Hk].
  now apply bool_decide_eq_true in Hk.
Qed.

Lemma find_update_where_other {A K} `{EqDecision K} (key : A -> K) (k : K)
    (c : A -> bool) (f : A -> A) (l : list A) :
  (forall x, key (f x) = key x) ->
  (forall x, c x = true -> key x <> k) ->
  List.find (fun q => bool_decide (key q = k)) (update_where c f l)
  = List.find (fun q => bool_decide (key q = k)) l.
Proof.
  intros Hf Hc. rewrite find_update_where by exact Hf.
  destruct (List.find _ l) as [x|] eqn:Hx; [|reflexivity]. simpl.
  apply find_some in Hx as [_ Hx]. apply bool_decide_eq_true in Hx.
  destruct (c x) eqn:E; [|reflexivity]. now apply Hc in E.
Qed.

(** C4, as the code has it.  The request that keeps a flow from being
    released is the one with the id next_request_to_process of the flow
    object that needs processing and whose start_time is unset or has
    passed.  With such a request the call changes nothing and returns
    false.  Without one (also when the request needs processing but its
    start_time is still to come) the row of the flow gets the new flow,
    flow_state, counters and next_request_to_process and the current time
    as last_update, loses processing_on, processing_since and
    processing_deadline, and the call returns true, unless the row held
    all of this already. *)
Theorem ReleaseProcessedFlow_guard (db_now : Z) (flow_obj : Flow.t) (db : Db)
    (f : FlowRow.t) :
  db_wf db ->
  find_flow db (Flow.client_id flow_obj, Flow.flow_id flow_obj) = Some f ->
  (release_blocked db_now flow_obj db = true ->
   ReleaseProcessedFlow db_now flow_obj db = (Ok false, db))
  /\ (release_blocked db_now flow_obj db = false ->
      exists db' f',
        ReleaseProcessedFlow db_now flow_obj db
        = (Ok (negb (bool_decide (f' = f))), db')
        /\ find_flow db' (Flow.client_id flow_obj, Flow.flow_id flow_obj)
           = Some f'
        /\ FlowRow.processing_on f' = None
        /\ FlowRow.processing_since f' = None
        /\ FlowRow.processing_deadline f' = None
        /\ FlowRow.flow f' = with_processing None None None flow_obj
        /\ FlowRow.flow_state f' = Some (Flow.flow_state flow_obj)
        /\ FlowRow.next_request_to_process f'
           = Flow.next_request_to_process flow_obj
        /\ FlowRow.user_cpu_time_used_micros f' = Flow.user_cpu_time flow_obj
        /\ FlowRow.system_cpu_time_used_micros f'
           = Flow.system_cpu_time flow_obj
        /\ FlowRow.network_bytes_sent f' = Flow.network_bytes_sent flow_obj
        /\ FlowRow.num_replies_sent f' = Flow.num_replies_sent flow_obj
        /\ FlowRow.last_update f' = db_now
        /\ (forall k, k <> (Flow.client_id flow_obj, Flow.flow_id flow_obj) ->
                      find_flow db' k = find_flow db k)
        /\ flow_requests db' = flow_requests db).
Proof.
  intros Hwf Hf.
  set (k := (Flow.client_id flow_obj, Flow.flow_id flow_obj)) in *.
  unfold ReleaseProcessedFlow, WithTransaction, ReleaseProcessedFlow_body,
    tx_bind, tx_get, tx_modify, tx_ret.
  unfold rows_changed.
  rewrite (update_where_ext_in _ _ _ _
             (fun x _ => release_condition_eq db_now flow_obj db x)).
  rewrite (filter_ext _ _
             (fun x => f_equal (fun b => b && _)
                         (release_condition_eq db_now flow_obj db x))).
  fold k. split; intros Hb; rewrite Hb; simpl.
  - rewrite update_where_false
      by (intros x _; apply andb_false_r).
    rewrite filter_false by (intros x _; now rewrite andb_false_r).
    simpl. now rewrite set_flows_same.
  - apply find_flow_Some in Hf as Hf'. destruct Hf' as [Hin Hk].
    exists (set_flows db
              (update_where
                 (fun x => bool_decide (FlowRow.key x = k) && true)
                 (release_set db_now flow_obj) (flows db))),
           (release_set db_now flow_obj f).
    split.
    { destruct (decide (release_set db_now flow_obj f = f)) as [E|E].
      - rewrite (bool_decide_eq_true_2 _ E). simpl.
        rewrite filter_false; [reflexivity|].
        intros y Hy.
        destruct (bool_decide (FlowRow.key y = k)) eqn:Hyk; [|reflexivity].
        apply bool_decide_eq_true in Hyk. simpl.
        assert (y = f); [|subst y; now rewrite bool_decide_eq_true_2].
        assert (Hfy : find_flow db k = Some y).
        { rewrite <- Hyk. apply find_flow_In;
            [apply (wf_flows_pk db Hwf)|exact Hy]. }
        congruence.
      - rewrite (bool_decide_eq_false_2 _ E). simpl.
        rewrite (filter_unique FlowRow.key _ _ f (wf_flows_pk db Hwf) Hin).
        + reflexivity.
        + rewrite andb_true_r, (bool_decide_eq_true_2 _ Hk).
          now rewrite bool_decide_eq_false_2.
        + intros y _ Hy. apply andb_prop in Hy as [Hy _].
          apply andb_prop in Hy as [Hy _]. apply bool_decide_eq_true in Hy.
          congruence. }
    split.
    { unfold find_flow; simpl.
      rewrite (find_update_where FlowRow.key) by reflexivity.
      unfold find_flow in Hf. rewrite Hf. simpl.
      now rewrite (bool_decide_eq_true_2 _ Hk). }
    repeat (split; [reflexivity|]).
    split; [|reflexivity].
    intros k' Hk'. unfold find_flow; simpl.
    apply (find_update_where_other FlowRow.key); [reflexivity|].
    intros x Hx. apply andb_prop in Hx as [Hx _].
    apply bool_decide_eq_true in Hx. congruence.
Qed.

Lemma example_waiting_db_wf : db_wf example_waiting_db.
Proof.
  split; simpl.
  - apply NoDup_singleton.
  - apply NoDup_singleton.
  - apply NoDup_nil_2.
  - repeat constructor.
  - repeat constructor.
Qed.

Lemma example_blocked_db_wf : db_wf example_blocked_db.
Proof.
  split; simpl.
  - apply NoDup_singleton.
  - apply NoDup_singleton.
  - apply NoDup_nil_2.
  - repeat constructor.
  - repeat constructor.
Qed.

(** A release that the request 3, flagged with no start_time, blocks, and
    one that the same request with a start_time still to come does not
    block. *)
Lemma ReleaseProcessedFlow_guard_witness :
  (release_blocked 2000 example_flow example_blocked_db = true
   /\ ReleaseProcessedFlow 2000 example_flow example_blocked_db
      = (Ok false, example_blocked_db))
  /\ (release_blocked 2000 example_flow example_waiting_db = false
      /\ exists db' f',
           ReleaseProcessedFlow 2000 example_flow example_waiting_db
           = (Ok true, db')
           /\ find_flow db' (Flow.client_id example_flow,
                             Flow.flow_id example_flow) = Some f'
           /\ FlowRow.processing_on f' = None
           /\ FlowRow.flow f' = with_processing None None None example_flow
           /\ FlowRow.next_request_to_process f'
              = Flow.next_request_to_process example_flow
           /\ FlowRow.last_update f' = 2000
           /\ flow_requests db' = flow_requests example_waiting_db).
Proof.
  split; (split; [reflexivity|]).
  - apply (proj1 (ReleaseProcessedFlow_guard 2000 example_flow
                    example_blocked_db example_flow_row
                    example_blocked_db_wf eq_refl)).
    reflexivity.
  - destruct (proj2 (ReleaseProcessedFlow_guard 2000 example_flow
                       example_waiting_db example_flow_row
                       example_waiting_db_wf eq_refl) eq_refl)
      as (db' & f' & Hcall & Hfind & Hon & _ & _ & Hflow & _ & Hnext & _ & _
          & _ & _ & Hlast & _ & Hrequests).
    exists db', f'. rewrite Hcall.
    rewrite bool_decide_eq_false_2
      by (intros E; rewrite E in Hlast; discriminate).
    now repeat split.
Defined.

(** C4 as stated fails: the request with the id next_request_to_process of
    the flow needs processing, its start_time (9000000) is still to come
    at 2000, and the flow is released all the same. *)
Lemma ReleaseProcessedFlow_ignores_delayed_request :
  needs_processing_of example_waiting_db example_key = true
  /\ next_request_of example_waiting_db
       (Flow.client_id example_flow, Flow.flow_id example_flow)
     = Some (Flow.next_request_to_process example_flow)
  /\ Flow.next_request_to_process example_flow = 3
  /\ exists db',
       ReleaseProcessedFlow 2000 example_flow example_waiting_db
       = (Ok true, db')
       /\ flows db' <> flows example_waiting_db.
Proof.
  split; [reflexivity|]. split; [reflexivity|]. split; [reflexivity|].
  eexists. split; [vm_compute; reflexivity|]. vm_compute. discriminate.
Qed.

(** ** LeaseFlowForProcessing *)

Lemma lease_select (db : Db) (k : FlowKey) (row : FlowRow.t) :
  db_wf db -> find_flow db k = Some row ->
  List.filter (fun f => bool_decide (FlowRow.key f = k)) (flows db) = [row].
Proof.
  intros Hwf Hf. apply find_flow_Some in Hf as [Hin Hk].
  apply (filter_unique FlowRow.key _ _ row (wf_flows_pk db Hwf) Hin).
  - now apply bool_decide_eq_true_2.
  - intros y _ Hy. apply bool_decide_eq_true in Hy. congruence.
Qed.

Lemma check_parent_hunt_eq (suitable : Z -> bool) (client_id flow_id : string)
    (row : FlowRow.t) (db : Db) :
  check_parent_hunt suitable client_id flow_id (_FlowObjectFromRow row) db
  = match unsuitable_parent_hunt suitable db row with
    | Some hunt_state =>
        Raise (ParentHuntIsNotRunningError
                 client_id flow_id
                 (Flow.parent_hunt_id (_FlowObjectFromRow row)) hunt_state)
    | None => Ok (tt, db)
    end.
Proof.
  unfold check_parent_hunt, unsuitable_parent_hunt, tx_bind, tx_get.
  destruct (List.filter _ (hunts db)) as [|h [|h' l]]; try reflexivity.
  destruct (HuntRow.hunt_state h) as [st|]; [|reflexivity].
  now destruct (suitable st).
Qed.

(** A flow that is leased is not leased again. *)
Lemma lease_refused (suitable : Z -> bool) (now : Z)
    (process_id_string client_id flow_id : string) (processing_time : Z)
    (db : Db) (row : FlowRow.t) :
  db_wf db -> find_flow db (client_id, flow_id) = Some row ->
  lease_held now row = true ->
  LeaseFlowForProcessing suitable now process_id_string client_id flow_id
                         processing_time db
  = (Raise (ValueError "Flow is already being processed."), db).
Proof.
  intros Hwf Hf Hheld.
  unfold LeaseFlowForProcessing, WithTransaction, LeaseFlowForProcessing_body.
  unfold tx_bind at 1. unfold tx_get at 1.
  rewrite (lease_select db _ row Hwf Hf).
  change (truthy_string (Flow.processing_on (_FlowObjectFromRow row))
          && (now <? read_field (Flow.processing_deadline
                                   (_FlowObjectFromRow row))))
    with (lease_held now row).
  now rewrite Hheld.
Qed.

(** A flow that is not leased and belongs to a hunt in an unsuitable state
    is not leased either. *)
Lemma lease_refused_by_hunt (suitable : Z -> bool) (now : Z)
    (process_id_string client_id flow_id : string) (processing_time : Z)
    (db : Db) (row : FlowRow.t) (hunt_state : Z) :
  db_wf db -> find_flow db (client_id, flow_id) = Some row ->
  lease_held now row = false ->
  unsuitable_parent_hunt suitable db row = Some hunt_state ->
  LeaseFlowForProcessing suitable now process_id_string client_id flow_id
                         processing_time db
  = (Raise (ParentHuntIsNotRunningError
              client_id flow_id
              (Flow.parent_hunt_id (_FlowObjectFromRow row)) hunt_state),
     db).
Proof.
  intros Hwf Hf Hheld Hhunt.
  unfold LeaseFlowForProcessing, WithTransaction, LeaseFlowForProcessing_body.
  unfold tx_bind at 1. unfold tx_get at 1.
  rewrite (lease_select db _ row Hwf Hf).
  change (truthy_string (Flow.processing_on (_FlowObjectFromRow row))
          && (now <? read_field (Flow.processing_deadline
                                   (_FlowObjectFromRow row))))
    with (lease_held now row).
  rewrite Hheld. unfold tx_bind at 1.
  now rewrite check_parent_hunt_eq, Hhunt.
Qed.

(** Any other flow is leased. *)
Lemma lease_granted (suitable : Z -> bool) (now : Z)
    (process_id_string client_id flow_id : string) (processing_time : Z)
    (db : Db) (row : FlowRow.t) :
  db_wf db -> find_flow db (client_id, flow_id) = Some row ->
  lease_held now row = false ->
  unsuitable_parent_hunt suitable db row = None ->
  let row' := set_processing (Some process_id_string) (Some now)
                             (Some (now + processing_time)) row in
  exists db',
    LeaseFlowForProcessing suitable now process_id_string client_id flow_id
                           processing_time db
    = (Ok (_FlowObjectFromRow row'), db')
    /\ find_flow db' (client_id, flow_id) = Some row'
    /\ (forall k, k <> (client_id, flow_id) -> find_flow db' k = find_flow db k)
    /\ flow_requests db' = flow_requests db
    /\ hunts db' = hunts db.
Proof.
  intros Hwf Hf Hheld Hhunt row'.
  exists (set_flows db
            (update_where
               (fun f => bool_decide (FlowRow.key f = (client_id, flow_id)))
               (set_processing (Some process_id_string) (Some now)
                               (Some (now + processing_time)))
               (flows db))).
  split; [|split; [|split; [|split; reflexivity]]].
  - unfold LeaseFlowForProcessing, WithTransaction,
      LeaseFlowForProcessing_body.
    unfold tx_bind at 1. unfold tx_get at 1.
    rewrite (lease_select db _ row Hwf Hf).
    change (truthy_string (Flow.processing_on (_FlowObjectFromRow row))
            && (now <? read_field (Flow.processing_deadline
                                     (_FlowObjectFromRow row))))
      with (lease_held now row).
    rewrite Hheld. unfold tx_bind at 1.
    rewrite check_parent_hunt_eq, Hhunt. reflexivity.
  - unfold find_flow; simpl.
    rewrite (find_update_where FlowRow.key) by reflexivity.
    unfold find_flow in Hf. rewrite Hf. simpl.
    apply find_some in Hf as [_ Hk]. now rewrite Hk.
  - intros k Hk. unfold find_flow; simpl.
    apply (find_update_where_other FlowRow.key); [reflexivity|].
    intros x Hx. apply bool_decide_eq_true in Hx. congruence.
Qed.

Lemma example_hunt_db_wf (hunt_state : Z) : db_wf (example_hunt_db hunt_state).
Proof.
  split; simpl.
  - apply NoDup_singleton.
  - apply NoDup_nil_2.
  - apply NoDup_nil_2.
  - constructor.
  - constructor.
Qed.

(** C5, as the code has it.  While processing_on is set and
    processing_deadline is still to come, a call to lease the flow raises
    the error of a flow that is processed already and changes nothing.
    From the deadline on the call gives the lease to the caller, unless
    the parent hunt of the flow is in a state that is not suitable for
    flow processing: then it raises ParentHuntIsNotRunningError and
    changes nothing. *)
Theorem LeaseFlowForProcessing_exclusive (suitable : Z -> bool) (now : Z)
    (process_id_string client_id flow_id : string) (processing_time : Z)
    (db : Db) (row : FlowRow.t) (deadline : Z) :
  db_wf db ->
  find_flow db (client_id, flow_id) = Some row ->
  truthy_string (FlowRow.processing_on row) = true ->
  FlowRow.processing_deadline row = Some deadline ->
  (now < deadline ->
   LeaseFlowForProcessing suitable now process_id_string client_id flow_id
                          processing_time db
   = (Raise (ValueError "Flow is already being processed."), db))
  /\ (deadline <= now ->
      match unsuitable_parent_hunt suitable db row with
      | None =>
          let row' := set_processing (Some process_id_string) (Some now)
                                     (Some (now + processing_time)) row in
          exists db',
            LeaseFlowForProcessing suitable now process_id_string client_id
                                   flow_id processing_time db
            = (Ok (_FlowObjectFromRow row'), db')
            /\ find_flow db' (client_id, flow_id) = Some row'
      | Some hunt_state =>
          LeaseFlowForProcessing suitable now process_id_string client_id
                                 flow_id processing_time db
          = (Raise (ParentHuntIsNotRunningError
                      client_id flow_id
                      (Flow.parent_hunt_id (_FlowObjectFromRow row))
                      hunt_state), db)
      end).
Proof.
  intros Hwf Hf Hon Hdeadline. split; intros Hnow.
  - apply (lease_refused suitable now _ _ _ _ db row Hwf Hf).
    unfold lease_held. rewrite Hon, Hdeadline. simpl. now apply Z.ltb_lt.
  - assert (Hheld : lease_held now row = false).
    { unfold lease_held. rewrite Hon, Hdeadline. simpl. now apply Z.ltb_ge. }
    destruct (unsuitable_parent_hunt suitable db row) as [st|] eqn:Hhunt.
    + exact (lease_refused_by_hunt suitable now process_id_string client_id
               flow_id processing_time db row st Hwf Hf Hheld Hhunt).
    + destruct (lease_granted suitable now process_id_string client_id flow_id
                  processing_time db row Hwf Hf Hheld Hhunt)
        as (db' & E & Hrow & _).
      exists db'. now split.
Qed.

Lemma LeaseFlowForProcessing_exclusive_witness :
  let db := example_hunt_db 3 in
  let row' := set_processing (Some "worker-2@host:4712"%string) (Some 5000)
                             (Some (5000 + 600)) example_hunt_flow_row in
  (2500 < 3000 ->
   LeaseFlowForProcessing example_suitable 2500 "worker-2@host:4712"
     "C.1000000000000001" "ABCDEF01" 600 db
   = (Raise (ValueError "Flow is already being processed."), db))
  /\ (3000 <= 5000 ->
      exists db',
        LeaseFlowForProcessing example_suitable 5000 "worker-2@host:4712"
          "C.1000000000000001" "ABCDEF01" 600 db
        = (Ok (_FlowObjectFromRow row'), db')
        /\ find_flow db' ("C.1000000000000001", "ABCDEF01")%string
           = Some row').
Proof.
  intros db row'. split.
  - apply (LeaseFlowForProcessing_exclusive example_suitable 2500
             "worker-2@host:4712" "C.1000000000000001" "ABCDEF01" 600
             db example_hunt_flow_row 3000).
    + exact (example_hunt_db_wf 3).
    + reflexivity.
    + reflexivity.
    + reflexivity.
  - apply (LeaseFlowForProcessing_exclusive example_suitable 5000
             "worker-2@host:4712" "C.1000000000000001" "ABCDEF01" 600
             db example_hunt_flow_row 3000).
    + exact (example_hunt_db_wf 3).
    + reflexivity.
    + reflexivity.
    + reflexivity.
Defined.

(** C5 as stated fails: the lease of the flow ran out at 3000, and at 5000
    a second caller is refused, because the parent hunt of the flow is in
    a state (4) that is not suitable for flow processing. *)
Lemma expired_lease_is_refused_for_unsuitable_hunt :
  FlowRow.processing_on example_hunt_flow_row
  = Some "worker-1@host:4711"%string
  /\ FlowRow.processing_deadline example_hunt_flow_row = Some 3000
  /\ 3000 < 5000
  /\ LeaseFlowForProcessing example_suitable 5000 "worker-2@host:4712"
       "C.1000000000000001" "ABCDEF01" 600 (example_hunt_db 4)
     = (Raise (ParentHuntIsNotRunningError
                 "C.1000000000000001" "ABCDEF01" "H:00000001" 4),
        example_hunt_db 4).
Proof. repeat split. Qed.

(** C6, as the code has it.  For a flow of a hunt in an unsuitable state
    the call raises ParentHuntIsNotRunningError when no lease is held on
    the flow, and the error of a flow that is processed already when one
    is; either way nothing changes.  For a flow that is not kept back by
    its hunt (a flow without a parent hunt is one) and on which no lease
    is held, the call stores processing_on = the id of the caller,
    processing_since = now and processing_deadline = now + the time asked
    for, and returns the flow object of the stored row. *)
Theorem LeaseFlowForProcessing_parent_hunt (suitable : Z -> bool) (now : Z)
    (process_id_string client_id flow_id : string) (processing_time : Z)
    (db : Db) (row : FlowRow.t) :
  db_wf db ->
  find_flow db (client_id, flow_id) = Some row ->
  (forall hunt_state,
     unsuitable_parent_hunt suitable db row = Some hunt_state ->
     LeaseFlowForProcessing suitable now process_id_string client_id flow_id
                            processing_time db
     = (Raise (if lease_held now row
               then ValueError "Flow is already being processed."
               else ParentHuntIsNotRunningError
                      client_id flow_id
                      (Flow.parent_hunt_id (_FlowObjectFromRow row))
                      hunt_state), db))
  /\ (unsuitable_parent_hunt suitable db row = None ->
      lease_held now row = false ->
      exists db' row',
        LeaseFlowForProcessing suitable now process_id_string client_id
                               flow_id processing_time db
        = (Ok (_FlowObjectFromRow row'), db')
        /\ find_flow db' (client_id, flow_id) = Some row'
        /\ FlowRow.processing_on row' = Some process_id_string
        /\ FlowRow.processing_since row' = Some now
        /\ FlowRow.processing_deadline row' = Some (now + processing_time)
        /\ Flow.processing_on (_FlowObjectFromRow row') = Some process_id_string
        /\ Flow.processing_since (_FlowObjectFromRow row') = Some now
        /\ Flow.processing_deadline (_FlowObjectFromRow row')
           = Some (now + processing_time)
        /\ (forall k, k <> (client_id, flow_id) ->
                      find_flow db' k = find_flow db k)).
Proof.
  intros Hwf Hf. split.
  - intros st Hhunt. destruct (lease_held now row) eqn:Hheld.
    + exact (lease_refused suitable now process_id_string client_id flow_id
               processing_time db row Hwf Hf Hheld).
    + exact (lease_refused_by_hunt suitable now process_id_string client_id
               flow_id processing_time db row st Hwf Hf Hheld Hhunt).
  - intros Hhunt Hheld.
    destruct (lease_granted suitable now process_id_string client_id flow_id
                processing_time db row Hwf Hf Hheld Hhunt)
      as (db' & E & Hrow & Hother & _).
    exists db', (set_processing (Some process_id_string) (Some now)
                                (Some (now + processing_time)) row).
    repeat (split; [first [exact E | exact Hrow | reflexivity]|]).
    exact Hother.
Qed.

Lemma LeaseFlowForProcessing_parent_hunt_witness :
  (forall hunt_state,
     unsuitable_parent_hunt example_suitable (example_hunt_db 4)
       example_hunt_flow_row = Some hunt_state ->
     LeaseFlowForProcessing example_suitable 5000 "worker-2@host:4712"
       "C.1000000000000001" "ABCDEF01" 600 (example_hunt_db 4)
     = (Raise (if lease_held 5000 example_hunt_flow_row
               then ValueError "Flow is already being processed."
               else ParentHuntIsNotRunningError
                      "C.1000000000000001" "ABCDEF01"
                      (Flow.parent_hunt_id
                         (_FlowObjectFromRow example_hunt_flow_row))
                      hunt_state), example_hunt_db 4))
  /\ exists db' row',
       LeaseFlowForProcessing example_suitable 5000 "worker-2@host:4712"
         "C.1000000000000001" "ABCDEF01" 600 (example_hunt_db 3)
       = (Ok (_FlowObjectFromRow row'), db')
       /\ find_flow db' ("C.1000000000000001", "ABCDEF01")%string = Some row'
       /\ FlowRow.processing_on row' = Some "worker-2@host:4712"%string
       /\ FlowRow.processing_since row' = Some 5000
       /\ FlowRow.processing_deadline row' = Some 5600.
Proof.
  split.
  - apply (LeaseFlowForProcessing_parent_hunt example_suitable 5000
             "worker-2@host:4712" "C.1000000000000001" "ABCDEF01" 600
             (example_hunt_db 4) example_hunt_flow_row).
    + exact (example_hunt_db_wf 4).
    + reflexivity.
  - destruct (proj2 (LeaseFlowForProcessing_parent_hunt example_suitable 5000
                       "worker-2@host:4712" "C.1000000000000001" "ABCDEF01"
                       600 (example_hunt_db 3) example_hunt_flow_row
                       (example_hunt_db_wf 3) eq_refl) eq_refl eq_refl)
      as (db' & row' & E & Hrow & H1 & H2 & H3 & _).
    exists db', row'. repeat split; assumption.
Defined.

(** C6 as stated fails: the hunt of the flow is in an unsuitable state
    (4), a lease is held on the flow until 3000, and at 2500 the call
    raises the error of a flow that is processed already, not
    ParentHuntIsNotRunningError. *)
Lemma leased_flow_of_unsuitable_hunt_raises_ValueError :
  unsuitable_parent_hunt example_suitable (example_hunt_db 4)
    example_hunt_flow_row = Some 4
  /\ LeaseFlowForProcessing example_suitable 2500 "worker-2@host:4712"
       "C.1000000000000001" "ABCDEF01" 600 (example_hunt_db 4)
     = (Raise (ValueError "Flow is already being processed."),
        example_hunt_db 4).
Proof. split; reflexivity. Qed.

(** ** The leased queues *)

Lemma update_limit_all {A} (c : A -> bool) (s : A -> A) (n : nat)
    (l : list A) :
  (length (List.filter c l) <= n)%nat ->
  update_limit c s n l = update_where c s l.
Proof.
  revert n. induction l as [|x l IH]; intros n Hn; simpl in *; [reflexivity|].
  destruct n as [|n].
  - destruct (c x) eqn:Hx; [simpl in Hn; lia|].
    f_equal. symmetry. apply update_where_false.
    intros y Hy. destruct (c y) eqn:Hcy; [|reflexivity].
    assert (Hin : In y (List.filter c l)) by now apply filter_In.
    destruct (List.filter c l); [contradiction | simpl in Hn; lia].
  - destruct (c x) eqn:Hx; simpl in Hn; f_equal; apply IH; lia.
Qed.

Lemma rows_changed_limit_all {A} `{EqDecision A} (c : A -> bool) (s : A -> A)
    (n : nat) (l : list A) :
  (length (List.filter c l) <= n)%nat ->
  (forall x, In x l -> c x = true -> s x <> x) ->
  rows_changed_limit c s n l = Z.of_nat (length (List.filter c l)).
Proof.
  revert n. induction l as [|x l IH]; intros n Hn Hs; simpl in *;
    [now destruct n|].
  destruct n as [|n].
  - destruct (c x) eqn:Hx; [simpl in Hn; lia|].
    destruct (List.filter c l); [reflexivity | simpl in Hn; lia].
  - destruct (c x) eqn:Hx; simpl in Hn.
    + rewrite bool_decide_eq_false_2 by (apply Hs; [now left | exact Hx]).
      rewrite IH; [simpl length; lia | lia |].
      intros y Hy. apply Hs. now right.
    + apply IH; [exact Hn|]. intros y Hy. apply Hs. now right.
Qed.

Lemma filter_update_where {A} (p c : A -> bool) (s : A -> A) (l : list A) :
  (forall x, In x l -> c x = true -> p (s x) = true) ->
  (forall x, In x l -> c x = false -> p x = false) ->
  List.filter p (update_where c s l) = map s (List.filter c l).
Proof.
  induction l as [|x l IH]; intros H1 H2; simpl; [reflexivity|].
  destruct (c x) eqn:Hx.
  - rewrite (H1 x (or_introl eq_refl) Hx). simpl. f_equal.
    apply IH; intros y Hy; [apply H1 | apply H2]; now right.
  - rewrite (H2 x (or_introl eq_refl) Hx).
    apply IH; intros y Hy; [apply H1 | apply H2]; now right.
Qed.

Lemma update_limit_keeps {A} (c : A -> bool) (s : A -> A) (n : nat)
    (l : list A) (x : A) :
  In x l -> c x = false -> In x (update_limit c s n l).
Proof.
  revert n. induction l as [|y l IH]; intros n Hin Hx; simpl; [contradiction|].
  destruct n as [|n]; [exact Hin|].
  destruct Hin as [->|Hin].
  - rewrite Hx. now left.
  - destruct (c y); right; now apply IH.
Qed.

Lemma in_firstn {A} (n : nat) (l : list A) (x : A) :
  In x (firstn n l) -> In x l.
Proof.
  revert l. induction n as [|n IH]; intros l H; [contradiction|].
  destruct l as [|y l]; [contradiction|].
  destruct H as [->|H]; [now left | right; now apply IH].
Qed.

Lemma fpr_lease_changes (db_now expiry : Z) (id_str : string) (x : FprRow.t) :
  db_now <= expiry ->
  fpr_leasable db_now x = true ->
  set_fpr_lease expiry id_str x <> x.
Proof.
  intros Hclock Hx E. unfold fpr_leasable in Hx.
  apply andb_prop in Hx as [_ Hx].
  assert (Hl : FprRow.leased_until x = Some expiry) by now rewrite <- E.
  rewrite Hl in Hx. apply Z.ltb_lt in Hx. lia.
Qed.

(** The queue of flow processing requests, with fewer eligible requests
    than the limit: all of them are leased to the caller, until
    now + 10 minutes, and they are what the call returns. *)
Lemma _LeaseFlowProcessingRequests_all (now db_now : Z) (id_str : string)
    (limit : Z) (db : Db) :
  let expiry := now + FPR_LEASE_WINDOW in
  let eligible :=
    List.filter (fpr_leasable db_now) (flow_processing_requests db) in
  (Z.of_nat (length eligible) < limit) ->
  db_now <= expiry ->
  Forall (fun x => fpr_leased_with id_str expiry x = false)
         (flow_processing_requests db) ->
  _LeaseFlowProcessingRequests now db_now id_str limit db
  = (Ok (map fpr_of_row eligible),
     set_flow_processing_requests db
       (update_where (fpr_leasable db_now) (set_fpr_lease expiry id_str)
                     (flow_processing_requests db))).
Proof.
  intros expiry eligible Hlimit Hclock Hfresh.
  assert (Hn : (length eligible <= Z.to_nat limit)%nat) by lia.
  unfold _LeaseFlowProcessingRequests, WithTransaction,
    _LeaseFlowProcessingRequests_body.
  fold expiry. rewrite (proj2 (Z.ltb_ge limit 0)) by lia.
  unfold tx_bind at 1. unfold tx_get at 1.
  unfold tx_bind at 1. unfold tx_modify at 1.
  rewrite (rows_changed_limit_all _ _ _ _ Hn)
    by (intros x _ Hx; exact (fpr_lease_changes db_now expiry id_str x
                                Hclock Hx)).
  rewrite (update_limit_all _ _ _ _ Hn). fold eligible.
  destruct (Z.of_nat (length eligible) =? 0) eqn:Hzero.
  - apply Z.eqb_eq in Hzero. destruct eligible; [reflexivity|].
    simpl length in Hzero. lia.
  - unfold tx_bind, tx_get, tx_ret. simpl flow_processing_requests.
    unfold select_limit. rewrite filter_update_where.
    + fold eligible. rewrite Nat2Z.id, <- (length_map (set_fpr_lease expiry id_str)),
        firstn_all, map_map. reflexivity.
    + intros x _ _. unfold fpr_leased_with. simpl.
      now rewrite !bool_decide_eq_true_2.
    + intros x Hx _. exact (proj1 (List.Forall_forall _ _) Hfresh x Hx).
Qed.

(** A request that is leased is not eligible before its lease runs out,
    and a call that leases with another id neither changes nor returns
    it. *)
Lemma _LeaseFlowProcessingRequests_spares (now db_now : Z) (id_str : string)
    (limit : Z) (db db' : Db) (res : list FlowProcessingRequest.t)
    (x : FprRow.t) (leased_until : Z) :
  In x (flow_processing_requests db) ->
  FprRow.leased_until x = Some leased_until ->
  db_now <= leased_until ->
  FprRow.leased_by x <> Some id_str ->
  _LeaseFlowProcessingRequests now db_now id_str limit db = (Ok res, db') ->
  fpr_leasable db_now x = false
  /\ In x (flow_processing_requests db')
  /\ exists rows,
       res = map fpr_of_row rows
       /\ ~ In x rows
       /\ Forall (fun y => In y (flow_processing_requests db')
                           /\ FprRow.leased_by y = Some id_str) rows.
Proof.
  intros Hin Hlease Hnow Hby Hcall.
  assert (Hx : fpr_leasable db_now x = false).
  { unfold fpr_leasable. rewrite Hlease.
    rewrite (proj2 (Z.ltb_ge leased_until db_now)) by lia.
    apply andb_false_r. }
  split; [exact Hx|].
  unfold _LeaseFlowProcessingRequests, WithTransaction,
    _LeaseFlowProcessingRequests_body in Hcall.
  destruct (limit <? 0); [discriminate|].
  unfold tx_bind at 1 in Hcall. unfold tx_get at 1 in Hcall.
  unfold tx_bind at 1 in Hcall. unfold tx_modify at 1 in Hcall.
  set (tbl' := update_limit _ _ _ (flow_processing_requests db)) in Hcall.
  assert (Hin' : In x tbl') by now apply update_limit_keeps.
  destruct (_ =? 0).
  - injection Hcall as <- <-. split; [exact Hin'|].
    exists []. repeat split; [now intros [] | constructor].
  - unfold tx_bind, tx_get, tx_ret in Hcall.
    simpl flow_processing_requests in Hcall.
    injection Hcall as <- <-. split; [exact Hin'|].
    eexists. split; [reflexivity|]. unfold select_limit. split.
    + intros Hsel. apply in_firstn, filter_In in Hsel as [_ Hsel].
      unfold fpr_leased_with in Hsel. apply andb_prop in Hsel as [Hsel _].
      now apply bool_decide_eq_true in Hsel.
    + apply List.Forall_forall. intros y Hy.
      apply in_firstn, filter_In in Hy as [Hy Hsel].
      split; [exact Hy|].
      unfold fpr_leased_with in Hsel. apply andb_prop in Hsel as [Hsel _].
      now apply bool_decide_eq_true in Hsel.
Qed.

(** A request whose lease ran out is eligible again. *)
Lemma fpr_leasable_after_expiry (db_now db_now' leased_until : Z)
    (id_str : string) (x : FprRow.t) :
  fpr_leasable db_now x = true ->
  db_now <= db_now' -> leased_until < db_now' ->
  fpr_leasable db_now' (set_fpr_lease leased_until id_str x) = true.
Proof.
  unfold fpr_leasable. simpl. intros H Hle Hlt.
  apply andb_prop in H as [H _]. apply andb_true_intro. split.
  - destruct (FprRow.delivery_time x) as [d|]; [|reflexivity].
    apply Z.leb_le in H. apply Z.leb_le. lia.
  - now apply Z.ltb_lt.
Qed.

(** C7.  The queue of message handler requests leases with the id of the
    process alone, where the queue of flow processing requests adds a
    random number for the case of two leases at one reading of the
    clock.  In that case (request 1 is leased at 5000, request 2 is
    written, the process leases again at 5000) the second call leases
    request 2 and returns request 1, which the first call leased and
    whose lease has not run out.  On the queue of flow processing
    requests the same run returns each request once. *)
Theorem message_handler_lease_returns_leased_request :
  let '(first, second, db) := message_handler_run in
  map MessageHandlerRequest.request_id first = [1]
  /\ map MessageHandlerRequest.leased_until first = [Some 5600]
  /\ map MessageHandlerRequest.request_id second = [1]
  /\ map (fun x => (MhrRow.request_id x, MhrRow.leased_until x,
                    MhrRow.leased_by x))
         (message_handler_requests db)
     = [(1, Some 5600, Some "MainThread@host:4711"%string);
        (2, Some 5600, Some "MainThread@host:4711"%string)]
  /\ let '(first', second', _) := flow_processing_run in
     map FlowProcessingRequest.flow_id first' = ["ABCDEF01"%string]
     /\ map FlowProcessingRequest.flow_id second' = ["ABCDEF02"%string].
Proof. vm_compute. repeat split. Qed.

(** ** The schema is kept by the writers *)

Lemma insert_requests_inv (db : Db) (rows tbl tbl' : list RequestRow.t) :
  insert_requests db tbl rows = Some tbl' ->
  tbl' = tbl ++ rows
  /\ (NoDup (map RequestRow.key tbl) -> NoDup (map RequestRow.key tbl'))
  /\ Forall (fun row => known_flow db (RequestRow.flow_key row) = true) rows.
Proof.
  revert tbl. induction rows as [|row rows IH]; intros tbl H; simpl in H.
  - injection H as <-. rewrite app_nil_r. repeat split; [auto | constructor].
  - destruct (existsb _ tbl) eqn:Hfresh; [discriminate|].
    destruct (known_flow db (RequestRow.flow_key row)) eqn:Hknown;
      [|discriminate].
    simpl in H. destruct (IH _ H) as (-> & Hnd & Hrows).
    split; [now rewrite <- app_assoc|]. split; [|now constructor].
    intros Hnd0. apply Hnd. rewrite map_app. apply NoDup_app.
    split; [exact Hnd0|]. split; [|apply NoDup_singleton].
    intros k Hk Hk'. apply list_elem_of_singleton in Hk'. subst k.
    rewrite existsb_key_map in Hfresh. now apply bool_decide_eq_false in Hfresh.
Qed.

(** WriteFlowRequests keeps the keys of the schema, and the key columns of
    the rows it writes are those of the requests it stores in them. *)
Lemma WriteFlowRequests_Ok (db_now : Z) (requests : list FlowRequest.t)
    (db db' : Db) :
  WriteFlowRequests db_now requests db = (Ok tt, db') ->
  requests <> []
  /\ insert_fprs (flow_processing_requests db)
                 (request_fprs db_now requests db)
     = Some (flow_processing_requests db ++ request_fprs db_now requests db)
  /\ insert_requests db (flow_requests db) (map request_row requests)
     = Some (flow_requests db ++ map request_row requests)
  /\ db' = set_flow_requests
             (set_flow_processing_requests db
                (flow_processing_requests db
                 ++ request_fprs db_now requests db))
             (flow_requests db ++ map request_row requests).
Proof.
  rewrite WriteFlowRequests_eq. intros H.
  destruct (insert_fprs _ _) as [fprs|] eqn:Hfprs; [|discriminate].
  destruct requests as [|r requests0] eqn:Hrs; [discriminate|].
  rewrite <- Hrs in *.
  destruct (insert_requests _ _ _) as [rows|] eqn:Hrows; [|discriminate].
  apply insert_fprs_Some in Hfprs as Hfprs'. subst fprs.
  apply insert_requests_inv in Hrows as Hrows'. destruct Hrows' as (-> & _).
  injection H as <-. repeat split; congruence.
Qed.

Lemma WriteFlowRequests_wf (db_now : Z) (requests : list FlowRequest.t)
    (db db' : Db) :
  db_wf db ->
  WriteFlowRequests db_now requests db = (Ok tt, db') ->
  db_wf db'.
Proof.
  intros [H1 H2 H3 H4 H5] Hcall.
  apply WriteFlowRequests_Ok in Hcall as (_ & _ & Hins & ->).
  apply insert_requests_inv in Hins as (_ & Hnd & Hknown).
  split; simpl.
  - exact H1.
  - now apply Hnd.
  - exact H3.
  - apply Forall_app. split; [exact H4 | exact Hknown].
  - apply Forall_app. split; [exact H5|].
    apply List.Forall_forall. intros q Hq.
    apply in_map_iff in Hq as (r & <- & _). reflexivity.
Qed.

(** What holds of the database through the two transactions of every
    batch holds after a call of WriteFlowResponses, whether the call
    returns or raises; the second transaction counts when its flow
    processing requests are inserted. *)
Lemma call_for_write_batch_inv (P : Db -> Prop) (db_now : Z)
    (batches : list (list FlowMessage)) (db : Db) :
  (forall d b, db_wf d -> P d -> P (written db_now b d)) ->
  (forall d b, db_wf d -> P d ->
     insert_fprs (flow_processing_requests d) (new_fprs db_now b d)
     = Some (flow_processing_requests d ++ new_fprs db_now b d) ->
     P (scheduled db_now b d)) ->
  Forall (fun b => b <> []) batches ->
  db_wf db -> P db ->
  P (call_for batches (write_batch db_now) db).2.
Proof.
  intros Hw Hs H. revert db.
  induction H as [|b batches Hb _ IH]; intros db Hwf HP; simpl; [exact HP|].
  unfold call_bind. rewrite (write_batch_eq _ _ _ Hwf Hb).
  destruct (insert_fprs _ _) as [tbl|] eqn:Hins; simpl.
  - apply IH; [now apply batch_step_wf|].
    apply Hs; [now apply written_wf | now apply Hw |].
    apply insert_fprs_Some in Hins as Htbl. now rewrite Htbl in Hins.
  - now apply Hw.
Qed.

Lemma WriteFlowResponses_inv_inserted (P : Db -> Prop) (size : nat)
    (db_now : Z) (responses : list FlowMessage) (db : Db) :
  (forall d b, db_wf d -> P d -> P (written db_now b d)) ->
  (forall d b, db_wf d -> P d ->
     insert_fprs (flow_processing_requests d) (new_fprs db_now b d)
     = Some (flow_processing_requests d ++ new_fprs db_now b d) ->
     P (scheduled db_now b d)) ->
  db_wf db -> P db ->
  P (WriteFlowResponses size db_now responses db).2.
Proof.
  intros Hw Hs Hwf HP. unfold WriteFlowResponses.
  destruct responses as [|r rs]; [exact HP|].
  apply call_for_write_batch_inv; try assumption.
  apply List.Forall_forall. intros b Hb. now apply Batch_nonempty in Hb.
Qed.

Lemma WriteFlowResponses_inv (P : Db -> Prop) (size : nat) (db_now : Z)
    (responses : list FlowMessage) (db : Db) :
  (forall d b, db_wf d -> P d -> P (written db_now b d)) ->
  (forall d b, db_wf d -> P d -> P (scheduled db_now b d)) ->
  db_wf db -> P db ->
  P (WriteFlowResponses size db_now responses db).2.
Proof.
  intros Hw Hs. apply WriteFlowResponses_inv_inserted; [exact Hw|].
  intros d b Hd HP _. now apply Hs.
Qed.

Lemma WriteFlowResponses_wf (size : nat) (db_now : Z)
    (responses : list FlowMessage) (db : Db) :
  db_wf db -> db_wf (WriteFlowResponses size db_now responses db).2.
Proof.
  intros Hwf. apply (WriteFlowResponses_inv db_wf); try assumption.
  - intros d b Hd _. now apply written_wf.
  - intros d b Hd _. now apply scheduled_wf.
Qed.
(** ** Responses: what WriteFlowResponses stores and what it leaves *)

(** X1.  WriteFlowResponses raises nothing for a response whose request is
    not stored: on a database that satisfies the keys of the schema the
    call returns or raises the IntegrityError of a flow processing request
    whose key is taken; for a request that is not stored nothing is stored
    either way; and when the call returns, every response of a stored
    request is stored afterwards (once). *)
Theorem WriteFlowResponses_skips_unknown_requests (size : nat) (db_now : Z)
    (responses : list FlowMessage) (db : Db) :
  db_wf db ->
  let call := WriteFlowResponses size db_now responses db in
  (call.1 = Ok tt \/ call.1 = Raise IntegrityError)
  /\ (forall k, known_request db k = false ->
         responses_of call.2 k = responses_of db k)
  /\ (call.1 = Ok tt ->
      forall r, In r responses ->
        known_request db (msg_request_key r) = true ->
        length (copies_of call.2 (msg_key r)) = 1%nat).
Proof.
  intros Hwf call. split; [now apply WriteFlowResponses_result|]. split.
  - intros k Hk.
    apply (WriteFlowResponses_inv
             (fun d => known_request d k = false
                       /\ responses_of d k = responses_of db k));
      [| |exact Hwf|now split].
    + intros d b _ [Hd E]. split; [now rewrite known_request_written|].
      now rewrite responses_of_written_unknown.
    + intros d b _ [Hd E]. split; [now rewrite known_request_scheduled|].
      exact E.
  - intros Hret r Hr Hk.
    assert (Hcall : call = (Ok tt, call.2))
      by (destruct call as [res d]; simpl in *; now subst res).
    apply WriteFlowResponses_Ok_steps in Hcall; [|exact Hwf].
    rewrite Hcall. apply copies_of_one.
    + apply wf_responses_pk. now apply run_steps_wf.
    + apply run_steps_stored; [|exact Hk].
      now rewrite steps_of_call_concat.
Qed.

(** The columns of a request row that no response changes. *)
Lemma stamp_expected_fixed (tbl : list RequestRow.t) (r : FlowMessage) :
  map request_fixed (stamp_expected tbl r) = map request_fixed tbl.
Proof.
  destruct r; try reflexivity. unfold stamp_expected.
  now apply map_key_update_where.
Qed.

Lemma fold_stamp_expected_fixed (rs : list FlowMessage)
    (tbl : list RequestRow.t) :
  map request_fixed (fold_left stamp_expected rs tbl) = map request_fixed tbl.
Proof.
  revert tbl. induction rs as [|r rs IH]; intros tbl; simpl; [reflexivity|].
  now rewrite IH, stamp_expected_fixed.
Qed.

Lemma fold_store_response_appends (db_now : Z) (db : Db)
    (rs : list FlowMessage) (tbl : list ResponseRow.t) :
  exists new, fold_left (store_response db_now db) rs tbl = tbl ++ new.
Proof.
  revert tbl. induction rs as [|r rs IH]; intros tbl; simpl.
  - exists []. now rewrite app_nil_r.
  - destruct (IH (store_response db_now db tbl r)) as [new Hnew].
    rewrite Hnew. unfold store_response, insert_ignore_response.
    destruct (known_request db (msg_request_key r)); [|now exists new].
    destruct (existsb _ tbl); [now exists new|].
    exists ([response_row db_now r] ++ new). now rewrite app_assoc.
Qed.

(** X2.  WriteFlowResponses only adds, whether it returns or raises: it
    leaves flows, hunts and the message handler requests as they are,
    keeps every request row with its key, callback_state,
    next_response_id, start_time and stored request (needs_processing and
    responses_expected are what it may change), and keeps the stored
    responses and flow processing requests, in their order, before the
    ones it adds. *)
Theorem WriteFlowResponses_only_appends (size : nat) (db_now : Z)
    (responses : list FlowMessage) (db : Db) :
  db_wf db ->
  let db' := (WriteFlowResponses size db_now responses db).2 in
  flows db' = flows db
  /\ hunts db' = hunts db
  /\ message_handler_requests db' = message_handler_requests db
  /\ map request_fixed (flow_requests db')
     = map request_fixed (flow_requests db)
  /\ (exists new, flow_responses db' = flow_responses db ++ new)
  /\ (exists new,
        flow_processing_requests db' = flow_processing_requests db ++ new).
Proof.
  intros Hwf db'.
  apply (WriteFlowResponses_inv
           (fun d =>
              flows d = flows db
              /\ hunts d = hunts db
              /\ message_handler_requests d = message_handler_requests db
              /\ map request_fixed (flow_requests d)
                 = map request_fixed (flow_requests db)
              /\ (exists new, flow_responses d = flow_responses db ++ new)
              /\ (exists new,
                    flow_processing_requests d
                    = flow_processing_requests db ++ new)));
    [| |exact Hwf|].
  - intros d b _ (H1 & H2 & H3 & H4 & [n5 H5] & H6).
    unfold written; simpl. repeat (split; [assumption|]).
    split; [now rewrite fold_stamp_expected_fixed|]. split; [|exact H6].
    destruct (fold_store_response_appends db_now d b (flow_responses d))
      as [new Hnew].
    rewrite Hnew, H5. eexists. now rewrite <- app_assoc.
  - intros d b _ (H1 & H2 & H3 & H4 & H5 & [n6 H6]).
    unfold scheduled; simpl. repeat (split; [assumption|]).
    split; [now rewrite (map_key_update_where request_fixed)|].
    split; [exact H5|]. rewrite H6. eexists. now rewrite <- app_assoc.
  - repeat (split; [reflexivity|]). split; exists []; now rewrite app_nil_r.
Qed.

(** ** Incremental requests *)

Lemma stamped_fixed (k : RequestKey) (rs : list FlowMessage)
    (q : RequestRow.t) :
  request_fixed (stamped k rs q) = request_fixed q
  /\ RequestRow.needs_processing (stamped k rs q)
     = RequestRow.needs_processing q.
Proof. unfold stamped. now destruct (last_status k rs). Qed.

Lemma WriteFlowResponses_one_batch (size : nat) (db_now : Z)
    (responses : list FlowMessage) (db : Db) :
  db_wf db ->
  Batch responses size = [responses] ->
  (forall r, In r responses ->
             fpr_key_free (msg_client_id r, msg_flow_id r, db_now) db) ->
  WriteFlowResponses size db_now responses db
  = (Ok tt, batch_step db_now db responses).
Proof.
  intros Hwf Hb Hfree. unfold WriteFlowResponses.
  destruct responses as [|r rs] eqn:E; [discriminate|]. rewrite <- E in *.
  rewrite Hb. cbn [call_for]. unfold call_bind.
  rewrite write_batch_returns; [reflexivity | exact Hwf | | exact Hfree].
  rewrite E. discriminate.
Qed.

(** X3.  A request with a callback state (an incremental request) that is
    its flow's next request to process gets a flow processing request with
    every batch of responses written for it, as long as it needs no
    processing yet: a call whose responses make one batch and hold a
    response for the request adds one flow processing request for the
    flow (no stored one of the flows of the batch bears the time of the
    call), and it sets needs_processing only when responses_expected of
    the request is the number of its stored responses. *)
Theorem incremental_request_is_scheduled_by_every_response (size : nat)
    (db_now : Z) (responses : list FlowMessage) (db : Db) (q : RequestRow.t) :
  db_wf db ->
  Batch responses size = [responses] ->
  touches (RequestRow.key q) responses = true ->
  find_request db (RequestRow.key q) = Some q ->
  next_request_of db (RequestRow.flow_key q) = Some (RequestRow.request_id q) ->
  RequestRow.callback_state q <> EmptyString ->
  RequestRow.needs_processing q = false ->
  (forall r, In r responses ->
             fpr_key_free (msg_client_id r, msg_flow_id r, db_now) db) ->
  exists db',
    WriteFlowResponses size db_now responses db = (Ok tt, db')
    /\ fprs_of db' (RequestRow.flow_key q)
       = fprs_of db (RequestRow.flow_key q)
         ++ [fpr_row db_now (fpr_of_request (RequestRow.request q))]
    /\ find_request db' (RequestRow.key q)
       = Some (let q1 := stamped (RequestRow.key q) responses q in
               if bool_decide
                    (RequestRow.responses_expected q1
                     = Some (count_responses db' (RequestRow.key q)))
               then set_needs_processing q1 else q1).
Proof.
  intros Hwf Hbatch Ht Hq Hnext Hcb Hnp Hfree.
  set (k := RequestRow.key q) in *. set (fk := RequestRow.flow_key q) in *.
  exists (batch_step db_now db responses).
  split; [now apply WriteFlowResponses_one_batch|].
  pose proof (written_wf db_now responses db Hwf) as Hwfw.
  set (dbw := written db_now responses db) in *.
  set (q1 := stamped k responses q).
  assert (Hq1 : find_request dbw k = Some q1).
  { unfold dbw. rewrite find_request_written, Hq. reflexivity. }
  apply find_request_Some in Hq1 as Hq1'. destruct Hq1' as [Hin Hkey].
  destruct (stamped_fixed k responses q) as [Hfix Hnp1]. fold q1 in Hfix, Hnp1.
  assert (Hcount : 0 < count_responses dbw k).
  { apply touches_written_counted; [exact Ht|].
    apply known_request_find. eauto. }
  assert (Hcb1 : RequestRow.callback_state q1 = RequestRow.callback_state q)
    by (injection Hfix; congruence).
  assert (Hreq1 : RequestRow.request q1 = RequestRow.request q)
    by (injection Hfix; congruence).
  assert (Hfk : RequestRow.flow_key q1 = fk).
  { unfold fk, RequestRow.flow_key.
    unfold k, RequestRow.key in Hkey. congruence. }
  assert (Hrid : RequestRow.request_id q1 = RequestRow.request_id q).
  { unfold k, RequestRow.key in Hkey. congruence. }
  assert (Hks : k ∈ (list_to_set (map msg_request_key responses)
                     : gset RequestKey)).
  { rewrite touches_in_keys in Ht. now apply bool_decide_eq_true in Ht. }
  split.
  - unfold batch_step. fold dbw. rewrite (fprs_of_scheduled _ _ _ _ Hwfw).
    f_equal. rewrite <- Hreq1.
    rewrite (filter_unique RequestRow.key _ _ q1 (wf_requests_pk _ Hwfw) Hin);
      [reflexivity | |].
    + rewrite Hfk, bool_decide_eq_true_2, andb_true_r by reflexivity.
      unfold scheduled_request, ready_request, counted_request.
      rewrite Hnp1, Hnp, Hkey.
      rewrite (bool_decide_eq_true_2 _ Hks).
      rewrite (proj2 (Z.ltb_lt _ _) Hcount). simpl.
      rewrite Hcb1, (bool_decide_eq_false_2 _ Hcb), orb_true_r. simpl.
      rewrite Hfk, Hrid. now apply bool_decide_eq_true_2.
    + intros y _ Hy. rewrite Hkey.
      apply (scheduled_request_key dbw _ fk y (RequestRow.request_id q)
               Hnext Hy).
  - unfold batch_step at 1. fold dbw.
    rewrite find_request_scheduled, Hq1. simpl. f_equal.
    unfold complete_request, counted_request.
    rewrite Hnp1, Hnp, Hkey.
    rewrite (bool_decide_eq_true_2 _ Hks).
    rewrite (proj2 (Z.ltb_lt _ _) Hcount). simpl.
    unfold batch_step, count_responses.
    now rewrite responses_of_scheduled.
Qed.

(** ** Requests: WriteFlowRequests and DeleteFlowRequests *)

Lemma insert_requests_None (db : Db) (rows tbl : list RequestRow.t) :
  Exists (fun row =>
            known_flow db (RequestRow.flow_key row) = false
            \/ existsb (fun q => bool_decide
                                   (RequestRow.key q = RequestRow.key row))
                       tbl = true) rows ->
  insert_requests db tbl rows = None.
Proof.
  revert tbl. induction rows as [|row rows IH]; intros tbl H;
    [inversion H|].
  simpl. destruct (existsb _ tbl || negb _) eqn:E; [reflexivity|].
  apply orb_false_elim in E as [E1 E2]. apply negb_false_iff in E2.
  apply IH. inversion H as [? ? [H0|H0]|? ? H0]; subst; [congruence..|].
  eapply Exists_impl; [exact H0|].
  intros row' [Hf|Hk]; [now left|right].
  rewrite existsb_app, Hk. reflexivity.
Qed.

(** What a call of WriteFlowRequests that returns has written, and what
    it found. *)
Lemma WriteFlowRequests_written (db_now : Z) (requests : list FlowRequest.t)
    (db db' : Db) :
  db_wf db ->
  WriteFlowRequests db_now requests db = (Ok tt, db') ->
  flow_requests db' = flow_requests db ++ map request_row requests
  /\ flows db' = flows db
  /\ flow_responses db' = flow_responses db
  /\ NoDup (map request_key_of requests)
  /\ Forall (fun r => known_request db (request_key_of r) = false) requests.
Proof.
  intros Hwf Hcall.
  apply WriteFlowRequests_Ok in Hcall as (_ & _ & Hins & ->).
  apply insert_requests_inv in Hins as (_ & Hnd & _).
  specialize (Hnd (wf_requests_pk db Hwf)).
  rewrite map_app, map_map in Hnd. apply NoDup_app in Hnd as (_ & Hdis & Hnd).
  repeat (split; [reflexivity|]). split; [exact Hnd|].
  apply List.Forall_forall. intros r Hr. unfold known_request.
  rewrite existsb_key_map. apply bool_decide_eq_false_2. intros Hk.
  apply (Hdis _ Hk). apply list_elem_of_In.
  now apply (in_map (fun x => RequestRow.key (request_row x))).
Qed.

(** X4.  WriteFlowRequests writes all the requests of a call or none: when
    one of them is for a flow that is not stored, or has the key of a
    stored request, the call raises and the database is as before,
    without the flow processing requests the call had written for the
    other requests.  The exception is AtLeastOneUnknownFlowError with the
    flow keys of all the requests of the call when the flow processing
    requests of the batch could be inserted (no flow with two triggering
    requests, no stored flow processing request with the time of the
    call), and the IntegrityError of their insert otherwise. *)
Theorem WriteFlowRequests_rejects_the_whole_batch (db_now : Z)
    (requests : list FlowRequest.t) (db : Db) :
  db_wf db ->
  Exists (fun r => known_flow db (flow_key_of r) = false
                   \/ known_request db (request_key_of r) = true)
         requests ->
  (exists e,
     WriteFlowRequests db_now requests db = (Raise e, db)
     /\ (e = AtLeastOneUnknownFlowError (map flow_key_of requests)
         \/ e = IntegrityError))
  /\ ((forall fk,
         (length (List.filter (triggers db fk) requests) <= 1)%nat) ->
      (forall r, In r requests ->
         fpr_key_free (FlowRequest.client_id r, FlowRequest.flow_id r, db_now)
                      db) ->
      WriteFlowRequests db_now requests db
      = (Raise (AtLeastOneUnknownFlowError (map flow_key_of requests)), db)).
Proof.
  intros Hwf H.
  assert (Hnone : insert_requests db (flow_requests db)
                                  (map request_row requests) = None).
  { apply insert_requests_None.
    apply List.Exists_exists. apply List.Exists_exists in H as (r & Hr & Hbad).
    exists (request_row r). split; [now apply in_map|exact Hbad]. }
  assert (Hne : requests <> []) by (intros ->; inversion H).
  rewrite WriteFlowRequests_eq. split.
  - destruct (insert_fprs _ _); [|exists IntegrityError; now split; [|right]].
    destruct requests; [congruence|]. rewrite Hnone.
    eexists. split; [reflexivity | now left].
  - intros Hone Hfree. rewrite (insert_request_fprs _ _ _ Hwf Hone Hfree).
    destruct requests; [congruence|]. now rewrite Hnone.
Qed.

(** X25.  The flow processing requests of a batch of requests are
    inserted by one statement and bear one timestamp: a batch with two
    requests of one stored flow that both trigger a flow processing
    request (flagged needs_processing, with the id next_request_to_process
    of the flow or a start_time) is refused with the IntegrityError of
    that insert, and nothing of it is written. *)
Theorem WriteFlowRequests_two_triggers_of_a_flow (db_now : Z)
    (requests : list FlowRequest.t) (db : Db) (fk : FlowKey) :
  db_wf db ->
  known_flow db fk = true ->
  (2 <= length (List.filter (triggers db fk) requests))%nat ->
  WriteFlowRequests db_now requests db = (Raise IntegrityError, db).
Proof.
  intros Hwf Hk Htwo. rewrite WriteFlowRequests_eq.
  destruct (insert_fprs _ _) as [tbl|] eqn:Hins; [exfalso|reflexivity].
  apply insert_fprs_inv in Hins as [Hnd _].
  apply (NoDup_map_filter FprRow.key
           (fun x => bool_decide (FprRow.flow_key x = fk))) in Hnd.
  rewrite (request_fprs_of _ _ _ _ Hwf), Hk, map_map in Hnd.
  destruct (List.filter (triggers db fk) requests) as [|r1 [|r2 l]];
    [simpl in Htwo; lia.. |].
  cbn [map] in Hnd. apply NoDup_cons in Hnd as [Hnotin _].
  apply Hnotin. now left.
Qed.

Lemma tx_for_ext {A} (items : list A) (body body' : A -> Tx unit) (db : Db) :
  (forall x d, body x d = body' x d) ->
  tx_for items body db = tx_for items body' db.
Proof.
  intros H. revert db. induction items as [|x items IH]; intros db;
    [reflexivity|].
  simpl. unfold tx_bind. rewrite H. destruct (body' x db) as [[[] d]|e];
    [apply IH | reflexivity].
Qed.

Lemma delete_where_twice {A} (c1 c2 : A -> bool) (l : list A) :
  delete_where c2 (delete_where c1 l) = delete_where (fun x => c1 x || c2 x) l.
Proof.
  unfold delete_where. rewrite filter_filter_andb. apply filter_ext.
  intros x. now rewrite negb_orb.
Qed.

Lemma delete_where_ext {A} (c c' : A -> bool) (l : list A) :
  (forall x, c x = c' x) -> delete_where c l = delete_where c' l.
Proof.
  intros H. unfold delete_where. apply filter_ext. intros x. now rewrite H.
Qed.

Lemma delete_where_none {A} (c : A -> bool) (l : list A) :
  (forall x, In x l -> c x = false) -> delete_where c l = l.
Proof.
  intros H. unfold delete_where. induction l as [|x l IH]; [reflexivity|].
  simpl. rewrite (H x (or_introl eq_refl)). simpl. f_equal.
  apply IH. intros y Hy. apply H. now right.
Qed.

Lemma bool_decide_elem_of_app {K} `{EqDecision K} (k : K) (l1 l2 : list K) :
  bool_decide (k ∈ l1 ++ l2) = bool_decide (k ∈ l1) || bool_decide (k ∈ l2).
Proof.
  destruct (decide (k ∈ l1)) as [H1|H1], (decide (k ∈ l2)) as [H2|H2];
    rewrite ?(bool_decide_eq_true_2 _ H1), ?(bool_decide_eq_false_2 _ H1),
      ?(bool_decide_eq_true_2 _ H2), ?(bool_decide_eq_false_2 _ H2); simpl;
    [apply bool_decide_eq_true_2..|apply bool_decide_eq_false_2];
    rewrite elem_of_app; tauto.
Qed.

(** The database after the batches of DeleteFlowRequests. *)
Lemma delete_batches (batches : list (list FlowRequest.t)) (db : Db) :
  fold_left
    (fun d batch =>
       set_flow_requests
         (set_flow_responses d
            (delete_where
               (fun x => bool_decide (ResponseRow.request_key x
                                      ∈ map request_key_of batch))
               (flow_responses d)))
         (delete_where
            (fun q => bool_decide (RequestRow.key q ∈ map request_key_of batch))
            (flow_requests d)))
    batches db
  = deleted_requests (map request_key_of (concat batches)) db.
Proof.
  revert db. induction batches as [|b bs IH]; intros db.
  - simpl. unfold deleted_requests.
    rewrite !delete_where_none by reflexivity. now destruct db.
  - cbn [fold_left concat]. rewrite IH.
    unfold deleted_requests, set_flow_requests, set_flow_responses; simpl.
    rewrite !delete_where_twice, map_app.
    f_equal; apply delete_where_ext; intros x;
      now rewrite bool_decide_elem_of_app.
Qed.

Lemma DeleteFlowRequests_eq (size : nat) (requests : list FlowRequest.t)
    (db : Db) :
  DeleteFlowRequests size requests db
  = (Ok tt, deleted_requests (map request_key_of requests) db).
Proof.
  unfold DeleteFlowRequests, WithTransaction, DeleteFlowRequests_body.
  destruct requests as [|r requests].
  - unfold tx_ret. f_equal. f_equal. exact (delete_batches [] db).
  - rewrite (tx_for_ext _ _
               (fun batch =>
                  tx_modify (fun d =>
                    set_flow_requests
                      (set_flow_responses d
                         (delete_where
                            (fun x => bool_decide
                                        (ResponseRow.request_key x
                                         ∈ map request_key_of batch))
                            (flow_responses d)))
                      (delete_where
                         (fun q => bool_decide
                                     (RequestRow.key q
                                      ∈ map request_key_of batch))
                         (flow_requests d)))))
      by reflexivity.
    rewrite tx_for_modify, delete_batches, Batch_concat. reflexivity.
Qed.

(** X5.  DeleteFlowRequests deletes the rows of the given requests and the
    responses stored for them, whatever the size of its batches, and it
    leaves every other row of the database as it is. *)
Theorem DeleteFlowRequests_deletes_requests_with_responses (size : nat)
    (requests : list FlowRequest.t) (db : Db) :
  exists db',
    DeleteFlowRequests size requests db = (Ok tt, db')
    /\ (forall k, In k (map request_key_of requests) ->
          find_request db' k = None /\ responses_of db' k = [])
    /\ (forall k, ~ In k (map request_key_of requests) ->
          find_request db' k = find_request db k
          /\ responses_of db' k = responses_of db k)
    /\ flows db' = flows db
    /\ flow_processing_requests db' = flow_processing_requests db
    /\ message_handler_requests db' = message_handler_requests db
    /\ hunts db' = hunts db.
Proof.
  exists (deleted_requests (map request_key_of requests) db).
  split; [apply DeleteFlowRequests_eq|].
  split; [|split; [|now repeat split]].
  - intros k Hk. apply list_elem_of_In in Hk. split.
    + unfold find_request, deleted_requests, delete_where; simpl.
      destruct (List.find _ _) as [q|] eqn:E; [|reflexivity].
      apply find_some in E as [Hin Hq]. apply filter_In in Hin as [_ Hin].
      apply bool_decide_eq_true in Hq. rewrite Hq in Hin.
      now rewrite (bool_decide_eq_true_2 _ Hk) in Hin.
    + unfold responses_of, deleted_requests, delete_where; simpl.
      rewrite filter_filter_andb. apply filter_false. intros x _.
      destruct (decide (ResponseRow.request_key x = k)) as [->|E].
      * now rewrite (bool_decide_eq_true_2 _ Hk).
      * rewrite (bool_decide_eq_false_2 _ E). apply andb_false_r.
  - intros k Hk. rewrite <- list_elem_of_In in Hk. split.
    + unfold find_request, deleted_requests, delete_where; simpl.
      apply find_filter. intros q Hq. apply bool_decide_eq_true in Hq.
      rewrite Hq. now rewrite (bool_decide_eq_false_2 _ Hk).
    + unfold responses_of, deleted_requests, delete_where; simpl.
      rewrite filter_filter_andb. apply filter_ext. intros x.
      destruct (decide (ResponseRow.request_key x = k)) as [->|E].
      * now rewrite (bool_decide_eq_false_2 _ Hk).
      * rewrite (bool_decide_eq_false_2 _ E). apply andb_false_r.
Qed.

(** X6.  Writing requests and deleting them again leaves the tables of the
    requests and of the responses as they were: the requests of a call of
    WriteFlowRequests that returns are stored as the call gave them, with
    no responses_expected, and DeleteFlowRequests of the same requests
    removes these rows and nothing else. *)
Theorem WriteFlowRequests_then_DeleteFlowRequests (db_now : Z) (size : nat)
    (requests : list FlowRequest.t) (db db1 : Db) :
  db_wf db ->
  responses_fk db ->
  WriteFlowRequests db_now requests db = (Ok tt, db1) ->
  exists db2,
    (forall r, In r requests ->
       find_request db1 (request_key_of r) = Some (request_row r)
       /\ responses_expected_of db1 (request_key_of r) = None)
    /\ DeleteFlowRequests size requests db1 = (Ok tt, db2)
    /\ flow_requests db2 = flow_requests db
    /\ flow_responses db2 = flow_responses db.
Proof.
  intros Hwf Hfk Hw.
  destruct (WriteFlowRequests_written db_now requests db db1 Hwf Hw)
    as (Hq & Hf & Hr & Hnd & Hreq).
  exists (deleted_requests (map request_key_of requests) db1).
  assert (Hfresh : forall q, In q (flow_requests db) ->
            ~ RequestRow.key q ∈ map request_key_of requests).
  { intros q Hin Hk. apply list_elem_of_In, in_map_iff in Hk as (r & Hk & Hr').
    pose proof (proj1 (List.Forall_forall _ _) Hreq r Hr') as Hunk.
    unfold known_request in Hunk.
    assert (existsb (fun q0 => bool_decide (RequestRow.key q0 = request_key_of r))
                    (flow_requests db) = true); [|congruence].
    apply existsb_exists. exists q. split; [exact Hin|].
    now apply bool_decide_eq_true_2. }
  split; [|split; [apply DeleteFlowRequests_eq|split]].
  - intros r Hr'.
    assert (Hfind : find_request db1 (request_key_of r) = Some (request_row r)).
    { apply find_request_In.
      - rewrite Hq, map_app. apply NoDup_app. split; [apply Hwf|]. split.
        + intros k Hk Hk'. apply list_elem_of_In, in_map_iff in Hk as (q & <- & Hin).
          apply (Hfresh q Hin). rewrite map_map in Hk'. exact Hk'.
        + rewrite map_map. exact Hnd.
      - rewrite Hq. apply in_or_app. right. now apply in_map.
      - reflexivity. }
    split; [exact Hfind|]. unfold responses_expected_of. now rewrite Hfind.
  - unfold deleted_requests; simpl. rewrite Hq.
    unfold delete_where. rewrite List.filter_app.
    rewrite (filter_false _ (map request_row requests)).
    + rewrite app_nil_r. fold (delete_where
        (fun q => bool_decide (RequestRow.key q ∈ map request_key_of requests))
        (flow_requests db)).
      apply delete_where_none. intros q Hin.
      apply bool_decide_eq_false_2. now apply Hfresh.
    + intros row Hrow. apply in_map_iff in Hrow as (r & <- & Hr').
      apply negb_false_iff, bool_decide_eq_true_2, list_elem_of_In.
      now apply (in_map request_key_of).
  - unfold deleted_requests; simpl. rewrite Hr.
    apply delete_where_none. intros x Hin.
    apply bool_decide_eq_false_2. intros Hk.
    pose proof (proj1 (List.Forall_forall _ _) Hfk x Hin) as Hknown.
    apply list_elem_of_In, in_map_iff in Hk as (r & Hk & Hr').
    pose proof (proj1 (List.Forall_forall _ _) Hreq r Hr') as Hunk.
    congruence.
Qed.

(** ** UpdateIncrementalFlowRequests and DeleteAllFlowRequestsAndResponses *)

Lemma fold_set_flow_requests {A} (F : A -> list RequestRow.t -> list RequestRow.t)
    (l : list A) (db : Db) :
  fold_left (fun d x => set_flow_requests d (F x (flow_requests d))) l db
  = set_flow_requests db (fold_left (fun t x => F x t) l (flow_requests db)).
Proof.
  revert db. induction l as [|x l IH]; intros db; simpl.
  - now destruct db.
  - now rewrite IH.
Qed.

(** The updates of a list of pairs with distinct request ids, one after
    the other, are the update by the mapping of the list. *)
Lemma fold_next_response_id (client_id flow_id : string) (l : list (Z * Z))
    (tbl : list RequestRow.t) :
  NoDup l.*1 ->
  fold_left
    (fun t (x : Z * Z) =>
       update_where
         (fun q => bool_decide (RequestRow.key q = (client_id, flow_id, x.1)))
         (set_next_response_id x.2) t)
    l tbl
  = map (fun q => if bool_decide (RequestRow.flow_key q = (client_id, flow_id))
                  then with_update (list_to_map l) q else q) tbl.
Proof.
  revert tbl. induction l as [|[rid v] l IH]; intros tbl Hnd.
  - simpl. symmetry. erewrite map_ext; [apply map_id|].
    intros q. unfold with_update. rewrite lookup_empty. now destruct (bool_decide _).
  - rewrite fmap_cons in Hnd. apply NoDup_cons in Hnd as [Hrid Hnd].
    cbn [fst] in Hrid. cbn [fold_left fst snd].
    rewrite (IH _ Hnd). unfold update_where. rewrite map_map.
    apply map_ext. intros q. cbn [list_to_map foldr].
    change (foldr (fun (p : Z * Z) => <[p.1:=p.2]>) ∅ l)
      with (list_to_map l : gmap Z Z).
    unfold with_update.
    destruct (decide (RequestRow.key q = (client_id, flow_id, rid))) as [E|E].
    + rewrite (bool_decide_eq_true_2 _ E).
      assert (Hfk : RequestRow.flow_key q = (client_id, flow_id))
        by (unfold RequestRow.key in E; unfold RequestRow.flow_key; congruence).
      assert (Hq : RequestRow.request_id q = rid)
        by (unfold RequestRow.key in E; congruence).
      change (RequestRow.flow_key (set_next_response_id v q))
        with (RequestRow.flow_key q).
      change (RequestRow.request_id (set_next_response_id v q))
        with (RequestRow.request_id q).
      rewrite (bool_decide_eq_true_2 _ Hfk). subst rid. cbn [fst snd].
      rewrite lookup_insert_eq.
      now rewrite (not_elem_of_list_to_map_1 _ _ Hrid).
    + rewrite (bool_decide_eq_false_2 _ E).
      destruct (decide (RequestRow.flow_key q = (client_id, flow_id)))
        as [Hfk|Hfk].
      * rewrite (bool_decide_eq_true_2 _ Hfk). rewrite lookup_insert_ne;
          [reflexivity|].
        intros Heq. cbn [fst] in Heq. apply E. unfold RequestRow.key.
        unfold RequestRow.flow_key in Hfk. congruence.
      * now rewrite (bool_decide_eq_false_2 _ Hfk).
Qed.

Lemma UpdateIncrementalFlowRequests_eq (client_id flow_id : string)
    (next_response_id_updates : gmap Z Z) (db : Db) :
  UpdateIncrementalFlowRequests client_id flow_id next_response_id_updates db
  = (Ok tt,
     set_flow_requests db
       (map (fun q =>
               if bool_decide (RequestRow.flow_key q = (client_id, flow_id))
               then with_update next_response_id_updates q else q)
            (flow_requests db))).
Proof.
  unfold UpdateIncrementalFlowRequests, WithTransaction,
    UpdateIncrementalFlowRequests_body.
  assert (Hloop :
    tx_for (map_to_list next_response_id_updates)
      (fun '(request_id, next_response_id) =>
         tx_modify (fun db =>
           set_flow_requests db
             (update_where
                (fun q => bool_decide
                            (RequestRow.key q = (client_id, flow_id, request_id)))
                (set_next_response_id next_response_id)
                (flow_requests db)))) db
    = Ok (tt,
          set_flow_requests db
            (map (fun q =>
                    if bool_decide (RequestRow.flow_key q = (client_id, flow_id))
                    then with_update next_response_id_updates q else q)
                 (flow_requests db)))).
  { rewrite (tx_for_ext _ _
               (fun x : Z * Z =>
                  tx_modify (fun d =>
                    set_flow_requests d
                      (update_where
                         (fun q => bool_decide
                                     (RequestRow.key q
                                      = (client_id, flow_id, x.1)))
                         (set_next_response_id x.2) (flow_requests d)))))
      by (now intros [rid v] d).
    rewrite tx_for_modify.
    rewrite (fold_set_flow_requests
               (fun (x : Z * Z) t =>
                  update_where
                    (fun q => bool_decide
                                (RequestRow.key q = (client_id, flow_id, x.1)))
                    (set_next_response_id x.2) t)).
    rewrite fold_next_response_id by apply NoDup_fst_map_to_list.
    now rewrite list_to_map_to_list. }
  destruct (bool_decide (next_response_id_updates = ∅)) eqn:E.
  - apply bool_decide_eq_true in E. subst. rewrite map_to_list_empty in Hloop.
    simpl in Hloop. injection Hloop as Hloop. unfold tx_ret.
    now rewrite <- Hloop.
  - now rewrite Hloop.
Qed.

(** X7.  UpdateIncrementalFlowRequests sets next_response_id of the
    requests of the flow that the mapping names, to the value the mapping
    gives, and changes nothing else: a request id of the mapping that is
    not stored for the flow is passed over without an error. *)
Theorem UpdateIncrementalFlowRequests_sets_next_response_id
    (client_id flow_id : string) (next_response_id_updates : gmap Z Z)
    (db : Db) :
  exists db',
    UpdateIncrementalFlowRequests client_id flow_id next_response_id_updates db
    = (Ok tt, db')
    /\ (forall request_id,
          find_request db' (client_id, flow_id, request_id)
          = option_map (with_update next_response_id_updates)
              (find_request db (client_id, flow_id, request_id)))
    /\ (forall k, (k.1.1, k.1.2) <> (client_id, flow_id) ->
          find_request db' k = find_request db k)
    /\ map RequestRow.key (flow_requests db') = map RequestRow.key (flow_requests db)
    /\ flows db' = flows db
    /\ flow_responses db' = flow_responses db
    /\ flow_processing_requests db' = flow_processing_requests db
    /\ message_handler_requests db' = message_handler_requests db
    /\ hunts db' = hunts db.
Proof.
  eexists. split; [apply UpdateIncrementalFlowRequests_eq|].
  assert (Hkey : forall q,
            RequestRow.key
              (if bool_decide (RequestRow.flow_key q = (client_id, flow_id))
               then with_update next_response_id_updates q else q)
            = RequestRow.key q).
  { intros q. destruct (bool_decide _); [|reflexivity].
    unfold with_update. now destruct (_ !! _). }
  split; [|split; [|split; [|now repeat split]]].
  - intros request_id. unfold find_request; simpl.
    change (map ?f (flow_requests db))
      with (update_where (fun _ => true) f (flow_requests db)).
    rewrite (find_update_where RequestRow.key) by exact Hkey.
    destruct (List.find _ _) as [q|] eqn:E; [|reflexivity]. simpl.
    apply find_some in E as [_ E]. apply bool_decide_eq_true in E.
    rewrite bool_decide_eq_true_2; [reflexivity|].
    unfold RequestRow.key in E. unfold RequestRow.flow_key. congruence.
  - intros [[c f] rid] Hk. simpl in Hk. unfold find_request; simpl.
    change (map ?f (flow_requests db))
      with (update_where (fun _ => true) f (flow_requests db)).
    rewrite (find_update_where RequestRow.key) by exact Hkey.
    destruct (List.find _ _) as [q|] eqn:E; [|reflexivity]. simpl.
    apply find_some in E as [_ E]. apply bool_decide_eq_true in E.
    rewrite bool_decide_eq_false_2; [reflexivity|].
    unfold RequestRow.key in E. unfold RequestRow.flow_key. congruence.
  - simpl. rewrite map_map. apply map_ext. exact Hkey.
Qed.

(** X8.  DeleteAllFlowRequestsAndResponses leaves no request and no
    response of the flow, and leaves the requests and responses of every
    other flow, the flow itself and its flow processing requests as they
    are. *)
Theorem DeleteAllFlowRequestsAndResponses_clears_the_flow
    (client_id flow_id : string) (db : Db) :
  exists db',
    DeleteAllFlowRequestsAndResponses client_id flow_id db = (Ok tt, db')
    /\ (forall request_id,
          find_request db' (client_id, flow_id, request_id) = None
          /\ responses_of db' (client_id, flow_id, request_id) = [])
    /\ (forall k, (k.1.1, k.1.2) <> (client_id, flow_id) ->
          find_request db' k = find_request db k
          /\ responses_of db' k = responses_of db k)
    /\ flows db' = flows db
    /\ flow_processing_requests db' = flow_processing_requests db
    /\ message_handler_requests db' = message_handler_requests db
    /\ hunts db' = hunts db.
Proof.
  eexists. split; [reflexivity|].
  split; [|split; [|now repeat split]].
  - intros request_id. split.
    + unfold find_request, delete_where; simpl.
      destruct (List.find _ _) as [q|] eqn:E; [|reflexivity].
      apply find_some in E as [Hin Hq]. apply filter_In in Hin as [_ Hin].
      apply bool_decide_eq_true in Hq. unfold RequestRow.key in Hq.
      injection Hq as Hc Hf _. rewrite !bool_decide_eq_true_2 in Hin by assumption.
      discriminate.
    + unfold responses_of, delete_where; simpl.
      rewrite filter_filter_andb. apply filter_false. intros x _.
      destruct (decide (ResponseRow.request_key x
                        = (client_id, flow_id, request_id))) as [E|E].
      * unfold ResponseRow.request_key in E. injection E as Hc Hf _.
        now rewrite !bool_decide_eq_true_2 by assumption.
      * rewrite (bool_decide_eq_false_2 _ E). apply andb_false_r.
  - intros [[c f] rid] Hk. simpl in Hk. split.
    + unfold find_request, delete_where; simpl.
      apply find_filter. intros q Hq. apply bool_decide_eq_true in Hq.
      unfold RequestRow.key in Hq. injection Hq as Hc Hf _.
      apply negb_true_iff, andb_false_iff.
      destruct (decide (c = client_id)) as [->|Hne].
      * right. apply bool_decide_eq_false_2. congruence.
      * left. apply bool_decide_eq_false_2. congruence.
    + unfold responses_of, delete_where; simpl.
      rewrite filter_filter_andb. apply filter_ext. intros x.
      destruct (decide (ResponseRow.request_key x = (c, f, rid))) as [E|E].
      * rewrite (bool_decide_eq_true_2 _ E), andb_true_r.
        unfold ResponseRow.request_key in E. injection E as Hc Hf _.
        apply negb_true_iff, andb_false_iff.
        destruct (decide (c = client_id)) as [->|Hne].
        -- right. apply bool_decide_eq_false_2. congruence.
        -- left. apply bool_decide_eq_false_2. congruence.
      * rewrite (bool_decide_eq_false_2 _ E). apply andb_false_r.
Qed.

(** ** The schema is kept by the methods on requests and responses *)

Lemma WithTransaction_Raise {A} (m : Tx A) (db db' : Db) (e : Exception) :
  WithTransaction m db = (Raise e, db') -> db' = db.
Proof.
  unfold WithTransaction. destruct (m db) as [[a d]|e']; congruence.
Qed.

Lemma known_request_more (db db' : Db) (rows : list RequestRow.t)
    (k : RequestKey) :
  flow_requests db' = flow_requests db ++ rows ->
  known_request db k = true -> known_request db' k = true.
Proof.
  intros H Hk. unfold known_request in *. rewrite H, existsb_app, Hk.
  reflexivity.
Qed.

Lemma fold_store_response_Forall (P : ResponseRow.t -> Prop) (db_now : Z)
    (db : Db) (rs : list FlowMessage) (tbl : list ResponseRow.t) :
  (forall r, known_request db (msg_request_key r) = true ->
             P (response_row db_now r)) ->
  Forall P tbl -> Forall P (fold_left (store_response db_now db) rs tbl).
Proof.
  intros HP. revert tbl. induction rs as [|r rs IH]; intros tbl Htbl; simpl;
    [exact Htbl|].
  apply IH. unfold store_response, insert_ignore_response.
  destruct (known_request db (msg_request_key r)) eqn:Hk; [|exact Htbl].
  destruct (existsb _ tbl); [exact Htbl|].
  apply Forall_app. split; [exact Htbl|]. constructor; [|constructor].
  now apply HP.
Qed.

Lemma responses_fk_written (db_now : Z) (db : Db) (b : list FlowMessage) :
  responses_fk db -> responses_fk (written db_now b db).
Proof.
  intros Hfk. unfold responses_fk.
  eapply List.Forall_impl with
    (P := fun x => known_request db (ResponseRow.request_key x) = true);
    [intros x Hx; now rewrite known_request_written|].
  unfold written; simpl.
  apply fold_store_response_Forall; [intros r Hr; exact Hr | exact Hfk].
Qed.

Lemma responses_fk_scheduled (db_now : Z) (db : Db) (b : list FlowMessage) :
  responses_fk db -> responses_fk (scheduled db_now b db).
Proof.
  intros Hfk. unfold responses_fk.
  eapply List.Forall_impl; [|exact Hfk].
  intros x Hx. now rewrite known_request_scheduled.
Qed.

Lemma Forall_filter {A} (P : A -> Prop) (c : A -> bool) (l : list A) :
  Forall P l -> Forall P (List.filter c l).
Proof.
  intros H. apply List.Forall_forall. intros x Hx.
  apply filter_In in Hx as [Hx _].
  exact (proj1 (List.Forall_forall _ _) H x Hx).
Qed.

(** Deleting requests together with their responses keeps the schema. *)
Lemma delete_consistent (cq : RequestRow.t -> bool) (cx : ResponseRow.t -> bool)
    (db : Db) :
  (forall q x, In q (flow_requests db) -> In x (flow_responses db) ->
               RequestRow.key q = ResponseRow.request_key x ->
               cq q = true -> cx x = true) ->
  db_consistent db ->
  db_consistent
    (set_flow_requests
       (set_flow_responses db (delete_where cx (flow_responses db)))
       (delete_where cq (flow_requests db))).
Proof.
  intros Hc [[H1 H2 H3 H4 H5] Hfk]. split; [split|]; simpl.
  - exact H1.
  - now apply NoDup_map_filter.
  - now apply NoDup_map_filter.
  - now apply Forall_filter.
  - now apply Forall_filter.
  - unfold responses_fk; simpl. apply List.Forall_forall. intros x Hx.
    apply filter_In in Hx as [Hin Hcx].
    pose proof (proj1 (List.Forall_forall _ _) Hfk x Hin) as Hk.
    unfold known_request in *; simpl.
    apply existsb_exists in Hk as (q & Hq & Hkey).
    apply existsb_exists. exists q. split; [|exact Hkey].
    apply filter_In. split; [exact Hq|].
    apply bool_decide_eq_true in Hkey.
    destruct (cq q) eqn:E; [|reflexivity].
    rewrite (Hc q x Hq Hin Hkey E) in Hcx. discriminate.
Qed.

(** X9.  The methods that write and delete requests and responses keep the
    schema: on a database with unique keys, where every request belongs to
    a stored flow, carries the ids of its key and every response belongs
    to a stored request, each of WriteFlowResponses, WriteFlowRequests,
    DeleteFlowRequests, DeleteAllFlowRequestsAndResponses and
    UpdateIncrementalFlowRequests leaves such a database, whether it
    returns or raises: the two deleting methods never leave a response
    without its request. *)
Theorem requests_and_responses_stay_consistent (write_size delete_size : nat)
    (db_now : Z) (db : Db) :
  db_consistent db ->
  (forall responses,
     db_consistent (WriteFlowResponses write_size db_now responses db).2)
  /\ (forall requests,
        db_consistent (WriteFlowRequests db_now requests db).2)
  /\ (forall requests,
        db_consistent (DeleteFlowRequests delete_size requests db).2)
  /\ (forall client_id flow_id,
        db_consistent
          (DeleteAllFlowRequestsAndResponses client_id flow_id db).2)
  /\ (forall client_id flow_id next_response_id_updates,
        db_consistent
          (UpdateIncrementalFlowRequests client_id flow_id
                                         next_response_id_updates db).2).
Proof.
  intros Hc. pose proof Hc as [Hwf Hfk].
  split; [|split; [|split; [|split]]].
  - intros responses. split; [now apply WriteFlowResponses_wf|].
    apply (WriteFlowResponses_inv responses_fk); try assumption.
    + intros d b _ Hd. now apply responses_fk_written.
    + intros d b _ Hd. now apply responses_fk_scheduled.
  - intros requests.
    destruct (WriteFlowRequests db_now requests db) as [[[]|e] db'] eqn:E.
    + split; [exact (WriteFlowRequests_wf _ _ _ _ Hwf E)|].
      apply WriteFlowRequests_Ok in E as (_ & _ & _ & ->).
      unfold responses_fk; simpl. eapply List.Forall_impl; [|exact Hfk].
      intros x Hx. eapply known_request_more; [|exact Hx]. reflexivity.
    + apply WithTransaction_Raise in E. now subst.
  - intros requests. rewrite DeleteFlowRequests_eq. simpl.
    apply delete_consistent; [|exact Hc].
    intros q x _ _ Hk Hq. now rewrite <- Hk.
  - intros client_id flow_id. simpl.
    apply (delete_consistent
             (fun q => bool_decide (RequestRow.client_id q = client_id)
                       && bool_decide (RequestRow.flow_id q = flow_id))
             (fun x => bool_decide (ResponseRow.client_id x = client_id)
                       && bool_decide (ResponseRow.flow_id x = flow_id)));
      [|exact Hc].
    intros q x _ _ Hk Hq. unfold RequestRow.key, ResponseRow.request_key in Hk.
    injection Hk as <- <- _. exact Hq.
  - intros client_id flow_id next_response_id_updates.
    rewrite UpdateIncrementalFlowRequests_eq. simpl.
    destruct Hwf as [H1 H2 H3 H4 H5].
    set (g := fun q =>
                if bool_decide (RequestRow.flow_key q = (client_id, flow_id))
                then with_update next_response_id_updates q else q).
    assert (Hg : forall q, RequestRow.key (g q) = RequestRow.key q
                           /\ RequestRow.flow_key (g q) = RequestRow.flow_key q
                           /\ RequestRow.request (g q) = RequestRow.request q).
    { intros q. unfold g. destruct (bool_decide _); [|now repeat split].
      unfold with_update. now destruct (_ !! _). }
    assert (Hkeys : map RequestRow.key (map g (flow_requests db))
                    = map RequestRow.key (flow_requests db)).
    { rewrite map_map. apply map_ext. intros q. apply Hg. }
    split; [split|]; simpl.
    + exact H1.
    + now rewrite Hkeys.
    + exact H3.
    + apply List.Forall_forall. intros q' Hq'.
      apply in_map_iff in Hq' as (q & <- & Hq).
      destruct (Hg q) as (_ & -> & _).
      exact (proj1 (List.Forall_forall _ _) H4 q Hq).
    + apply List.Forall_forall. intros q' Hq'.
      apply in_map_iff in Hq' as (q & <- & Hq).
      destruct (Hg q) as (-> & _ & ->).
      exact (proj1 (List.Forall_forall _ _) H5 q Hq).
    + unfold responses_fk; simpl. eapply List.Forall_impl; [|exact Hfk].
      intros x Hx. erewrite known_request_keys; [exact Hx|]. exact Hkeys.
Qed.

(** ** The queue of flow processing requests *)

Lemma rows_changed_limit_bounds {A} `{EqDecision A} (c : A -> bool)
    (s : A -> A) (n : nat) (l : list A) :
  0 <= rows_changed_limit c s n l <= Z.of_nat n.
Proof.
  revert n. induction l as [|x l IH]; intros n; simpl; [lia|].
  destruct n as [|n]; [lia|].
  destruct (c x).
  - specialize (IH n). destruct (bool_decide _); lia.
  - specialize (IH (S n)). lia.
Qed.

Lemma map_key_update_limit {A K} (key : A -> K) (c : A -> bool) (s : A -> A)
    (n : nat) (l : list A) :
  (forall x, key (s x) = key x) ->
  map key (update_limit c s n l) = map key l.
Proof.
  intros Hk. revert n. induction l as [|x l IH]; intros n; simpl;
    [reflexivity|].
  destruct n as [|n]; [reflexivity|].
  destruct (c x); simpl; now rewrite ?Hk, IH.
Qed.

(** X10.  _LeaseFlowProcessingRequests returns at most [limit] requests,
    and it changes nothing but the lease columns (leased_until and
    leased_by) of flow processing requests: no row is added or removed,
    and the request, the timestamp and the delivery_time of every row are
    as before. *)
Theorem _LeaseFlowProcessingRequests_at_most_limit (now db_now : Z)
    (id_str : string) (limit : Z) (db : Db) :
  0 <= limit ->
  exists res db',
    _LeaseFlowProcessingRequests now db_now id_str limit db = (Ok res, db')
    /\ Z.of_nat (length res) <= limit
    /\ map fpr_payload (flow_processing_requests db')
       = map fpr_payload (flow_processing_requests db)
    /\ flows db' = flows db
    /\ flow_requests db' = flow_requests db
    /\ flow_responses db' = flow_responses db
    /\ message_handler_requests db' = message_handler_requests db
    /\ hunts db' = hunts db.
Proof.
  intros Hlimit.
  unfold _LeaseFlowProcessingRequests, WithTransaction,
    _LeaseFlowProcessingRequests_body.
  rewrite (proj2 (Z.ltb_ge limit 0)) by lia.
  unfold tx_bind at 1. unfold tx_get at 1.
  unfold tx_bind at 1. unfold tx_modify at 1.
  set (expiry := now + FPR_LEASE_WINDOW).
  pose proof (rows_changed_limit_bounds (fpr_leasable db_now)
                (set_fpr_lease expiry id_str) (Z.to_nat limit)
                (flow_processing_requests db)) as Hb.
  set (updated := rows_changed_limit _ _ _ _) in *.
  assert (Hp : map fpr_payload
                 (update_limit (fpr_leasable db_now)
                    (set_fpr_lease expiry id_str) (Z.to_nat limit)
                    (flow_processing_requests db))
               = map fpr_payload (flow_processing_requests db))
    by now apply map_key_update_limit.
  destruct (updated =? 0).
  - unfold tx_ret. eexists _, _. split; [reflexivity|].
    split; [simpl; lia|]. split; [exact Hp|]. now repeat split.
  - unfold tx_bind, tx_get, tx_ret. eexists _, _. split; [reflexivity|].
    split; [|split; [exact Hp|now repeat split]].
    rewrite length_map. unfold select_limit.
    pose proof (firstn_le_length (Z.to_nat updated)
                  (List.filter (fpr_leased_with id_str expiry)
                     (flow_processing_requests
                        (set_flow_processing_requests db
                           (update_limit (fpr_leasable db_now)
                              (set_fpr_lease expiry id_str) (Z.to_nat limit)
                              (flow_processing_requests db)))))).
    lia.
Qed.

Lemma fpr_of_row_set_fpr_lease (leased_until : Z) (leased_by : string)
    (x : FprRow.t) :
  fpr_of_row (set_fpr_lease leased_until leased_by x) = fpr_of_row x.
Proof. reflexivity. Qed.

(** X11.  A flow processing request that was leased and not acknowledged
    is leased again once its lease has run out: what a call of
    _LeaseFlowProcessingRequests returned is returned again by a call that
    is made after the expiry of the first one (with room for all the
    requests that are due, and an id of its own). *)
Theorem unacknowledged_requests_are_leased_again (now db_now now' db_now' : Z)
    (id_str id_str' : string) (limit limit' : Z) (db db1 : Db)
    (res : list FlowProcessingRequest.t) :
  let expiry := now + FPR_LEASE_WINDOW in
  let expiry' := now' + FPR_LEASE_WINDOW in
  Z.of_nat (length (List.filter (fpr_leasable db_now)
                                (flow_processing_requests db))) < limit ->
  db_now <= expiry ->
  Forall (fun x => fpr_leased_with id_str expiry x = false)
         (flow_processing_requests db) ->
  _LeaseFlowProcessingRequests now db_now id_str limit db = (Ok res, db1) ->
  db_now <= db_now' -> expiry < db_now' ->
  Z.of_nat (length (List.filter (fpr_leasable db_now')
                                (flow_processing_requests db1))) < limit' ->
  db_now' <= expiry' ->
  Forall (fun x => fpr_leased_with id_str' expiry' x = false)
         (flow_processing_requests db1) ->
  exists res' db2,
    _LeaseFlowProcessingRequests now' db_now' id_str' limit' db1
    = (Ok res', db2)
    /\ forall r, In r res -> In r res'.
Proof.
  intros expiry expiry' Hl Hc Hf Hcall Hle Hlt Hl' Hc' Hf'.
  rewrite (_LeaseFlowProcessingRequests_all now db_now id_str limit db Hl Hc Hf)
    in Hcall.
  injection Hcall as <- <-.
  eexists _, _. split.
  { exact (_LeaseFlowProcessingRequests_all now' db_now' id_str' limit' _
             Hl' Hc' Hf'). }
  intros r Hr. apply in_map_iff in Hr as (x & <- & Hx).
  apply filter_In in Hx as [Hin Hx].
  rewrite <- (fpr_of_row_set_fpr_lease expiry id_str x).
  apply in_map. apply filter_In. split.
  - simpl. unfold update_where. apply in_map_iff. exists x.
    now rewrite Hx.
  - now apply (fpr_leasable_after_expiry db_now).
Qed.

Lemma fpr_acknowledged (requests : list FlowProcessingRequest.t)
    (x : FprRow.t) :
  fpr_columns x ->
  In (fpr_of_row x) requests ->
  existsb
    (fun r =>
       bool_decide (FprRow.client_id x = FlowProcessingRequest.client_id r)
       && bool_decide (FprRow.flow_id x = FlowProcessingRequest.flow_id r)
       && (FprRow.timestamp x
           =? read_field (FlowProcessingRequest.creation_time r)))
    requests = true.
Proof.
  intros [Hc Hf] Hin. apply existsb_exists. exists (fpr_of_row x).
  split; [exact Hin|]. simpl.
  rewrite !bool_decide_eq_true_2 by assumption. now rewrite Z.eqb_refl.
Qed.

(** X12.  AckFlowProcessingRequests deletes the given requests from the
    queue: of the rows whose key columns are those of their request, none
    that reads back as one of the given requests is left, the rows that
    are left are rows of before, and a row stays when no given request has
    its client id, flow id and (as creation_time) its timestamp.
    Acknowledging all that ReadFlowProcessingRequests returns empties the
    queue. *)
Theorem AckFlowProcessingRequests_removes_the_requests
    (requests : list FlowProcessingRequest.t) (db : Db) :
  Forall fpr_columns (flow_processing_requests db) ->
  (exists db',
     AckFlowProcessingRequests requests db = (Ok tt, db')
     /\ (forall x, In x (flow_processing_requests db') ->
           In x (flow_processing_requests db)
           /\ ~ In (fpr_of_row x) requests)
     /\ (forall x, In x (flow_processing_requests db) ->
           Forall (fun r =>
                     (FlowProcessingRequest.client_id r,
                      FlowProcessingRequest.flow_id r) <> FprRow.flow_key x
                     \/ read_field (FlowProcessingRequest.creation_time r)
                        <> FprRow.timestamp x) requests ->
           In x (flow_processing_requests db'))
     /\ flows db' = flows db
     /\ flow_requests db' = flow_requests db
     /\ flow_responses db' = flow_responses db)
  /\ (exists all db',
        ReadFlowProcessingRequests db = (Ok all, db)
        /\ AckFlowProcessingRequests all db = (Ok tt, db')
        /\ flow_processing_requests db' = []).
Proof.
  intros Hcols.
  assert (Hack : forall rs,
    AckFlowProcessingRequests rs db
    = (Ok tt,
       set_flow_processing_requests db
         (delete_where
            (fun x =>
               existsb
                 (fun r =>
                    bool_decide
                      (FprRow.client_id x = FlowProcessingRequest.client_id r)
                    && bool_decide
                         (FprRow.flow_id x = FlowProcessingRequest.flow_id r)
                    && (FprRow.timestamp x
                        =? read_field (FlowProcessingRequest.creation_time r)))
                 rs)
            (flow_processing_requests db)))).
  { intros [|r rs]; [|reflexivity].
    unfold AckFlowProcessingRequests, WithTransaction; simpl.
    rewrite delete_where_none by reflexivity. now destruct db. }
  split.
  - eexists. split; [apply Hack|]. simpl.
    split; [|split; [|now repeat split]].
    + intros x Hx. apply filter_In in Hx as [Hin Hx]. split; [exact Hin|].
      intros Hr. rewrite (fpr_acknowledged requests x) in Hx;
        [discriminate | | exact Hr].
      exact (proj1 (List.Forall_forall _ _) Hcols x Hin).
    + intros x Hin Hne. apply filter_In. split; [exact Hin|].
      apply negb_true_iff. destruct (existsb _ requests) eqn:E; [|reflexivity].
      apply existsb_exists in E as (r & Hr & E).
      apply andb_prop in E as [E Ht]. apply andb_prop in E as [Hc Hf].
      apply bool_decide_eq_true in Hc, Hf. apply Z.eqb_eq in Ht.
      destruct (proj1 (List.Forall_forall _ _) Hne r Hr) as [H|H];
        exfalso; apply H; [unfold FprRow.flow_key; congruence | congruence].
  - eexists _, _. split; [reflexivity|]. split; [apply Hack|]. simpl.
    apply filter_false. intros x Hin. apply negb_false_iff.
    apply fpr_acknowledged.
    + exact (proj1 (List.Forall_forall _ _) Hcols x Hin).
    + now apply in_map.
Qed.

Lemma AckFlowProcessingRequests_eq (requests : list FlowProcessingRequest.t)
    (db : Db) :
  AckFlowProcessingRequests requests db
  = (Ok tt,
     set_flow_processing_requests db
       (delete_where
          (fun x =>
             existsb
               (fun r =>
                  bool_decide
                    (FprRow.client_id x = FlowProcessingRequest.client_id r)
                  && bool_decide
                       (FprRow.flow_id x = FlowProcessingRequest.flow_id r)
                  && (FprRow.timestamp x
                      =? read_field (FlowProcessingRequest.creation_time r)))
               requests)
          (flow_processing_requests db))).
Proof.
  destruct requests as [|r rs]; [|reflexivity].
  unfold AckFlowProcessingRequests, WithTransaction; simpl.
  rewrite delete_where_none by reflexivity. now destruct db.
Qed.

(** A row is deleted by the acknowledgement of requests as they are read
    back after a write at [db_now] exactly when it has the key of the row
    of one of them. *)
Lemma acknowledged_written (db_now : Z)
    (requests : list FlowProcessingRequest.t) (x : FprRow.t) :
  existsb
    (fun r =>
       bool_decide (FprRow.client_id x = FlowProcessingRequest.client_id r)
       && bool_decide (FprRow.flow_id x = FlowProcessingRequest.flow_id r)
       && (FprRow.timestamp x
           =? read_field (FlowProcessingRequest.creation_time r)))
    (map (with_creation_time db_now) requests)
  = existsb (fun row => bool_decide (FprRow.key x = FprRow.key row))
            (map (fpr_row db_now) requests).
Proof.
  induction requests as [|r requests IH]; [reflexivity|].
  cbn [map existsb]. rewrite IH. f_equal.
  unfold FprRow.key; simpl. apply eq_true_iff_eq.
  rewrite !andb_true_iff, !bool_decide_eq_true, Z.eqb_eq. split.
  - intros [[-> ->] ->]. reflexivity.
  - intros E. injection E as -> -> ->. now repeat split.
Qed.

(** X13.  A call of WriteFlowProcessingRequests that returns has stored
    its requests: they are read back, with the time of the write as their
    creation_time, besides what was read before and nothing else; and
    acknowledging them, as they are read back, leaves the database as it
    was before the write. *)
Theorem WriteFlowProcessingRequests_read_back (db_now : Z)
    (requests : list FlowProcessingRequest.t) (db db' : Db) :
  WriteFlowProcessingRequests db_now requests db = (Ok tt, db') ->
  exists before after,
    ReadFlowProcessingRequests db = (Ok before, db)
    /\ ReadFlowProcessingRequests db' = (Ok after, db')
    /\ (forall r,
          In r after
          <-> In r before \/ In r (map (with_creation_time db_now) requests))
    /\ AckFlowProcessingRequests (map (with_creation_time db_now) requests) db'
       = (Ok tt, db).
Proof.
  intros Hw.
  unfold WriteFlowProcessingRequests, WithTransaction,
    _WriteFlowProcessingRequests in Hw.
  destruct requests as [|r0 requests0] eqn:Hrs; [discriminate|].
  rewrite <- Hrs in *. clear Hrs r0 requests0.
  destruct (insert_fprs _ _) as [tbl|] eqn:Hins; [|discriminate].
  injection Hw as <-.
  apply insert_fprs_inv in Hins as Hinv. destruct Hinv as [_ Hfresh].
  apply insert_fprs_Some in Hins. subst tbl.
  exists (map fpr_of_row (flow_processing_requests db)),
         (map fpr_of_row (flow_processing_requests db
                          ++ map (fpr_row db_now) requests)).
  split; [reflexivity|]. split; [reflexivity|]. split.
  - intros r. rewrite map_app, in_app_iff, (map_map (fpr_row db_now)).
    reflexivity.
  - rewrite AckFlowProcessingRequests_eq.
    cbn [flow_processing_requests set_flow_processing_requests].
    rewrite (delete_where_ext _ _ _ (acknowledged_written db_now requests)).
    unfold delete_where. rewrite List.filter_app.
    rewrite (filter_false _ (map (fpr_row db_now) requests)).
    + rewrite app_nil_r.
      fold (delete_where
              (fun x => existsb
                          (fun row => bool_decide
                                        (FprRow.key x = FprRow.key row))
                          (map (fpr_row db_now) requests))
              (flow_processing_requests db)).
      rewrite delete_where_none; [now destruct db|].
      intros x Hx. apply not_true_is_false. intros E.
      apply existsb_exists in E as (row & Hrow & E).
      apply bool_decide_eq_true in E.
      pose proof (proj1 (List.Forall_forall _ _) Hfresh row Hrow) as Hf.
      exact (proj1 (List.Forall_forall _ _) Hf x Hx E).
    + intros row Hrow. apply negb_false_iff, existsb_exists.
      exists row. split; [exact Hrow | now apply bool_decide_eq_true_2].
Qed.

(** ** The key of the queue *)



(** ** Flows: reading, leasing and releasing *)

Lemma select_flow (db : Db) (k : FlowKey) (row : FlowRow.t) :
  NoDup (map FlowRow.key (flows db)) -> find_flow db k = Some row ->
  List.filter (fun f => bool_decide (FlowRow.key f = k)) (flows db) = [row].
Proof.
  intros Hnd Hf. apply find_flow_Some in Hf as [Hin Hk].
  apply (filter_unique FlowRow.key _ _ row Hnd Hin).
  - now apply bool_decide_eq_true_2.
  - intros y _ Hy. apply bool_decide_eq_true in Hy. congruence.
Qed.

Lemma select_no_flow (db : Db) (k : FlowKey) :
  find_flow db k = None ->
  List.filter (fun f => bool_decide (FlowRow.key f = k)) (flows db) = [].
Proof.
  intros Hf. apply filter_false. intros x Hx.
  exact (find_none _ _ Hf x Hx).
Qed.

Lemma known_flow_None (db : Db) (k : FlowKey) :
  known_flow db k = false <-> find_flow db k = None.
Proof.
  unfold known_flow, find_flow. split; intros H.
  - destruct (List.find _ _) as [f|] eqn:E; [|reflexivity].
    apply find_some in E as [Hin Hf].
    assert (existsb (fun f => bool_decide (FlowRow.key f = k)) (flows db) = true)
      by (apply existsb_exists; eauto).
    congruence.
  - destruct (existsb _ _) eqn:E; [|reflexivity].
    apply existsb_exists in E as (f & Hin & Hf).
    now rewrite (find_none _ _ H f Hin) in Hf.
Qed.

Lemma ReadFlowObject_eq (client_id flow_id : string) (db : Db) :
  NoDup (map FlowRow.key (flows db)) ->
  ReadFlowObject client_id flow_id db
  = (match find_flow db (client_id, flow_id) with
     | Some row => Ok (_FlowObjectFromRow row)
     | None => Raise (UnknownFlowError client_id flow_id)
     end, db).
Proof.
  intros Hnd.
  unfold ReadFlowObject, WithTransaction, ReadFlowObject_body, tx_bind, tx_get.
  destruct (find_flow db (client_id, flow_id)) as [row|] eqn:Hf.
  - now rewrite (select_flow db _ row Hnd Hf).
  - now rewrite (select_no_flow db _ Hf).
Qed.

(** The outcomes of LeaseFlowForProcessing. *)
Lemma LeaseFlowForProcessing_eq (suitable : Z -> bool) (now : Z)
    (process_id_string client_id flow_id : string) (processing_time : Z)
    (db : Db) :
  db_wf db ->
  LeaseFlowForProcessing suitable now process_id_string client_id flow_id
                         processing_time db
  = match find_flow db (client_id, flow_id) with
    | None => (Raise (UnknownFlowError client_id flow_id), db)
    | Some row =>
        if lease_held now row
        then (Raise (ValueError "Flow is already being processed."), db)
        else
          match unsuitable_parent_hunt suitable db row with
          | Some hunt_state =>
              (Raise (ParentHuntIsNotRunningError
                        client_id flow_id
                        (Flow.parent_hunt_id (_FlowObjectFromRow row))
                        hunt_state), db)
          | None =>
              (Ok (_FlowObjectFromRow
                     (set_processing (Some process_id_string) (Some now)
                                     (Some (now + processing_time)) row)),
               set_flows db
                 (update_where
                    (fun f => bool_decide (FlowRow.key f = (client_id, flow_id)))
                    (set_processing (Some process_id_string) (Some now)
                                    (Some (now + processing_time)))
                    (flows db)))
          end
    end.
Proof.
  intros Hwf.
  destruct (find_flow db (client_id, flow_id)) as [row|] eqn:Hf.
  - destruct (lease_held now row) eqn:Hheld;
      [now apply (lease_refused _ _ _ _ _ _ _ row)|].
    destruct (unsuitable_parent_hunt suitable db row) as [hunt_state|] eqn:Hh;
      [now apply (lease_refused_by_hunt _ _ _ _ _ _ _ row)|].
    unfold LeaseFlowForProcessing, WithTransaction,
      LeaseFlowForProcessing_body.
    unfold tx_bind at 1. unfold tx_get at 1.
    rewrite (lease_select db _ row Hwf Hf).
    change (truthy_string (Flow.processing_on (_FlowObjectFromRow row))
            && (now <? read_field (Flow.processing_deadline
                                     (_FlowObjectFromRow row))))
      with (lease_held now row).
    rewrite Hheld. unfold tx_bind at 1.
    rewrite check_parent_hunt_eq, Hh. reflexivity.
  - unfold LeaseFlowForProcessing, WithTransaction,
      LeaseFlowForProcessing_body.
    unfold tx_bind at 1. unfold tx_get at 1.
    now rewrite (select_no_flow db _ Hf).
Qed.

Lemma update_where_id {A} (c : A -> bool) (s : A -> A) (l : list A) :
  (forall x, In x l -> c x = true -> s x = x) -> update_where c s l = l.
Proof.
  intros H. unfold update_where. induction l as [|x l IH]; [reflexivity|].
  simpl. rewrite IH by (intros y Hy; apply H; now right). f_equal.
  destruct (c x) eqn:E; [|reflexivity]. apply H; [now left | exact E].
Qed.

(** The outcomes of ReleaseProcessedFlow. *)
Lemma ReleaseProcessedFlow_eq (db_now : Z) (flow_obj : Flow.t) (db : Db) :
  db_wf db ->
  let k := (Flow.client_id flow_obj, Flow.flow_id flow_obj) in
  ReleaseProcessedFlow db_now flow_obj db
  = match find_flow db k with
    | None => (Ok false, db)
    | Some f =>
        if release_blocked db_now flow_obj db
           || bool_decide (release_set db_now flow_obj f = f)
        then (Ok false, db)
        else (Ok true,
              set_flows db
                (update_where (fun x => bool_decide (FlowRow.key x = k))
                              (release_set db_now flow_obj) (flows db)))
    end.
Proof.
  intros Hwf k.
  unfold ReleaseProcessedFlow, WithTransaction, ReleaseProcessedFlow_body,
    tx_bind, tx_get, tx_modify, tx_ret.
  unfold rows_changed.
  rewrite (update_where_ext_in _ _ _ _
             (fun x _ => release_condition_eq db_now flow_obj db x)).
  rewrite (filter_ext _ _
             (fun x => f_equal (fun b => b && _)
                         (release_condition_eq db_now flow_obj db x))).
  fold k.
  destruct (find_flow db k) as [f|] eqn:Hf.
  - apply find_flow_Some in Hf as Hf'. destruct Hf' as [Hin Hk].
    assert (Hsame : forall x, In x (flows db) -> FlowRow.key x = k -> x = f).
    { intros x Hx Hkx.
      pose proof (find_flow_In db x (wf_flows_pk db Hwf) Hx) as Hfx.
      rewrite Hkx, Hf in Hfx. congruence. }
    destruct (release_blocked db_now flow_obj db); simpl.
    + rewrite update_where_false by (intros x _; apply andb_false_r).
      rewrite filter_false by (intros x _; now rewrite andb_false_r).
      simpl. now rewrite set_flows_same.
    + destruct (decide (release_set db_now flow_obj f = f)) as [E|E].
      * rewrite (bool_decide_eq_true_2 _ E).
        rewrite update_where_id.
        -- rewrite filter_false; [simpl; now rewrite set_flows_same|].
           intros x Hx. destruct (bool_decide (FlowRow.key x = k)) eqn:Hkx;
             [|reflexivity].
           apply bool_decide_eq_true in Hkx. rewrite (Hsame x Hx Hkx).
           now rewrite (bool_decide_eq_true_2 _ E).
        -- intros x Hx Hc. apply andb_prop in Hc as [Hkx _].
           apply bool_decide_eq_true in Hkx. now rewrite (Hsame x Hx Hkx).
      * rewrite (bool_decide_eq_false_2 _ E).
        rewrite (filter_unique FlowRow.key _ _ f (wf_flows_pk db Hwf) Hin).
        -- simpl. f_equal. f_equal. apply update_where_ext_in.
           intros x _. apply andb_true_r.
        -- rewrite andb_true_r, (bool_decide_eq_true_2 _ Hk).
           now rewrite bool_decide_eq_false_2.
        -- intros y _ Hy. apply andb_prop in Hy as [Hy _].
           apply andb_prop in Hy as [Hy _]. apply bool_decide_eq_true in Hy.
           congruence.
  - assert (Hno : forall x, In x (flows db) ->
                            bool_decide (FlowRow.key x = k) = false)
      by (intros x Hx; exact (find_none _ _ Hf x Hx)).
    rewrite update_where_false by (intros x Hx; now rewrite (Hno x Hx)).
    rewrite filter_false by (intros x Hx; now rewrite (Hno x Hx)).
    simpl. now rewrite set_flows_same.
Qed.

Lemma update_flows_wf (c : FlowRow.t -> bool) (s : FlowRow.t -> FlowRow.t)
    (db : Db) :
  (forall x, FlowRow.key (s x) = FlowRow.key x) ->
  db_wf db -> db_wf (set_flows db (update_where c s (flows db))).
Proof.
  intros Hs [H1 H2 H3 H4 H5].
  assert (Hkeys : map FlowRow.key (update_where c s (flows db))
                  = map FlowRow.key (flows db))
    by now apply map_key_update_where.
  split; simpl; try assumption.
  - now rewrite Hkeys.
  - eapply List.Forall_impl; [|exact H4]. intros q Hq.
    unfold known_flow in *; simpl.
    rewrite existsb_key_map in *. now rewrite Hkeys.
Qed.

Lemma find_updated_flow (k : FlowKey) (s : FlowRow.t -> FlowRow.t) (db : Db)
    (row : FlowRow.t) :
  (forall x, FlowRow.key (s x) = FlowRow.key x) ->
  find_flow db k = Some row ->
  find_flow
    (set_flows db
       (update_where (fun f => bool_decide (FlowRow.key f = k)) s (flows db)))
    k = Some (s row).
Proof.
  intros Hs Hf. unfold find_flow; simpl.
  rewrite (find_update_where FlowRow.key) by exact Hs.
  unfold find_flow in Hf. rewrite Hf. simpl.
  apply find_some in Hf as [_ Hk]. now rewrite Hk.
Qed.

(** X14.  A flow that is not stored: ReadFlowObject and
    LeaseFlowForProcessing raise UnknownFlowError for it, and
    ReleaseProcessedFlow returns False; the three leave the database as it
    is. *)
Theorem unknown_flow_is_reported (suitable : Z -> bool) (now db_now : Z)
    (process_id_string : string) (processing_time : Z) (flow_obj : Flow.t)
    (db : Db) :
  known_flow db (Flow.client_id flow_obj, Flow.flow_id flow_obj) = false ->
  ReadFlowObject (Flow.client_id flow_obj) (Flow.flow_id flow_obj) db
  = (Raise (UnknownFlowError (Flow.client_id flow_obj)
                             (Flow.flow_id flow_obj)), db)
  /\ LeaseFlowForProcessing suitable now process_id_string
       (Flow.client_id flow_obj) (Flow.flow_id flow_obj) processing_time db
     = (Raise (UnknownFlowError (Flow.client_id flow_obj)
                                (Flow.flow_id flow_obj)), db)
  /\ ReleaseProcessedFlow db_now flow_obj db = (Ok false, db).
Proof.
  intros Hk. apply known_flow_None in Hk.
  pose proof (select_no_flow db _ Hk) as Hsel.
  split; [|split].
  - unfold ReadFlowObject, WithTransaction, ReadFlowObject_body, tx_bind,
      tx_get. now rewrite Hsel.
  - unfold LeaseFlowForProcessing, WithTransaction,
      LeaseFlowForProcessing_body.
    unfold tx_bind at 1. unfold tx_get at 1. now rewrite Hsel.
  - unfold ReleaseProcessedFlow, WithTransaction, ReleaseProcessedFlow_body,
      tx_bind, tx_get, tx_modify, tx_ret, rows_changed.
    assert (Hno : forall x, In x (flows db) ->
                            release_condition db_now flow_obj db x = false).
    { intros x Hx. rewrite release_condition_eq.
      now rewrite (find_none _ _ Hk x Hx). }
    rewrite update_where_false by exact Hno.
    rewrite filter_false by (intros x Hx; now rewrite (Hno x Hx)).
    simpl. now rewrite set_flows_same.
Qed.

(** X15.  The flow object that LeaseFlowForProcessing returns is the flow
    as it is stored after the call: ReadFlowObject reads the same object,
    with the caller's process id in processing_on, the time of the call in
    processing_since and that time plus the processing time in
    processing_deadline. *)
Theorem LeaseFlowForProcessing_read_back (suitable : Z -> bool) (now : Z)
    (process_id_string client_id flow_id : string) (processing_time : Z)
    (db db' : Db) (flow : Flow.t) :
  db_wf db ->
  LeaseFlowForProcessing suitable now process_id_string client_id flow_id
                         processing_time db = (Ok flow, db') ->
  ReadFlowObject client_id flow_id db' = (Ok flow, db')
  /\ Flow.processing_on flow = Some process_id_string
  /\ Flow.processing_since flow = Some now
  /\ Flow.processing_deadline flow = Some (now + processing_time)
  /\ db_wf db'.
Proof.
  intros Hwf Hcall. rewrite (LeaseFlowForProcessing_eq _ _ _ _ _ _ _ Hwf) in Hcall.
  destruct (find_flow db (client_id, flow_id)) as [row|] eqn:Hf;
    [|discriminate].
  destruct (lease_held now row); [discriminate|].
  destruct (unsuitable_parent_hunt suitable db row); [discriminate|].
  injection Hcall as <- <-.
  assert (Hwf' : db_wf
                   (set_flows db
                      (update_where
                         (fun f => bool_decide
                                     (FlowRow.key f = (client_id, flow_id)))
                         (set_processing (Some process_id_string) (Some now)
                                         (Some (now + processing_time)))
                         (flows db))))
    by now apply update_flows_wf.
  split; [|split; [reflexivity|split; [reflexivity|split;
                                          [reflexivity|exact Hwf']]]].
  rewrite ReadFlowObject_eq by apply Hwf'.
  now rewrite (find_updated_flow _ _ _ row) by (reflexivity || exact Hf).
Qed.

(** X16.  ReleaseProcessedFlow raises nothing and tells whether it changed
    the flow: it returns False with the database as it was (the flow is
    not stored, a request keeps it from being released, or its row holds
    the released flow already), or True with the row of the flow replaced
    by the released one, on which no lease is held at any time. *)
Theorem ReleaseProcessedFlow_true_iff_changed (db_now : Z) (flow_obj : Flow.t)
    (db : Db) :
  db_wf db ->
  let k := (Flow.client_id flow_obj, Flow.flow_id flow_obj) in
  exists released db',
    ReleaseProcessedFlow db_now flow_obj db = (Ok released, db')
    /\ (released = false -> db' = db)
    /\ (released = true ->
        exists f,
          find_flow db k = Some f
          /\ release_blocked db_now flow_obj db = false
          /\ release_set db_now flow_obj f <> f
          /\ find_flow db' k = Some (release_set db_now flow_obj f)
          /\ (forall now, lease_held now (release_set db_now flow_obj f)
                          = false)
          /\ (forall k', k' <> k -> find_flow db' k' = find_flow db k')
          /\ db_wf db').
Proof.
  intros Hwf k. rewrite (ReleaseProcessedFlow_eq _ _ _ Hwf). fold k.
  destruct (find_flow db k) as [f|] eqn:Hf.
  - destruct (release_blocked db_now flow_obj db) eqn:Hb; simpl.
    { eexists _, _. split; [reflexivity|]. split; [reflexivity|discriminate]. }
    destruct (decide (release_set db_now flow_obj f = f)) as [E|E].
    { rewrite (bool_decide_eq_true_2 _ E).
      eexists _, _. split; [reflexivity|]. split; [reflexivity|discriminate]. }
    rewrite (bool_decide_eq_false_2 _ E).
    eexists _, _. split; [reflexivity|]. split; [discriminate|]. intros _.
    exists f. split; [reflexivity|]. split; [reflexivity|].
    split; [exact E|].
    split; [|split; [reflexivity|split]].
    + now apply find_updated_flow.
    + intros k' Hk'. unfold find_flow; simpl.
      apply (find_update_where_other FlowRow.key); [reflexivity|].
      intros x Hx. apply bool_decide_eq_true in Hx. congruence.
    + now apply update_flows_wf.
  - eexists _, _. split; [reflexivity|]. split; [reflexivity|discriminate].
Qed.

(** X17.  A release frees the lease: after LeaseFlowForProcessing has
    leased a flow to a worker, a second worker is refused while the lease
    runs; once ReleaseProcessedFlow has returned True for the flow, the
    second worker's LeaseFlowForProcessing is no longer refused as
    already being processed, at no time, and it leases the flow unless
    the parent hunt of the released flow keeps it from that. *)
Theorem ReleaseProcessedFlow_frees_the_lease (suitable : Z -> bool)
    (now db_now now' : Z) (worker worker' client_id flow_id : string)
    (processing_time processing_time' : Z) (db db1 db2 : Db)
    (flow flow_obj : Flow.t) :
  db_wf db ->
  worker <> EmptyString ->
  now' < now + processing_time ->
  Flow.client_id flow_obj = client_id ->
  Flow.flow_id flow_obj = flow_id ->
  LeaseFlowForProcessing suitable now worker client_id flow_id
                         processing_time db = (Ok flow, db1) ->
  ReleaseProcessedFlow db_now flow_obj db1 = (Ok true, db2) ->
  LeaseFlowForProcessing suitable now' worker' client_id flow_id
                         processing_time' db1
  = (Raise (ValueError "Flow is already being processed."), db1)
  /\ exists row,
       find_flow db2 (client_id, flow_id) = Some row
       /\ match unsuitable_parent_hunt suitable db2 row with
          | Some hunt_state =>
              LeaseFlowForProcessing suitable now' worker' client_id flow_id
                                     processing_time' db2
              = (Raise (ParentHuntIsNotRunningError
                          client_id flow_id
                          (Flow.parent_hunt_id (_FlowObjectFromRow row))
                          hunt_state), db2)
          | None =>
              exists flow' db3,
                LeaseFlowForProcessing suitable now' worker' client_id flow_id
                                       processing_time' db2
                = (Ok flow', db3)
                /\ Flow.processing_on flow' = Some worker'
          end.
Proof.
  intros Hwf Hworker Hnow Hc Hf Hlease Hrelease.
  rewrite (LeaseFlowForProcessing_eq _ _ _ _ _ _ _ Hwf) in Hlease.
  destruct (find_flow db (client_id, flow_id)) as [row|] eqn:Hrow;
    [|discriminate].
  destruct (lease_held now row); [discriminate|].
  destruct (unsuitable_parent_hunt suitable db row); [discriminate|].
  injection Hlease as _ <-.
  set (leased := set_processing (Some worker) (Some now)
                                (Some (now + processing_time))) in *.
  set (db1 := set_flows db _) in *.
  assert (Hwf1 : db_wf db1) by now apply update_flows_wf.
  assert (Hrow1 : find_flow db1 (client_id, flow_id) = Some (leased row))
    by now apply find_updated_flow.
  split.
  - rewrite (LeaseFlowForProcessing_eq _ _ _ _ _ _ _ Hwf1), Hrow1.
    assert (Hheld : lease_held now' (leased row) = true).
    { unfold lease_held, leased; simpl.
      rewrite (bool_decide_eq_false_2 _ Hworker). simpl.
      now apply Z.ltb_lt. }
    now rewrite Hheld.
  - rewrite (ReleaseProcessedFlow_eq _ _ _ Hwf1), Hc, Hf, Hrow1 in Hrelease.
    destruct (release_blocked db_now flow_obj db1
              || bool_decide (release_set db_now flow_obj (leased row)
                              = leased row)); [discriminate|].
    injection Hrelease as <-.
    set (db2 := set_flows db1 _).
    assert (Hwf2 : db_wf db2) by now apply update_flows_wf.
    assert (Hrow2 : find_flow db2 (client_id, flow_id)
                    = Some (release_set db_now flow_obj (leased row)))
      by now apply find_updated_flow.
    exists (release_set db_now flow_obj (leased row)). split; [exact Hrow2|].
    rewrite (LeaseFlowForProcessing_eq _ _ _ _ _ _ _ Hwf2), Hrow2.
    change (lease_held now' (release_set db_now flow_obj (leased row)))
      with false.
    destruct (unsuitable_parent_hunt suitable db2 _); [reflexivity|].
    eexists _, _. split; reflexivity.
Qed.

(** ** WriteFlowObject *)

Lemma find_flow_unique (db : Db) (f : FlowRow.t) :
  NoDup (map FlowRow.key (flows db)) -> In f (flows db) ->
  find_flow db (FlowRow.key f) = Some f.
Proof. apply find_flow_In. Qed.

Lemma find_app_one {A} (p : A -> bool) (l : list A) (x : A) :
  List.find p (l ++ [x])
  = match List.find p l with
    | Some y => Some y
    | None => if p x then Some x else None
    end.
Proof.
  induction l as [|y l IH]; simpl; [reflexivity|]. now destruct (p y).
Qed.

Lemma nonempty_default (s : string) : default s (nonempty s) = s.
Proof. unfold nonempty. now destruct (bool_decide _). Qed.

(** X18.  WriteFlowObject for a flow that is not stored.  When the client
    is known the flow is stored, and ReadFlowObject reads it back with the
    ids, names, state, next_request_to_process, counters and data it was
    written with, the time of the write as last_update_time (and as
    create_time when the object had none), and without processing_on,
    processing_since and processing_deadline, whatever the object held
    there; no other flow is touched.  When the client is not known the
    call raises UnknownClientError and stores nothing. *)
Theorem WriteFlowObject_new_flow (clients : gset string) (db_now : Z)
    (flow_obj : Flow.t) (allow_update : bool) (db : Db) :
  db_wf db ->
  known_flow db (Flow.client_id flow_obj, Flow.flow_id flow_obj) = false ->
  (Flow.client_id flow_obj ∈ clients ->
    exists db' flow,
      WriteFlowObject clients db_now flow_obj allow_update db = (Written, db')
      /\ db_wf db'
      /\ ReadFlowObject (Flow.client_id flow_obj) (Flow.flow_id flow_obj) db'
         = (Ok flow, db')
      /\ Flow.client_id flow = Flow.client_id flow_obj
      /\ Flow.flow_id flow = Flow.flow_id flow_obj
      /\ Flow.long_flow_id flow = Flow.long_flow_id flow_obj
      /\ Flow.parent_flow_id flow = Flow.parent_flow_id flow_obj
      /\ Flow.parent_hunt_id flow = Flow.parent_hunt_id flow_obj
      /\ Flow.flow_class_name flow = Flow.flow_class_name flow_obj
      /\ Flow.creator flow = Flow.creator flow_obj
      /\ Flow.flow_state flow = Flow.flow_state flow_obj
      /\ Flow.next_request_to_process flow
         = Flow.next_request_to_process flow_obj
      /\ Flow.network_bytes_sent flow = Flow.network_bytes_sent flow_obj
      /\ Flow.num_replies_sent flow = Flow.num_replies_sent flow_obj
      /\ Flow.persistent_data flow = Flow.persistent_data flow_obj
      /\ Flow.create_time flow
         = Some (default db_now (Flow.create_time flow_obj))
      /\ Flow.last_update_time flow = db_now
      /\ Flow.processing_on flow = None
      /\ Flow.processing_since flow = None
      /\ Flow.processing_deadline flow = None
      /\ (forall k, k <> (Flow.client_id flow_obj, Flow.flow_id flow_obj) ->
            find_flow db' k = find_flow db k)
      /\ flow_requests db' = flow_requests db)
  /\ (Flow.client_id flow_obj ∉ clients ->
      WriteFlowObject clients db_now flow_obj allow_update db
      = (NotWritten (UnknownClientError (Flow.client_id flow_obj)), db)).
Proof.
  intros Hwf Hnew. unfold WriteFlowObject.
  change (FlowRow.key (flow_row db_now flow_obj))
    with (Flow.client_id flow_obj, Flow.flow_id flow_obj).
  rewrite Hnew. split; intros Hclient;
    [rewrite (bool_decide_eq_true_2 _ Hclient)
    |now rewrite (bool_decide_eq_false_2 _ Hclient)].
  set (k := (Flow.client_id flow_obj, Flow.flow_id flow_obj)) in *.
  set (values := flow_row db_now flow_obj).
  set (db' := set_flows db (flows db ++ [values])).
  assert (Hnd : NoDup (map FlowRow.key (flows db'))).
  { unfold db'; simpl. rewrite map_app. apply NoDup_app.
    split; [apply Hwf|]. split; [|apply NoDup_singleton].
    intros k' Hk' Hk''. apply list_elem_of_singleton in Hk''. subst k'.
    unfold known_flow in Hnew. rewrite existsb_key_map in Hnew.
    now apply bool_decide_eq_false in Hnew. }
  assert (Hfind : find_flow db' k = Some values).
  { apply (find_flow_unique db' values Hnd). unfold db'; simpl.
    apply in_or_app. right. now left. }
  exists db', (_FlowObjectFromRow values).
  split; [reflexivity|]. split; [|split].
  - destruct Hwf as [H1 H2 H3 H4 H5]. split; try assumption.
    eapply List.Forall_impl; [|exact H4]. intros q Hq.
    unfold known_flow in *; simpl. now rewrite existsb_app, Hq.
  - rewrite ReadFlowObject_eq by exact Hnd. fold k. now rewrite Hfind.
  - unfold _FlowObjectFromRow, values; simpl.
    rewrite !nonempty_default.
    repeat (split; [reflexivity|]).
    split; [now destruct (Flow.flow_state flow_obj)|].
    split; [now destruct (Z.eqb_spec (Flow.next_request_to_process flow_obj) 0)|].
    split; [reflexivity|].
    split; [now destruct (Z.eqb_spec (Flow.num_replies_sent flow_obj) 0)|].
    split; [reflexivity|].
    split; [now destruct (Flow.create_time flow_obj)|].
    repeat (split; [reflexivity|]).
    split; [|reflexivity].
    intros k' Hk'. unfold find_flow; simpl. rewrite find_app_one.
    destruct (List.find _ (flows db)); [reflexivity|].
    rewrite bool_decide_eq_false_2; [reflexivity|]. intros E. now apply Hk'.
Qed.

(** X19.  WriteFlowObject for a flow that is stored.  With allow_update
    the row of the flow gets the new flow object, flow_state,
    next_request_to_process and last_update, and keeps every other
    column: what ReadFlowObject then reads has the data of the new object
    but the lease (processing_on, processing_since, processing_deadline),
    the cpu time and the network bytes of the stored row, not those of
    the object.  Without allow_update the call raises FlowExistsError and
    changes nothing. *)
Theorem WriteFlowObject_stored_flow (clients : gset string) (db_now : Z)
    (flow_obj : Flow.t) (db : Db) (row : FlowRow.t) :
  db_wf db ->
  find_flow db (Flow.client_id flow_obj, Flow.flow_id flow_obj) = Some row ->
  (exists db' flow,
      WriteFlowObject clients db_now flow_obj true db = (Written, db')
      /\ db_wf db'
      /\ find_flow db' (Flow.client_id flow_obj, Flow.flow_id flow_obj)
         = Some (on_duplicate_key_update (flow_row db_now flow_obj) row)
      /\ ReadFlowObject (Flow.client_id flow_obj) (Flow.flow_id flow_obj) db'
         = (Ok flow, db')
      /\ Flow.persistent_data flow = Flow.persistent_data flow_obj
      /\ Flow.last_update_time flow = db_now
      /\ Flow.processing_on flow = FlowRow.processing_on row
      /\ Flow.processing_since flow = FlowRow.processing_since row
      /\ Flow.processing_deadline flow = FlowRow.processing_deadline row
      /\ Flow.user_cpu_time flow = FlowRow.user_cpu_time_used_micros row
      /\ Flow.system_cpu_time flow = FlowRow.system_cpu_time_used_micros row
      /\ Flow.network_bytes_sent flow = FlowRow.network_bytes_sent row
      /\ (forall k, k <> (Flow.client_id flow_obj, Flow.flow_id flow_obj) ->
            find_flow db' k = find_flow db k)
      /\ flow_requests db' = flow_requests db)
  /\ WriteFlowObject clients db_now flow_obj false db
     = (NotWritten (FlowExistsError (Flow.client_id flow_obj)
                                    (Flow.flow_id flow_obj)), db).
Proof.
  intros Hwf Hrow.
  assert (Hknown : known_flow db (Flow.client_id flow_obj,
                                  Flow.flow_id flow_obj) = true).
  { destruct (known_flow db _) eqn:E; [reflexivity|].
    apply known_flow_None in E. congruence. }
  unfold WriteFlowObject.
  change (FlowRow.key (flow_row db_now flow_obj))
    with (Flow.client_id flow_obj, Flow.flow_id flow_obj).
  rewrite Hknown. split; [|reflexivity].
  set (k := (Flow.client_id flow_obj, Flow.flow_id flow_obj)) in *.
  set (values := flow_row db_now flow_obj).
  set (db' := set_flows db _).
  assert (Hwf' : db_wf db') by now apply update_flows_wf.
  assert (Hfind : find_flow db' k = Some (on_duplicate_key_update values row))
    by now apply find_updated_flow.
  exists db', (_FlowObjectFromRow (on_duplicate_key_update values row)).
  split; [reflexivity|]. split; [exact Hwf'|]. split; [exact Hfind|].
  split.
  { rewrite ReadFlowObject_eq by apply Hwf'. fold k. now rewrite Hfind. }
  repeat (split; [reflexivity|]). split; [|reflexivity].
  intros k' Hk'. unfold find_flow, db'; simpl.
  apply (find_update_where_other FlowRow.key); [reflexivity|].
  intros x Hx. apply bool_decide_eq_true in Hx. congruence.
Qed.

(** ** The queues: more on leasing and deleting *)

(** X20.  With fewer due requests than the limit,
    _LeaseFlowProcessingRequests leases all the flow processing requests
    that are due (no delivery_time or one that has come, and no lease or
    one that has run out) until 10 minutes after the call, returns them
    with the timestamps of their rows as creation_time, and leaves the
    other rows as they are; a request whose delivery_time is still to come
    is among those. *)
Theorem _LeaseFlowProcessingRequests_leases_what_is_due (now db_now : Z)
    (id_str : string) (limit : Z) (db : Db) :
  Z.of_nat (length (List.filter (fpr_leasable db_now)
                                (flow_processing_requests db))) < limit ->
  db_now <= now + FPR_LEASE_WINDOW ->
  Forall (fun x => fpr_leased_with id_str (now + FPR_LEASE_WINDOW) x = false)
         (flow_processing_requests db) ->
  exists db',
    _LeaseFlowProcessingRequests now db_now id_str limit db
    = (Ok (map fpr_of_row
               (List.filter (fpr_leasable db_now)
                            (flow_processing_requests db))), db')
    /\ flow_processing_requests db'
       = map (fun x => if fpr_leasable db_now x
                       then set_fpr_lease (now + FPR_LEASE_WINDOW) id_str x
                       else x)
             (flow_processing_requests db)
    /\ (forall x delivery_time,
          FprRow.delivery_time x = Some delivery_time ->
          db_now < delivery_time -> fpr_leasable db_now x = false)
    /\ (forall x leased_until,
          FprRow.leased_until x = Some leased_until ->
          db_now <= leased_until -> fpr_leasable db_now x = false).
Proof.
  intros Hl Hc Hf. eexists. split.
  { exact (_LeaseFlowProcessingRequests_all now db_now id_str limit db
             Hl Hc Hf). }
  split; [reflexivity|split].
  - intros x d Hd Hlt. unfold fpr_leasable. rewrite Hd.
    now rewrite (proj2 (Z.leb_gt d db_now)) by lia.
  - intros x u Hu Hle. unfold fpr_leasable. rewrite Hu.
    rewrite (proj2 (Z.ltb_ge u db_now)) by lia. apply andb_false_r.
Qed.

(** X21.  A lease that runs is respected: a flow processing request that
    another worker has leased until a time that has not passed is not
    due, keeps its lease through a call of _LeaseFlowProcessingRequests
    and is not among the rows the call returns, all of which are stored
    with the id of the call in leased_by. *)
Theorem running_lease_is_respected (now db_now : Z) (id_str : string)
    (limit : Z) (db db' : Db) (res : list FlowProcessingRequest.t)
    (x : FprRow.t) (leased_until : Z) :
  In x (flow_processing_requests db) ->
  FprRow.leased_until x = Some leased_until ->
  db_now <= leased_until ->
  FprRow.leased_by x <> Some id_str ->
  _LeaseFlowProcessingRequests now db_now id_str limit db = (Ok res, db') ->
  In x (flow_processing_requests db')
  /\ exists rows,
       res = map fpr_of_row rows
       /\ ~ In x rows
       /\ Forall (fun y => In y (flow_processing_requests db')
                           /\ FprRow.leased_by y = Some id_str) rows.
Proof.
  intros Hin Hu Hle Hby Hcall.
  exact (proj2 (_LeaseFlowProcessingRequests_spares now db_now id_str limit
                  db db' res x leased_until Hin Hu Hle Hby Hcall)).
Qed.

Lemma mhr_lease_changes (now expiry : Z) (id_str : string) (x : MhrRow.t) :
  now <= expiry ->
  mhr_leasable now x = true ->
  set_mhr_lease expiry id_str x <> x.
Proof.
  intros Hle Hx E. unfold mhr_leasable in Hx.
  assert (Hl : MhrRow.leased_until x = Some expiry) by now rewrite <- E.
  rewrite Hl in Hx. apply Z.ltb_lt in Hx. lia.
Qed.

(** X22.  _LeaseMessageHandlerRequests, when no stored request carries
    the lease the call is about to write (the process id of the caller
    together with the expiry now + lease_time) and fewer requests are free
    than the limit: the call leases all the message handler requests that
    have no lease or one that has run out, until now + lease_time, and
    returns exactly these, with the lease and the timestamps of their
    rows. *)
Theorem _LeaseMessageHandlerRequests_leases_what_is_free (now : Z)
    (id_str : string) (lease_time limit : Z) (db : Db) :
  Z.of_nat (length (List.filter (mhr_leasable now)
                                (message_handler_requests db))) < limit ->
  0 <= lease_time ->
  Forall (fun x => mhr_leased_with id_str (now + lease_time) x = false)
         (message_handler_requests db) ->
  _LeaseMessageHandlerRequests now id_str lease_time limit db
  = (Ok (map (mhr_of_row id_str (now + lease_time))
             (List.filter (mhr_leasable now) (message_handler_requests db))),
     set_message_handler_requests db
       (update_where (mhr_leasable now)
                     (set_mhr_lease (now + lease_time) id_str)
                     (message_handler_requests db))).
Proof.
  intros Hlimit Htime Hfresh.
  set (expiry := now + lease_time) in *.
  set (free := List.filter (mhr_leasable now) (message_handler_requests db))
    in *.
  assert (Hn : (length free <= Z.to_nat limit)%nat) by lia.
  unfold _LeaseMessageHandlerRequests, WithTransaction,
    _LeaseMessageHandlerRequests_body.
  fold expiry. rewrite (proj2 (Z.ltb_ge limit 0)) by lia.
  unfold tx_bind at 1. unfold tx_get at 1.
  unfold tx_bind at 1. unfold tx_modify at 1.
  rewrite (rows_changed_limit_all _ _ _ _ Hn)
    by (intros x _ Hx; apply (mhr_lease_changes now); [lia | exact Hx]).
  rewrite (update_limit_all _ _ _ _ Hn). fold free.
  destruct (Z.of_nat (length free) =? 0) eqn:Hzero.
  - apply Z.eqb_eq in Hzero. destruct free; [reflexivity|].
    simpl length in Hzero. lia.
  - unfold tx_bind, tx_get, tx_ret. simpl message_handler_requests.
    unfold select_limit. rewrite filter_update_where.
    + fold free.
      rewrite Nat2Z.id, <- (length_map (set_mhr_lease expiry id_str)),
        firstn_all, map_map. reflexivity.
    + intros x _ _. unfold mhr_leased_with. simpl.
      now rewrite !bool_decide_eq_true_2.
    + intros x Hx _. exact (proj1 (List.Forall_forall _ _) Hfresh x Hx).
Qed.

(** X23.  DeleteMessageHandlerRequests deletes by request_id alone: every
    stored message handler request with the request_id of one of the
    given requests is deleted, whatever its handler name, and the other
    rows and tables stay as they are. *)
Theorem DeleteMessageHandlerRequests_by_request_id
    (requests : list MessageHandlerRequest.t) (db : Db) :
  requests <> [] ->
  exists db',
    DeleteMessageHandlerRequests requests db = (Ok tt, db')
    /\ message_handler_requests db'
       = List.filter
           (fun x => negb (existsb (fun r => MhrRow.request_id x
                                             =? MessageHandlerRequest.request_id r)
                                   requests))
           (message_handler_requests db)
    /\ flows db' = flows db
    /\ flow_requests db' = flow_requests db
    /\ flow_responses db' = flow_responses db
    /\ flow_processing_requests db' = flow_processing_requests db
    /\ hunts db' = hunts db.
Proof.
  intros Hne.
  unfold DeleteMessageHandlerRequests, WithTransaction,
    DeleteMessageHandlerRequests_body.
  rewrite bool_decide_eq_false_2.
  2:{ destruct requests as [|r requests]; [contradiction|].
      simpl. intros E.
      assert (H : MessageHandlerRequest.request_id r ∈ (∅ : gset Z))
        by (rewrite <- E; set_solver).
      set_solver. }
  eexists. split; [reflexivity|]. split; [|now repeat split].
  simpl. unfold delete_where. apply filter_ext. intros x. f_equal.
  destruct (existsb _ requests) eqn:E.
  - apply bool_decide_eq_true_2. apply existsb_exists in E as (r & Hr & E).
    apply Z.eqb_eq in E. rewrite E. apply elem_of_list_to_set.
    apply list_elem_of_In. now apply in_map.
  - apply bool_decide_eq_false_2. intros Hin.
    apply elem_of_list_to_set, list_elem_of_In, in_map_iff in Hin
      as (r & Hr & Hin).
    assert (existsb (fun r => MhrRow.request_id x
                              =? MessageHandlerRequest.request_id r)
                    requests = true); [|congruence].
    apply existsb_exists. exists r. split; [exact Hin|].
    apply Z.eqb_eq. congruence.
Qed.

(** ** The properties above, on the examples *)

Lemma example_db_consistent : db_consistent example_db.
Proof. split; [exact example_db_wf | constructor]. Qed.

Lemma example_incremental_db_wf : db_wf example_incremental_db.
Proof.
  split; simpl.
  - apply NoDup_singleton.
  - apply NoDup_singleton.
  - apply NoDup_nil_2.
  - repeat constructor.
  - repeat constructor.
Qed.

Lemma example_lease_wf : db_wf example_lease.2.
Proof.
  split.
  - vm_compute. apply NoDup_singleton.
  - vm_compute. apply NoDup_singleton.
  - vm_compute. apply NoDup_nil_2.
  - vm_compute. repeat constructor.
  - vm_compute. repeat constructor.
Qed.

(** A response of a request that is not stored and one of the stored
    request, in one call. *)
Lemma WriteFlowResponses_skips_unknown_requests_witness :
  let call :=
    WriteFlowResponses 50 2000 [example_stray_response; example_response]
                       example_db in
  call.1 = Ok tt
  /\ responses_of call.2 (msg_request_key example_stray_response) = []
  /\ length (copies_of call.2 (msg_key example_response)) = 1%nat.
Proof.
  intros call.
  destruct (WriteFlowResponses_skips_unknown_requests 50%nat 2000
              [example_stray_response; example_response] example_db
              example_db_wf) as (_ & Hunknown & Hknown).
  fold call in Hunknown, Hknown.
  split; [vm_compute; reflexivity|]. split.
  - now rewrite Hunknown by reflexivity.
  - apply Hknown; [vm_compute; reflexivity | right; now left | reflexivity].
Defined.

Lemma WriteFlowResponses_only_appends_witness :
  let db' :=
    (WriteFlowResponses 50 2000 [example_response; example_status]
                        example_db).2 in
  flows db' = flows example_db
  /\ hunts db' = hunts example_db
  /\ message_handler_requests db' = message_handler_requests example_db
  /\ map request_fixed (flow_requests db')
     = map request_fixed (flow_requests example_db)
  /\ (exists new, flow_responses db' = flow_responses example_db ++ new)
  /\ (exists new,
        flow_processing_requests db'
        = flow_processing_requests example_db ++ new).
Proof.
  apply (WriteFlowResponses_only_appends 50%nat 2000
           [example_response; example_status] example_db).
  exact example_db_wf.
Defined.

(** A batch with a response for the incremental request and one for a
    request that is not stored. *)
Lemma incremental_request_is_scheduled_by_every_response_witness :
  let responses := [example_stray_response; example_response] in
  let q := request_row example_incremental_request in
  exists db',
    WriteFlowResponses 50 2000 responses example_incremental_db = (Ok tt, db')
    /\ fprs_of db' (RequestRow.flow_key q)
       = fprs_of example_incremental_db (RequestRow.flow_key q)
         ++ [fpr_row 2000 (fpr_of_request (RequestRow.request q))]
    /\ find_request db' (RequestRow.key q)
       = Some (let q1 := stamped (RequestRow.key q) responses q in
               if bool_decide
                    (RequestRow.responses_expected q1
                     = Some (count_responses db' (RequestRow.key q)))
               then set_needs_processing q1 else q1).
Proof.
  intros responses q.
  apply (incremental_request_is_scheduled_by_every_response 50%nat 2000
           responses example_incremental_db q).
  - exact example_incremental_db_wf.
  - reflexivity.
  - reflexivity.
  - reflexivity.
  - reflexivity.
  - discriminate.
  - reflexivity.
  - intros r _. constructor.
Defined.

(** A batch with a request that triggers a flow processing request and a
    request for a flow that is not stored. *)
Lemma WriteFlowRequests_rejects_the_whole_batch_witness :
  let requests := [example_delayed_trigger; example_foreign_request] in
  length (request_fprs 2000 requests example_db) = 1%nat
  /\ WriteFlowRequests 2000 requests example_db
     = (Raise (AtLeastOneUnknownFlowError (map flow_key_of requests)),
        example_db).
Proof.
  intros requests. split; [reflexivity|].
  apply (WriteFlowRequests_rejects_the_whole_batch 2000 requests example_db).
  - exact example_db_wf.
  - apply Exists_cons_tl, Exists_cons_hd. left. reflexivity.
  - apply one_trigger_check. vm_compute. reflexivity.
  - intros r _. constructor.
Defined.

Lemma WriteFlowRequests_then_DeleteFlowRequests_witness :
  let requests := [example_delayed_trigger; example_early_trigger] in
  let call := WriteFlowRequests 2000 requests example_db in
  call.1 = Ok tt
  /\ exists db2,
       (forall r, In r requests ->
          find_request call.2 (request_key_of r) = Some (request_row r)
          /\ responses_expected_of call.2 (request_key_of r) = None)
       /\ DeleteFlowRequests 1 requests call.2 = (Ok tt, db2)
       /\ flow_requests db2 = flow_requests example_db
       /\ flow_responses db2 = flow_responses example_db.
Proof.
  intros requests call. split; [vm_compute; reflexivity|].
  apply (WriteFlowRequests_then_DeleteFlowRequests 2000 1%nat requests
           example_db call.2).
  - exact example_db_wf.
  - constructor.
  - vm_compute. reflexivity.
Defined.

Lemma requests_and_responses_stay_consistent_witness :
  (forall responses,
     db_consistent (WriteFlowResponses 50 2000 responses example_db).2)
  /\ (forall requests,
        db_consistent (WriteFlowRequests 2000 requests example_db).2)
  /\ (forall requests,
        db_consistent (DeleteFlowRequests 50 requests example_db).2)
  /\ (forall client_id flow_id,
        db_consistent
          (DeleteAllFlowRequestsAndResponses client_id flow_id example_db).2)
  /\ (forall client_id flow_id next_response_id_updates,
        db_consistent
          (UpdateIncrementalFlowRequests client_id flow_id
                                         next_response_id_updates example_db).2).
Proof.
  apply (requests_and_responses_stay_consistent 50%nat 50%nat 2000 example_db).
  exact example_db_consistent.
Defined.

Lemma _LeaseFlowProcessingRequests_at_most_limit_witness :
  exists res db',
    _LeaseFlowProcessingRequests 5000 5000 "worker-1@host:4711:17" 1
                                 example_queue_db = (Ok res, db')
    /\ Z.of_nat (length res) <= 1
    /\ map fpr_payload (flow_processing_requests db')
       = map fpr_payload (flow_processing_requests example_queue_db)
    /\ flows db' = flows example_queue_db
    /\ flow_requests db' = flow_requests example_queue_db
    /\ flow_responses db' = flow_responses example_queue_db
    /\ message_handler_requests db' = message_handler_requests example_queue_db
    /\ hunts db' = hunts example_queue_db.
Proof.
  apply (_LeaseFlowProcessingRequests_at_most_limit 5000 5000
           "worker-1@host:4711:17" 1 example_queue_db).
  lia.
Defined.

Lemma unacknowledged_requests_are_leased_again_witness :
  exists res' db2,
    _LeaseFlowProcessingRequests 700000000 700000000 "worker-2@host:4712:99" 10
                                 example_leased_db = (Ok res', db2)
    /\ forall r, In r example_leased_requests -> In r res'.
Proof.
  apply (unacknowledged_requests_are_leased_again 5000 5000
           700000000 700000000 "worker-1@host:4711:17" "worker-2@host:4712:99"
           10 10 example_queue_db example_leased_db example_leased_requests).
  - vm_compute. reflexivity.
  - vm_compute. discriminate.
  - repeat constructor.
  - reflexivity.
  - lia.
  - vm_compute. reflexivity.
  - vm_compute. reflexivity.
  - vm_compute. discriminate.
  - vm_compute. repeat constructor.
Defined.

Lemma AckFlowProcessingRequests_removes_the_requests_witness :
  (exists db',
     AckFlowProcessingRequests example_leased_requests example_leased_db
     = (Ok tt, db')
     /\ (forall x, In x (flow_processing_requests db') ->
           In x (flow_processing_requests example_leased_db)
           /\ ~ In (fpr_of_row x) example_leased_requests)
     /\ (forall x, In x (flow_processing_requests example_leased_db) ->
           Forall (fun r =>
                     (FlowProcessingRequest.client_id r,
                      FlowProcessingRequest.flow_id r) <> FprRow.flow_key x
                     \/ read_field (FlowProcessingRequest.creation_time r)
                        <> FprRow.timestamp x) example_leased_requests ->
           In x (flow_processing_requests db'))
     /\ flows db' = flows example_leased_db
     /\ flow_requests db' = flow_requests example_leased_db
     /\ flow_responses db' = flow_responses example_leased_db)
  /\ (exists all db',
        ReadFlowProcessingRequests example_leased_db
        = (Ok all, example_leased_db)
        /\ AckFlowProcessingRequests all example_leased_db = (Ok tt, db')
        /\ flow_processing_requests db' = []).
Proof.
  apply (AckFlowProcessingRequests_removes_the_requests
           example_leased_requests example_leased_db).
  vm_compute. repeat constructor.
Defined.

(** Two requests written at 4500 to the queue that holds two requests
    written at 4000, one of them of the same flow. *)
Lemma WriteFlowProcessingRequests_read_back_witness :
  let requests := [example_fpr "ABCDEF03"; example_fpr "ABCDEF01"] in
  let call := WriteFlowProcessingRequests 4500 requests example_queue_db in
  call.1 = Ok tt
  /\ exists before after,
       ReadFlowProcessingRequests example_queue_db
       = (Ok before, example_queue_db)
       /\ ReadFlowProcessingRequests call.2 = (Ok after, call.2)
       /\ (forall r,
             In r after
             <-> In r before \/ In r (map (with_creation_time 4500) requests))
       /\ AckFlowProcessingRequests (map (with_creation_time 4500) requests)
                                    call.2
          = (Ok tt, example_queue_db).
Proof.
  intros requests call. split; [vm_compute; reflexivity|].
  apply (WriteFlowProcessingRequests_read_back 4500 requests example_queue_db
           call.2).
  vm_compute. reflexivity.
Defined.

(** The next request of the second flow and a delayed request of the
    same flow, both flagged, in one batch. *)
Lemma WriteFlowRequests_two_triggers_of_a_flow_witness :
  let requests := [example_first_request; example_second_delayed] in
  let fk := ("C.1000000000000001", "ABCDEF02")%string in
  length (List.filter (triggers example_two_flows_db fk) requests) = 2%nat
  /\ WriteFlowRequests 2000 requests example_two_flows_db
     = (Raise IntegrityError, example_two_flows_db).
Proof.
  intros requests fk. split; [reflexivity|].
  apply (WriteFlowRequests_two_triggers_of_a_flow 2000 requests
           example_two_flows_db fk).
  - exact example_two_flows_db_wf.
  - reflexivity.
  - apply Nat.leb_le. vm_compute. reflexivity.
Defined.



Lemma unknown_flow_is_reported_witness :
  ReadFlowObject (Flow.client_id example_flow) (Flow.flow_id example_flow)
                 empty_db
  = (Raise (UnknownFlowError (Flow.client_id example_flow)
                             (Flow.flow_id example_flow)), empty_db)
  /\ LeaseFlowForProcessing example_suitable 5000 "worker-1@host:4711"
       (Flow.client_id example_flow) (Flow.flow_id example_flow) 600 empty_db
     = (Raise (UnknownFlowError (Flow.client_id example_flow)
                                (Flow.flow_id example_flow)), empty_db)
  /\ ReleaseProcessedFlow 6000 example_flow empty_db = (Ok false, empty_db).
Proof.
  apply (unknown_flow_is_reported example_suitable 5000 6000
           "worker-1@host:4711" 600 example_flow empty_db).
  reflexivity.
Defined.

Lemma LeaseFlowForProcessing_read_back_witness :
  ReadFlowObject "C.1000000000000001" "ABCDEF01" example_lease.2
  = (Ok example_leased_flow, example_lease.2)
  /\ Flow.processing_on example_leased_flow = Some "worker-1@host:4711"%string
  /\ Flow.processing_since example_leased_flow = Some 5000
  /\ Flow.processing_deadline example_leased_flow = Some (5000 + 600)
  /\ db_wf example_lease.2.
Proof.
  apply (LeaseFlowForProcessing_read_back example_suitable 5000
           "worker-1@host:4711" "C.1000000000000001" "ABCDEF01" 600
           example_db example_lease.2 example_leased_flow).
  - exact example_db_wf.
  - reflexivity.
Defined.

Lemma ReleaseProcessedFlow_true_iff_changed_witness :
  exists released db',
    ReleaseProcessedFlow 6000 example_flow example_lease.2
    = (Ok released, db')
    /\ (released = false -> db' = example_lease.2)
    /\ (released = true ->
        exists f,
          find_flow example_lease.2
            (Flow.client_id example_flow, Flow.flow_id example_flow) = Some f
          /\ release_blocked 6000 example_flow example_lease.2 = false
          /\ release_set 6000 example_flow f <> f
          /\ find_flow db'
               (Flow.client_id example_flow, Flow.flow_id example_flow)
             = Some (release_set 6000 example_flow f)
          /\ (forall now, lease_held now (release_set 6000 example_flow f)
                          = false)
          /\ (forall k',
                k' <> (Flow.client_id example_flow, Flow.flow_id example_flow) ->
                find_flow db' k' = find_flow example_lease.2 k')
          /\ db_wf db').
Proof.
  apply (ReleaseProcessedFlow_true_iff_changed 6000 example_flow
           example_lease.2).
  exact example_lease_wf.
Defined.

Lemma ReleaseProcessedFlow_frees_the_lease_witness :
  LeaseFlowForProcessing example_suitable 5100 "worker-2@host:4712"
    "C.1000000000000001" "ABCDEF01" 600 example_lease.2
  = (Raise (ValueError "Flow is already being processed."), example_lease.2)
  /\ exists row,
       find_flow example_released_db ("C.1000000000000001", "ABCDEF01")%string
       = Some row
       /\ match unsuitable_parent_hunt example_suitable example_released_db
                row with
          | Some hunt_state =>
              LeaseFlowForProcessing example_suitable 5100 "worker-2@host:4712"
                "C.1000000000000001" "ABCDEF01" 600 example_released_db
              = (Raise (ParentHuntIsNotRunningError
                          "C.1000000000000001" "ABCDEF01"
                          (Flow.parent_hunt_id (_FlowObjectFromRow row))
                          hunt_state), example_released_db)
          | None =>
              exists flow' db3,
                LeaseFlowForProcessing example_suitable 5100
                  "worker-2@host:4712" "C.1000000000000001" "ABCDEF01" 600
                  example_released_db = (Ok flow', db3)
                /\ Flow.processing_on flow' = Some "worker-2@host:4712"%string
          end.
Proof.
  apply (ReleaseProcessedFlow_frees_the_lease example_suitable 5000 6000 5100
           "worker-1@host:4711" "worker-2@host:4712"
           "C.1000000000000001" "ABCDEF01" 600 600
           example_db example_lease.2 example_released_db
           example_leased_flow example_flow).
  - exact example_db_wf.
  - discriminate.
  - lia.
  - reflexivity.
  - reflexivity.
  - reflexivity.
  - reflexivity.
Defined.

Lemma WriteFlowObject_new_flow_witness :
  exists db' flow,
    WriteFlowObject {["C.1000000000000001"%string]} 1000 example_updated_flow
                    false empty_db = (Written, db')
    /\ db_wf db'
    /\ ReadFlowObject (Flow.client_id example_updated_flow)
                      (Flow.flow_id example_updated_flow) db'
       = (Ok flow, db')
    /\ Flow.client_id flow = Flow.client_id example_updated_flow
    /\ Flow.flow_id flow = Flow.flow_id example_updated_flow
    /\ Flow.long_flow_id flow = Flow.long_flow_id example_updated_flow
    /\ Flow.parent_flow_id flow = Flow.parent_flow_id example_updated_flow
    /\ Flow.parent_hunt_id flow = Flow.parent_hunt_id example_updated_flow
    /\ Flow.flow_class_name flow = Flow.flow_class_name example_updated_flow
    /\ Flow.creator flow = Flow.creator example_updated_flow
    /\ Flow.flow_state flow = Flow.flow_state example_updated_flow
    /\ Flow.next_request_to_process flow
       = Flow.next_request_to_process example_updated_flow
    /\ Flow.network_bytes_sent flow
       = Flow.network_bytes_sent example_updated_flow
    /\ Flow.num_replies_sent flow = Flow.num_replies_sent example_updated_flow
    /\ Flow.persistent_data flow = Flow.persistent_data example_updated_flow
    /\ Flow.create_time flow
       = Some (default 1000 (Flow.create_time example_updated_flow))
    /\ Flow.last_update_time flow = 1000
    /\ Flow.processing_on flow = None
    /\ Flow.processing_since flow = None
    /\ Flow.processing_deadline flow = None
    /\ (forall k,
          k <> (Flow.client_id example_updated_flow,
                Flow.flow_id example_updated_flow) ->
          find_flow db' k = find_flow empty_db k)
    /\ flow_requests db' = flow_requests empty_db.
Proof.
  apply (WriteFlowObject_new_flow {["C.1000000000000001"%string]} 1000
           example_updated_flow false empty_db).
  - split; simpl; constructor.
  - reflexivity.
  - now apply elem_of_singleton.
Defined.

Lemma WriteFlowObject_stored_flow_witness :
  (exists db' flow,
    WriteFlowObject ∅ 7000 example_updated_flow true example_lease.2
    = (Written, db')
    /\ db_wf db'
    /\ find_flow db' (Flow.client_id example_updated_flow,
                      Flow.flow_id example_updated_flow)
       = Some (on_duplicate_key_update (flow_row 7000 example_updated_flow)
                 (set_processing (Some "worker-1@host:4711"%string) (Some 5000)
                                 (Some 5600) example_flow_row))
    /\ ReadFlowObject (Flow.client_id example_updated_flow)
                      (Flow.flow_id example_updated_flow) db'
       = (Ok flow, db')
    /\ Flow.persistent_data flow = Flow.persistent_data example_updated_flow
    /\ Flow.last_update_time flow = 7000
    /\ Flow.processing_on flow = Some "worker-1@host:4711"%string
    /\ Flow.processing_since flow = Some 5000
    /\ Flow.processing_deadline flow = Some 5600
    /\ Flow.user_cpu_time flow = 0
    /\ Flow.system_cpu_time flow = 0
    /\ Flow.network_bytes_sent flow = 0
    /\ (forall k,
          k <> (Flow.client_id example_updated_flow,
                Flow.flow_id example_updated_flow) ->
          find_flow db' k = find_flow example_lease.2 k)
    /\ flow_requests db' = flow_requests example_lease.2)
  /\ WriteFlowObject ∅ 7000 example_updated_flow false example_lease.2
     = (NotWritten (FlowExistsError (Flow.client_id example_updated_flow)
                                    (Flow.flow_id example_updated_flow)),
        example_lease.2).
Proof.
  apply (WriteFlowObject_stored_flow ∅ 7000 example_updated_flow
           example_lease.2
           (set_processing (Some "worker-1@host:4711"%string) (Some 5000)
                           (Some 5600) example_flow_row)).
  - exact example_lease_wf.
  - reflexivity.
Defined.

Lemma _LeaseFlowProcessingRequests_leases_what_is_due_witness :
  exists db',
    _LeaseFlowProcessingRequests 5000 5000 "worker-1@host:4711:17" 10
                                 example_queue_db
    = (Ok (map fpr_of_row
               (List.filter (fpr_leasable 5000)
                            (flow_processing_requests example_queue_db))), db')
    /\ flow_processing_requests db'
       = map (fun x => if fpr_leasable 5000 x
                       then set_fpr_lease (5000 + FPR_LEASE_WINDOW)
                                          "worker-1@host:4711:17" x
                       else x)
             (flow_processing_requests example_queue_db)
    /\ (forall x delivery_time,
          FprRow.delivery_time x = Some delivery_time ->
          5000 < delivery_time -> fpr_leasable 5000 x = false)
    /\ (forall x leased_until,
          FprRow.leased_until x = Some leased_until ->
          5000 <= leased_until -> fpr_leasable 5000 x = false).
Proof.
  apply (_LeaseFlowProcessingRequests_leases_what_is_due 5000 5000
           "worker-1@host:4711:17" 10 example_queue_db).
  - vm_compute. reflexivity.
  - vm_compute. discriminate.
  - repeat constructor.
Defined.

Lemma running_lease_is_respected_witness :
  let x := set_fpr_lease (5000 + FPR_LEASE_WINDOW) "worker-1@host:4711:17"
                         (fpr_row 4000 (example_fpr "ABCDEF01")) in
  In x (flow_processing_requests example_second_lease.2)
  /\ exists rows,
       match example_second_lease.1 with
       | Ok requests => requests
       | Raise _ => []
       end = map fpr_of_row rows
       /\ ~ In x rows
       /\ Forall (fun y => In y (flow_processing_requests example_second_lease.2)
                           /\ FprRow.leased_by y
                              = Some "worker-2@host:4712:99"%string) rows.
Proof.
  intros x.
  apply (running_lease_is_respected 6000 6000 "worker-2@host:4712:99" 10
           example_leased_db example_second_lease.2
           (match example_second_lease.1 with
            | Ok requests => requests
            | Raise _ => []
            end)
           x (5000 + FPR_LEASE_WINDOW)).
  - vm_compute. left. reflexivity.
  - reflexivity.
  - vm_compute. discriminate.
  - discriminate.
  - reflexivity.
Defined.

Lemma _LeaseMessageHandlerRequests_leases_what_is_free_witness :
  _LeaseMessageHandlerRequests 5000 "MainThread@host:4711" 600 1000
                               example_inbox_db
  = (Ok (map (mhr_of_row "MainThread@host:4711" (5000 + 600))
             (List.filter (mhr_leasable 5000)
                          (message_handler_requests example_inbox_db))),
     set_message_handler_requests example_inbox_db
       (update_where (mhr_leasable 5000)
                     (set_mhr_lease (5000 + 600) "MainThread@host:4711")
                     (message_handler_requests example_inbox_db))).
Proof.
  apply (_LeaseMessageHandlerRequests_leases_what_is_free 5000
           "MainThread@host:4711" 600 1000 example_inbox_db).
  - vm_compute. reflexivity.
  - lia.
  - vm_compute. repeat constructor.
Defined.

Lemma DeleteMessageHandlerRequests_by_request_id_witness :
  exists db',
    DeleteMessageHandlerRequests [example_message 1] example_inbox_db
    = (Ok tt, db')
    /\ message_handler_requests db'
       = List.filter
           (fun x => negb (existsb (fun r => MhrRow.request_id x
                                             =? MessageHandlerRequest.request_id r)
                                   [example_message 1]))
           (message_handler_requests example_inbox_db)
    /\ flows db' = flows example_inbox_db
    /\ flow_requests db' = flow_requests example_inbox_db
    /\ flow_responses db' = flow_responses example_inbox_db
    /\ flow_processing_requests db' = flow_processing_requests example_inbox_db
    /\ hunts db' = hunts example_inbox_db.
Proof.
  apply (DeleteMessageHandlerRequests_by_request_id [example_message 1]
           example_inbox_db).
  discriminate.
Defined.
